(** * Horizontal Pod Autoscaler: metric gathering and evaluation

    A shallow embedding of the Go sources of the autoscaler: the pod
    classifier [groupPods], the replica calculations of the evaluator
    ([getUsageRatioReplicaCount], [getPlainMetricReplicaCount], the resource
    evaluation in utilization mode) and the two facades ([GetMetrics],
    [GetEvaluation]), in the two revisions of the evaluator that the sources
    hold: the 2019 [Evaluator] (one file) and the 2021 [Evaluate] (one
    evaluator per metric source behind interfaces).

    Conventions.
    - Go's [int], [int32] and [int64] are [Z] (counters that only count list
      elements are [nat]); [float64] is Rocq's primitive binary64 [float].
    - [map[string]T] is [gmap string T], [sets.String] is [gset string].
    - A function returning [(T, error)] returns a [Go.result T]; a run-time
      panic (a nil dereference, an integer division by zero) is
      [Go.Panic].
    - The sample map that [getPlainMetricReplicaCount] updates in place is
      threaded through: the function returns the final map next to its
      result.  The utilization mode updates its map in the same way; there
      the fill-in is a function of its own and only the result is returned.
    - [time.Time] and [time.Duration] are [Z] (nanoseconds); [time.Now()] is
      an explicit argument [now]. *)

From Stdlib Require Import ZArith Floats Lia.
From stdpp Require Import base option list gmap sets strings pretty.

#[local] Set Warnings "-clear-no-such-hyp".

(** ** Go primitives *)

Module Go.

Inductive result (A : Type) : Type :=
| Ok (a : A)
| Err (msg : string)
| Panic.
Arguments Ok {A} a.
Arguments Err {A} msg.
Arguments Panic {A}.

Definition isErr {A} (r : result A) : Prop :=
  match r with Err _ => True | _ => False end.

Definition int32_min : Z := -2147483648.
Definition int32_max : Z := 2147483647.

(** [float64(n)]: the binary64 nearest to the integer [n]. *)
Definition float64_of_Z (n : Z) : float :=
  SF2Prim (binary_normalize prec emax n 0 false).

(** The integer [math.Ceil(x)], for finite [x]. *)
Definition ceilZ (x : float) : option Z :=
  match Prim2SF x with
  | S754_zero _ => Some 0%Z
  | S754_finite s m ex =>
      let n := if s then Z.neg m else Z.pos m in
      Some (if (0 <=? ex)%Z then (n * 2 ^ ex)%Z
            else (- ((- n) / 2 ^ (- ex)))%Z)
  | S754_infinity _ | S754_nan => None
  end.

(** [int32(math.Ceil(x))].  Outside the range of [int32], and for NaN and
    the infinities, Go leaves the converted value to the implementation;
    the amd64 value [math.MinInt32] stands for it. *)
Definition int32_ceil (x : float) : Z :=
  match ceilZ x with
  | Some z =>
      if ((int32_min <=? z) && (z <=? int32_max))%Z then z else int32_min
  | None => int32_min
  end.

(** The verbs of [fmt.Errorf] that the sources use. *)
Definition fmt_int (n : Z) : string := pretty n.

Definition fmt_error (err : option string) : string :=
  default "<nil>"%string err.

Definition dquote : string := String (Ascii.ascii_of_nat 34) EmptyString.

(** [%q] on a string without characters that need escaping. *)
Definition fmt_q (s : string) : string := dquote +:+ s +:+ dquote.

End Go.

Import Go.

(** ** k8s.io/kubernetes/pkg/controller/podautoscaler/metrics *)

Module metricsclient.

Record PodMetric : Type := mkPodMetric {
  Timestamp : Z;
  Window : Z;
  Value : Z
}.

Abbreviation PodMetricsInfo := (gmap string PodMetric).

(** [PodMetric{Value: v}]: the other fields are zero. *)
Definition withValue (v : Z) : PodMetric :=
  {| Timestamp := 0; Window := 0; Value := v |}.

(** The two ratio helpers of the metrics client, as the evaluator sees
    them.  Their callers keep the usage ratio (and the error) and drop the
    other results.  [GetMetricUtilizationRatio] has no error result; it
    returns [Panic] where the helper panics. *)
Class Ratios : Type := {
  GetMetricUtilizationRatio : PodMetricsInfo → Z → result float;
  GetResourceUtilizationRatio :
    PodMetricsInfo → gmap string Z → Z → result float
}.

Definition metricsTotal (metrics : PodMetricsInfo) : Z :=
  map_fold (λ _ metric total, (total + Value metric)%Z) 0%Z metrics.

(** Modelled from the spec: the body of the vendored helper
    GetMetricUtilizationRatio is not among the sources; the spec gives
    u = (sum of the samples) / (number of samples * T).  The helper takes
    the average of the samples first, in [int64]: the division truncates,
    and it panics on an empty sample map (integer divide by zero). *)
Definition specMetricUtilizationRatio
    (metrics : PodMetricsInfo) (targetUtilization : Z) : result float :=
  if bool_decide (size metrics = 0%nat) then Panic
  else
    let currentUtilization :=
      (metricsTotal metrics ÷ Z.of_nat (size metrics))%Z in
    Ok (float64_of_Z currentUtilization
        / float64_of_Z targetUtilization)%float.

(** The samples of the pods that have a request. *)
Definition known (metrics : PodMetricsInfo) (requests : gmap string Z)
    : PodMetricsInfo :=
  filter (λ kv, is_Some (requests !! kv.1)) metrics.

Definition requestsTotal (metrics : PodMetricsInfo)
    (requests : gmap string Z) : Z :=
  map_fold (λ podName _ total,
              (total + default 0 (requests !! podName))%Z)
           0%Z (known metrics requests).

(** Modelled from the spec: the body of the vendored helper
    GetResourceUtilizationRatio is not among the sources; the spec gives
    u = (sum of the samples / sum of the requests) / (target
    utilization as a fraction), and the call fails when no sample matches
    a pod with a known request. *)
Definition specResourceUtilizationRatio
    (metrics : PodMetricsInfo) (requests : gmap string Z)
    (targetUtilization : Z) : result float :=
  if bool_decide (known metrics requests = ∅)
  then Err "no metrics returned matched known pods"
  else Ok ((float64_of_Z (metricsTotal (known metrics requests))
            / float64_of_Z (requestsTotal metrics requests))
           / (float64_of_Z targetUtilization / float64_of_Z 100))%float.

Definition specRatios : Ratios := {|
  GetMetricUtilizationRatio := specMetricUtilizationRatio;
  GetResourceUtilizationRatio := specResourceUtilizationRatio
|}.

(** [for podName := range pods { metrics[podName] = PodMetric{Value: v podName} }] *)
Definition setSamples (pods : gset string) (v : string → Z)
    (metrics : PodMetricsInfo) : PodMetricsInfo :=
  set_fold (λ podName acc, <[podName := withValue (v podName)]> acc)
           metrics pods.

End metricsclient.

Import metricsclient.

(** [result] as an error monad, for the chains of dereferences and calls. *)
#[global] Instance result_ret : MRet result := λ A a, Ok a.
#[global] Instance result_bind : MBind result := λ A B f r,
  match r with
  | Ok a => f a
  | Err msg => Err msg
  | Panic => Panic
  end.

(** [*p], [p.f] or [p.m()] on a pointer that may be nil. *)
Definition deref {A} (p : option A) : result A :=
  match p with
  | Some a => Ok a
  | None => Panic
  end.

(** ** k8s.io/api/autoscaling/v2beta2: the fields that the sources read *)

Module Quantity.
Record t : Type := mk { MilliValue : Z }.
End Quantity.

Module MetricTarget.
Record t : Type := mk {
  Type_ : string;
  Value : option Quantity.t;
  AverageValue : option Quantity.t;
  AverageUtilization : option Z
}.
End MetricTarget.

Module ObjectMetricSource.
Record t : Type := mk { Target : MetricTarget.t }.
End ObjectMetricSource.

Module PodsMetricSource.
Record t : Type := mk { Target : MetricTarget.t }.
End PodsMetricSource.

Module ResourceMetricSource.
Record t : Type := mk { Name : string; Target : MetricTarget.t }.
End ResourceMetricSource.

Module ExternalMetricSource.
Record t : Type := mk { Target : MetricTarget.t }.
End ExternalMetricSource.

Module MetricSpec.
Record t : Type := mk {
  Type_ : string;
  Object : option ObjectMetricSource.t;
  Pods : option PodsMetricSource.t;
  Resource : option ResourceMetricSource.t;
  External : option ExternalMetricSource.t
}.
End MetricSpec.

Definition ObjectMetricSourceType : string := "Object".
Definition PodsMetricSourceType : string := "Pods".
Definition ResourceMetricSourceType : string := "Resource".
Definition ExternalMetricSourceType : string := "External".

Definition ValueMetricType : string := "Value".
Definition AverageValueMetricType : string := "AverageValue".

(** ** metric: the gathered metrics (src/metric/types.go)

    [CombinedMetric] (2019) and [Metric] (2021) have the same fields, and so
    have the per-source metrics they point to; one record stands for both. *)

Module ResourceMetric.
Record t : Type := mk {
  PodMetricsInfo : gmap string PodMetric;
  Requests : gmap string Z;
  ReadyPodCount : Z;
  IgnoredPods : gset string;
  MissingPods : gset string;
  TotalPods : Z;
  Timestamp : Z
}.
End ResourceMetric.

Module PodsMetric.
Record t : Type := mk {
  PodMetricsInfo : gmap string PodMetric;
  ReadyPodCount : Z;
  IgnoredPods : gset string;
  MissingPods : gset string;
  TotalPods : Z;
  Timestamp : Z
}.
End PodsMetric.

Module ObjectMetric.
Record t : Type := mk {
  Utilization : Z;
  ReadyPodCount : option Z;
  Timestamp : Z
}.
End ObjectMetric.

Module ExternalMetric.
Record t : Type := mk {
  Utilization : Z;
  ReadyPodCount : option Z;
  Timestamp : Z
}.
End ExternalMetric.

Module CombinedMetric.
Record t : Type := mk {
  CurrentReplicas : Z;
  Spec : MetricSpec.t;
  Resource : option ResourceMetric.t;
  Pods : option PodsMetric.t;
  Object : option ObjectMetric.t;
  External : option ExternalMetric.t
}.
End CombinedMetric.

Abbreviation Metric := CombinedMetric.t.

(** github.com/jthomperoo/custom-pod-autoscaler/evaluate *)
Record Evaluation : Type := mkEvaluation { TargetReplicas : Z }.

(** The message of the facades when every input is invalid. *)
Definition allInvalid (what : string) (invalid len : nat)
    (first : option string) : string :=
  "invalid " +:+ what +:+ " (" +:+ fmt_int (Z.of_nat invalid)
  +:+ " invalid out of " +:+ fmt_int (Z.of_nat len)
  +:+ "), first error is: " +:+ fmt_error first.

Definition unknownSourceType (type : string) : string :=
  "unknown metric source type " +:+ fmt_q type.

(** ** The ratio engine: the statements that the 2019 evaluator and the
    2021 resource evaluator share word for word *)

Section RatioEngine.
Context `{mc : Ratios}.
Variable tolerance : float.

(** [math.Abs(1.0-usageRatio) <= e.Tolerance] *)
Definition withinTolerance (usageRatio : float) : bool :=
  (abs (1 - usageRatio) <=? tolerance)%float.

(** [(usageRatio < 1.0 && newUsageRatio > 1.0) ||
     (usageRatio > 1.0 && newUsageRatio < 1.0)] *)
Definition changesDirection (usageRatio newUsageRatio : float) : bool :=
  ((usageRatio <? 1) && (1 <? newUsageRatio)
   || (1 <? usageRatio) && (newUsageRatio <? 1))%float.

(** [len(ignoredPods) > 0 && usageRatio > 1.0] *)
Definition rebalance (ignoredPods : gset string) (usageRatio : float) : bool :=
  bool_decide (0 < size ignoredPods)%nat && (1 <? usageRatio)%float.

(** The fill-in of the utilization mode: the blocks
    [if len(missingPods) > 0 {...}] and [if rebalanceIgnored {...}].  A pod
    without a request gets [requests[podName]], the zero value. *)
Definition utilizationFillIn (usageRatio : float) (rebalanceIgnored : bool)
    (requests : gmap string Z) (missingPods ignoredPods : gset string)
    (metrics : PodMetricsInfo) : PodMetricsInfo :=
  let metrics :=
    if bool_decide (0 < size missingPods)%nat then
      if (usageRatio <? 1)%float
      then setSamples missingPods (λ podName, default 0%Z (requests !! podName))
                      metrics
      else if (1 <? usageRatio)%float
      then setSamples missingPods (λ _, 0%Z) metrics
      else metrics
    else metrics in
  if rebalanceIgnored
  then setSamples ignoredPods (λ _, 0%Z) metrics
  else metrics.

(** The branch [Target.AverageUtilization != nil] of the resource
    evaluation. *)
Definition utilizationEvaluation (currentReplicas : Z)
    (measured : ResourceMetric.t) (targetUtilization : Z)
    : result Evaluation :=
  let metrics := ResourceMetric.PodMetricsInfo measured in
  let requests := ResourceMetric.Requests measured in
  let ignoredPods := ResourceMetric.IgnoredPods measured in
  let missingPods := ResourceMetric.MissingPods measured in
  let readyPodCount := ResourceMetric.ReadyPodCount measured in
  usageRatio ← GetResourceUtilizationRatio metrics requests targetUtilization;
  let rebalanceIgnored := rebalance ignoredPods usageRatio in
  if negb rebalanceIgnored && bool_decide (size missingPods = 0%nat) then
    if withinTolerance usageRatio
    then Ok {| TargetReplicas := currentReplicas |}
    else Ok {| TargetReplicas :=
                 int32_ceil (usageRatio * float64_of_Z readyPodCount) |}
  else
    let metrics :=
      utilizationFillIn usageRatio rebalanceIgnored requests
                        missingPods ignoredPods metrics in
    newUsageRatio ← GetResourceUtilizationRatio metrics requests targetUtilization;
    if withinTolerance newUsageRatio
       || changesDirection usageRatio newUsageRatio
    then Ok {| TargetReplicas := currentReplicas |}
    else Ok {| TargetReplicas :=
                 int32_ceil (newUsageRatio
                             * float64_of_Z (Z.of_nat (size metrics))) |}.

End RatioEngine.

(** ** The 2019 evaluator (package evaluate, one file) *)

Module evaluate2019.

Record Evaluator : Type := mkEvaluator { Tolerance : float }.

Section Evaluator.
Context `{mc : Ratios}.
Variable e : Evaluator.

Definition getUsageRatioReplicaCount
    (currentReplicas : Z) (usageRatio : float) (readyPodCount : Z) : Z :=
  if bool_decide (currentReplicas ≠ 0%Z) then
    if withinTolerance (Tolerance e) usageRatio then currentReplicas
    else int32_ceil (usageRatio * float64_of_Z readyPodCount)
  else int32_ceil usageRatio.

(** The fill-in of [getPlainMetricReplicaCount]: the blocks
    [if len(missingPods) > 0 {...}] and [if rebalanceIgnored {...}]. *)
Definition plainFillIn (usageRatio : float) (rebalanceIgnored : bool)
    (targetUtilization : Z) (missingPods ignoredPods : gset string)
    (metrics : PodMetricsInfo) : PodMetricsInfo :=
  let metrics :=
    if bool_decide (0 < size missingPods)%nat then
      if (usageRatio <? 1)%float
      then setSamples missingPods (λ _, targetUtilization) metrics
      else setSamples missingPods (λ _, 0%Z) metrics
    else metrics in
  if rebalanceIgnored
  then setSamples ignoredPods (λ _, 0%Z) metrics
  else metrics.

(** Returns the replica count and the sample map as the call leaves it;
    panics where a call of the ratio helper does. *)
Definition getPlainMetricReplicaCount
    (metrics : PodMetricsInfo) (currentReplicas : Z)
    (targetUtilization : Z) (readyPodCount : Z)
    (missingPods ignoredPods : gset string) : result (Z * PodMetricsInfo) :=
  usageRatio ← GetMetricUtilizationRatio metrics targetUtilization;
  let rebalanceIgnored := rebalance ignoredPods usageRatio in
  if negb rebalanceIgnored && bool_decide (size missingPods = 0%nat) then
    if withinTolerance (Tolerance e) usageRatio
    then Ok (currentReplicas, metrics)
    else Ok (int32_ceil (usageRatio * float64_of_Z readyPodCount), metrics)
  else
    let metrics :=
      plainFillIn usageRatio rebalanceIgnored targetUtilization
                  missingPods ignoredPods metrics in
    newUsageRatio ← GetMetricUtilizationRatio metrics targetUtilization;
    if withinTolerance (Tolerance e) newUsageRatio
       || changesDirection usageRatio newUsageRatio
    then Ok (currentReplicas, metrics)
    else Ok (int32_ceil (newUsageRatio
                         * float64_of_Z (Z.of_nat (size metrics))),
             metrics).

Definition getObjectEvaluation (currentReplicas : Z) (gatheredMetric : Metric)
    : result Evaluation :=
  object ← deref (MetricSpec.Object (CombinedMetric.Spec gatheredMetric));
  let target := ObjectMetricSource.Target object in
  if bool_decide (MetricTarget.Type_ target = ValueMetricType) then
    measured ← deref (CombinedMetric.Object gatheredMetric);
    value ← deref (MetricTarget.Value target);
    let usageRatio :=
      (float64_of_Z (ObjectMetric.Utilization measured)
       / float64_of_Z (Quantity.MilliValue value))%float in
    readyPodCount ← deref (ObjectMetric.ReadyPodCount measured);
    Ok {| TargetReplicas :=
            getUsageRatioReplicaCount currentReplicas usageRatio readyPodCount |}
  else if bool_decide (MetricTarget.Type_ target = AverageValueMetricType) then
    measured ← deref (CombinedMetric.Object gatheredMetric);
    let utilization := ObjectMetric.Utilization measured in
    averageValue ← deref (MetricTarget.AverageValue target);
    let usageRatio :=
      (float64_of_Z utilization
       / (float64_of_Z (Quantity.MilliValue averageValue)
          * float64_of_Z currentReplicas))%float in
    if (Tolerance e <? abs (1 - usageRatio))%float
    then Ok {| TargetReplicas :=
                 int32_ceil (float64_of_Z utilization
                             / float64_of_Z (Quantity.MilliValue averageValue)) |}
    else Ok {| TargetReplicas := currentReplicas |}
  else Err "invalid object metric source: neither a value target nor an average value target was set".

(** Reads the missing and the ignored pods of [gatheredMetric.Resource]. *)
Definition getPodsEvaluation (currentReplicas : Z) (gatheredMetric : Metric)
    : result Evaluation :=
  measured ← deref (CombinedMetric.Pods gatheredMetric);
  pods ← deref (MetricSpec.Pods (CombinedMetric.Spec gatheredMetric));
  value ← deref (MetricTarget.Value (PodsMetricSource.Target pods));
  resource ← deref (CombinedMetric.Resource gatheredMetric);
  outcome ← getPlainMetricReplicaCount
              (PodsMetric.PodMetricsInfo measured)
              currentReplicas
              (Quantity.MilliValue value)
              (PodsMetric.ReadyPodCount measured)
              (ResourceMetric.MissingPods resource)
              (ResourceMetric.IgnoredPods resource);
  Ok {| TargetReplicas := outcome.1 |}.

(** The average-value branch takes its target from [Spec.Object]. *)
Definition getResourceEvaluation (currentReplicas : Z)
    (gatheredMetric : Metric) : result Evaluation :=
  resource ← deref (MetricSpec.Resource (CombinedMetric.Spec gatheredMetric));
  let target := ResourceMetricSource.Target resource in
  if bool_decide (MetricTarget.AverageValue target ≠ None) then
    measured ← deref (CombinedMetric.Resource gatheredMetric);
    object ← deref (MetricSpec.Object (CombinedMetric.Spec gatheredMetric));
    averageValue ←
      deref (MetricTarget.AverageValue (ObjectMetricSource.Target object));
    outcome ← getPlainMetricReplicaCount
                (ResourceMetric.PodMetricsInfo measured)
                currentReplicas
                (Quantity.MilliValue averageValue)
                (ResourceMetric.ReadyPodCount measured)
                (ResourceMetric.MissingPods measured)
                (ResourceMetric.IgnoredPods measured);
    Ok {| TargetReplicas := outcome.1 |}
  else
    match MetricTarget.AverageUtilization target with
    | Some targetUtilization =>
        measured ← deref (CombinedMetric.Resource gatheredMetric);
        utilizationEvaluation (Tolerance e) currentReplicas measured
                              targetUtilization
    | None =>
        Err "invalid resource metric source: neither a utilization target nor a value target was set"
    end.

Definition getExternalEvaluation (currentReplicas : Z)
    (gatheredMetric : Metric) : result Evaluation :=
  external ← deref (MetricSpec.External (CombinedMetric.Spec gatheredMetric));
  let target := ExternalMetricSource.Target external in
  match MetricTarget.AverageValue target with
  | Some averageValue =>
      measured ← deref (CombinedMetric.External gatheredMetric);
      let utilization := ExternalMetric.Utilization measured in
      let targetUtilizationPerPod := Quantity.MilliValue averageValue in
      let usageRatio :=
        (float64_of_Z utilization
         / (float64_of_Z targetUtilizationPerPod
            * float64_of_Z currentReplicas))%float in
      if (Tolerance e <? abs (1 - usageRatio))%float
      then Ok {| TargetReplicas :=
                   int32_ceil (float64_of_Z utilization
                               / float64_of_Z targetUtilizationPerPod) |}
      else Ok {| TargetReplicas := currentReplicas |}
  | None =>
      if bool_decide (MetricTarget.AverageUtilization target ≠ None) then
        measured ← deref (CombinedMetric.External gatheredMetric);
        let utilization := ExternalMetric.Utilization measured in
        value ← deref (MetricTarget.Value target);
        let usageRatio :=
          (float64_of_Z utilization
           / float64_of_Z (Quantity.MilliValue value))%float in
        readyPodCount ← deref (ExternalMetric.ReadyPodCount measured);
        Ok {| TargetReplicas :=
                getUsageRatioReplicaCount currentReplicas usageRatio
                                          readyPodCount |}
      else Err "invalid external metric source: neither a value target nor an average value target was set"
  end.

Definition getEvaluation (currentReplicas : Z) (gatheredMetric : Metric)
    : result Evaluation :=
  let type := MetricSpec.Type_ (CombinedMetric.Spec gatheredMetric) in
  if bool_decide (type = ObjectMetricSourceType)
  then getObjectEvaluation currentReplicas gatheredMetric
  else if bool_decide (type = PodsMetricSourceType)
  then getPodsEvaluation currentReplicas gatheredMetric
  else if bool_decide (type = ResourceMetricSourceType)
  then getResourceEvaluation currentReplicas gatheredMetric
  else if bool_decide (type = ExternalMetricSourceType)
  then getExternalEvaluation currentReplicas gatheredMetric
  else Err (unknownSourceType type).

(** The loop of [GetEvaluation]: [evaluation] is the best evaluation so far
    ([None] for nil).  A metric that fails to evaluate ends the call with
    its error: [if err != nil { return nil, err }]. *)
Fixpoint evaluateAll (gatheredMetrics : list Metric)
    (evaluation : option Evaluation) : result (option Evaluation) :=
  match gatheredMetrics with
  | [] => Ok evaluation
  | gatheredMetric :: rest =>
      proposedEvaluation ←
        getEvaluation (CombinedMetric.CurrentReplicas gatheredMetric)
                      gatheredMetric;
      match evaluation with
      | None => evaluateAll rest (Some proposedEvaluation)
      | Some best =>
          if bool_decide (TargetReplicas best < TargetReplicas proposedEvaluation)%Z
          then evaluateAll rest (Some proposedEvaluation)
          else evaluateAll rest (Some best)
      end
  end.

(** [invalidEvaluationsCount] and [invalidEvaluationError] keep their
    initial values, 0 and nil, to the end of the loop.  The result is the
    pointer [evaluation], [None] for nil. *)
Definition GetEvaluation (gatheredMetrics : list Metric)
    : result (option Evaluation) :=
  evaluation ← evaluateAll gatheredMetrics None;
  let invalidEvaluationsCount := 0%nat in
  let invalidEvaluationError : option string := None in
  if bool_decide (length gatheredMetrics ≤ invalidEvaluationsCount)%nat
  then Err (allInvalid "evaluations" invalidEvaluationsCount
                       (length gatheredMetrics) invalidEvaluationError)
  else Ok evaluation.

End Evaluator.

End evaluate2019.

(** ** The 2021 evaluator: one evaluator per metric source, behind
    interfaces *)

Module evaluate2021.

(** calculate.Calculater, as the callers and the fake use it.
    [GetPlainMetricReplicaCount] calls the ratio helper of the metrics
    client and panics where the helper does. *)
Record Calculater : Type := mkCalculater {
  GetUsageRatioReplicaCount : Z → float → Z → Z;
  GetPlainMetricReplicaCount :
    PodMetricsInfo → Z → Z → Z → gset string → gset string → result Z
}.

Module resource.

Record Evaluate : Type := mk { Calculater_ : Calculater; Tolerance : float }.

Section Evaluate.
Context `{mc : Ratios}.
Variable e : Evaluate.

Definition GetEvaluation (currentReplicas : Z) (gatheredMetric : Metric)
    : result Evaluation :=
  resource ← deref (MetricSpec.Resource (CombinedMetric.Spec gatheredMetric));
  let target := ResourceMetricSource.Target resource in
  match MetricTarget.AverageValue target with
  | Some averageValue =>
      measured ← deref (CombinedMetric.Resource gatheredMetric);
      replicaCount ← GetPlainMetricReplicaCount (Calculater_ e)
                       (ResourceMetric.PodMetricsInfo measured)
                       currentReplicas
                       (Quantity.MilliValue averageValue)
                       (ResourceMetric.ReadyPodCount measured)
                       (ResourceMetric.MissingPods measured)
                       (ResourceMetric.IgnoredPods measured);
      Ok {| TargetReplicas := replicaCount |}
  | None =>
      match MetricTarget.AverageUtilization target with
      | Some targetUtilization =>
          measured ← deref (CombinedMetric.Resource gatheredMetric);
          utilizationEvaluation (Tolerance e) currentReplicas measured
                                targetUtilization
      | None =>
          Err "invalid resource metric source: neither a utilization target nor a value target was set"
      end
  end.

End Evaluate.

End resource.

(** The four evaluators of the facade, each an interface in the source.
    The pods evaluator returns no error. *)
Record Evaluate : Type := mkEvaluate {
  External : Z → Metric → result Evaluation;
  Object : Z → Metric → result Evaluation;
  Pods : Z → Metric → Evaluation;
  Resource : Z → Metric → result Evaluation
}.

Section Evaluate.
Variable e : Evaluate.

Definition getEvaluation (currentReplicas : Z) (gatheredMetric : Metric)
    : result Evaluation :=
  let type := MetricSpec.Type_ (CombinedMetric.Spec gatheredMetric) in
  if bool_decide (type = ObjectMetricSourceType)
  then Object e currentReplicas gatheredMetric
  else if bool_decide (type = PodsMetricSourceType)
  then Ok (Pods e currentReplicas gatheredMetric)
  else if bool_decide (type = ResourceMetricSourceType)
  then Resource e currentReplicas gatheredMetric
  else if bool_decide (type = ExternalMetricSourceType)
  then External e currentReplicas gatheredMetric
  else Err (unknownSourceType type).

(** The variables that the loop of [GetEvaluation] updates. *)
Record loopState : Type := mkLoopState {
  evaluation : option Evaluation;
  invalidEvaluationError : option string;
  invalidEvaluationsCount : nat
}.

Definition loopStep (st : loopState) (gatheredMetric : Metric)
    : result loopState :=
  match getEvaluation (CombinedMetric.CurrentReplicas gatheredMetric)
                      gatheredMetric with
  | Panic => Panic
  | Err err =>
      Ok {| evaluation := evaluation st;
            invalidEvaluationError :=
              if bool_decide (invalidEvaluationsCount st ≤ 0)%nat
              then Some err else invalidEvaluationError st;
            invalidEvaluationsCount := S (invalidEvaluationsCount st) |}
  | Ok proposedEvaluation =>
      match evaluation st with
      | None =>
          Ok {| evaluation := Some proposedEvaluation;
                invalidEvaluationError := invalidEvaluationError st;
                invalidEvaluationsCount := invalidEvaluationsCount st |}
      | Some best =>
          if bool_decide (TargetReplicas best
                          < TargetReplicas proposedEvaluation)%Z
          then Ok {| evaluation := Some proposedEvaluation;
                     invalidEvaluationError := invalidEvaluationError st;
                     invalidEvaluationsCount := invalidEvaluationsCount st |}
          else Ok st
      end
  end.

Fixpoint evaluateAll (gatheredMetrics : list Metric) (st : loopState)
    : result loopState :=
  match gatheredMetrics with
  | [] => Ok st
  | gatheredMetric :: rest =>
      st ← loopStep st gatheredMetric; evaluateAll rest st
  end.

Definition GetEvaluation (gatheredMetrics : list Metric)
    : result (option Evaluation) :=
  st ← evaluateAll gatheredMetrics
         {| evaluation := None;
            invalidEvaluationError := None;
            invalidEvaluationsCount := 0 |};
  if bool_decide (length gatheredMetrics ≤ invalidEvaluationsCount st)%nat
  then Err (allInvalid "evaluations" (invalidEvaluationsCount st)
                       (length gatheredMetrics) (invalidEvaluationError st))
  else Ok (evaluation st).

End Evaluate.

End evaluate2021.

(** ** k8s.io/api/core/v1: the fields of a pod that the classifier reads *)

Module v1.

Inductive PodPhase : Type :=
| PodPending | PodRunning | PodSucceeded | PodFailed | PodUnknown.

Inductive ConditionStatus : Type :=
| ConditionTrue | ConditionFalse | ConditionUnknown.

#[global] Instance PodPhase_eq_dec : EqDecision PodPhase.
Proof. solve_decision. Defined.

#[global] Instance ConditionStatus_eq_dec : EqDecision ConditionStatus.
Proof. solve_decision. Defined.

Record PodCondition : Type := mkPodCondition {
  Type_ : string;
  Status : ConditionStatus;
  LastTransitionTime : Z
}.

Record Pod : Type := mkPod {
  Name : string;
  DeletionTimestamp : option Z;
  Phase : PodPhase;
  StartTime : option Z;
  Conditions : list PodCondition
}.

Definition PodReady : string := "Ready".
Definition ResourceCPU : string := "cpu".

End v1.

(** ** The gatherer (package metric) *)

Module gather.

Import v1.

(** Modelled from the spec: the vendored helper podutil.GetPodCondition is
    not among the sources; the spec speaks of the ready condition of a pod,
    here the first condition of the asked type, nil when there is none. *)
Definition GetPodCondition (conditions : list PodCondition)
    (conditionType : string) : option PodCondition :=
  List.find (λ c, bool_decide (Type_ c = conditionType)) conditions.

(** [pod.DeletionTimestamp != nil || pod.Status.Phase == v1.PodFailed] *)
Definition skipped (pod : Pod) : bool :=
  bool_decide (DeletionTimestamp pod ≠ None)
  || bool_decide (Phase pod = PodFailed).

(** The value of [ignorePod] for a CPU sample. *)
Definition ignorePod (pod : Pod) (metric : PodMetric)
    (cpuInitializationPeriod delayOfInitialReadinessStatus now : Z) : bool :=
  match GetPodCondition (Conditions pod) PodReady, StartTime pod with
  | Some condition, Some startTime =>
      if bool_decide (now < startTime + cpuInitializationPeriod)%Z
      then bool_decide (Status condition = ConditionFalse)
           || bool_decide (Timestamp metric
                           < LastTransitionTime condition + Window metric)%Z
      else bool_decide (Status condition = ConditionFalse)
           && bool_decide (LastTransitionTime condition
                           < startTime + delayOfInitialReadinessStatus)%Z
  | _, _ => true
  end.

(** The three results of [groupPods], updated pod by pod. *)
Record groups : Type := mkGroups {
  readyPodCount : nat;
  ignoredPods : gset string;
  missingPods : gset string
}.

Section groupPods.
Variable metrics : PodMetricsInfo.
Variable resource : string.
Variables cpuInitializationPeriod delayOfInitialReadinessStatus : Z.
Variable now : Z.

Definition groupPod (g : groups) (pod : Pod) : groups :=
  if skipped pod then g
  else
    match metrics !! Name pod with
    | None =>
        {| readyPodCount := readyPodCount g;
           ignoredPods := ignoredPods g;
           missingPods := {[Name pod]} ∪ missingPods g |}
    | Some metric =>
        if bool_decide (resource = ResourceCPU)
           && ignorePod pod metric cpuInitializationPeriod
                        delayOfInitialReadinessStatus now
        then {| readyPodCount := readyPodCount g;
                ignoredPods := {[Name pod]} ∪ ignoredPods g;
                missingPods := missingPods g |}
        else {| readyPodCount := S (readyPodCount g);
                ignoredPods := ignoredPods g;
                missingPods := missingPods g |}
    end.

Definition groupPods (pods : list Pod) : groups :=
  foldl groupPod
        {| readyPodCount := 0; ignoredPods := ∅; missingPods := ∅ |} pods.

End groupPods.

(** The object whose replicas are scaled: one of the four kinds that
    [getReplicaCount] knows, with [Spec.Replicas], or another type, with
    its [%T]. *)
Inductive Object : Type :=
| Deployment (replicas : option Z)
| ReplicaSet (replicas : option Z)
| StatefulSet (replicas : option Z)
| ReplicationController (replicas : option Z)
| OtherObject (typeName : string).

Section GetMetrics.
(** [c.getMetric] with the namespace and the selector of the call: it asks
    the metrics client and the pod lister. *)
Variable getMetric : Z → MetricSpec.t → result Metric.

(** The variables that the loop of [GetMetrics] updates. *)
Record loopState : Type := mkLoopState {
  combinedMetrics : list Metric;
  invalidMetricError : option string;
  invalidMetricsCount : nat
}.

Definition loopStep (currentReplicas : Z) (st : loopState)
    (spec : MetricSpec.t) : result loopState :=
  match getMetric currentReplicas spec with
  | Panic => Panic
  | Err err =>
      Ok {| combinedMetrics := combinedMetrics st;
            invalidMetricError :=
              if bool_decide (invalidMetricsCount st ≤ 0)%nat
              then Some err else invalidMetricError st;
            invalidMetricsCount := S (invalidMetricsCount st) |}
  | Ok metric =>
      Ok {| combinedMetrics := combinedMetrics st ++ [metric];
            invalidMetricError := invalidMetricError st;
            invalidMetricsCount := invalidMetricsCount st |}
  end.

Fixpoint gatherAll (currentReplicas : Z) (specs : list MetricSpec.t)
    (st : loopState) : result loopState :=
  match specs with
  | [] => Ok st
  | spec :: rest =>
      st ← loopStep currentReplicas st spec; gatherAll currentReplicas rest st
  end.

(** The statements that the two revisions of [GetMetrics] share, from the
    loop on. *)
Definition gatherSpecs (currentReplicas : Z) (specs : list MetricSpec.t)
    : result (list Metric) :=
  st ← gatherAll currentReplicas specs
         {| combinedMetrics := [];
            invalidMetricError := None;
            invalidMetricsCount := 0 |};
  if bool_decide (length specs ≤ invalidMetricsCount st)%nat
  then Err (allInvalid "metrics" (invalidMetricsCount st) (length specs)
                       (invalidMetricError st))
  else Ok (combinedMetrics st).

(** 2019, [Gatherer.GetMetrics]: the target is a deployment. *)
Definition GetMetrics2019 (deploymentReplicas : option Z)
    (specs : list MetricSpec.t) : result (list Metric) :=
  let currentReplicas := default 0%Z deploymentReplicas in
  gatherSpecs currentReplicas specs.

Definition getReplicaCount (resource : Object) : result (option Z) :=
  match resource with
  | Deployment replicas | ReplicaSet replicas
  | StatefulSet replicas | ReplicationController replicas => Ok replicas
  | OtherObject typeName =>
      Err ("Unsupported resource of type " +:+ typeName)
  end.

(** 2021, [Gather.GetMetrics]. *)
Definition GetMetrics (resource : Object) (specs : list MetricSpec.t)
    : result (list Metric) :=
  resourceReplicas ← getReplicaCount resource;
  let currentReplicas := default 0%Z resourceReplicas in
  gatherSpecs currentReplicas specs.

End GetMetrics.

End gather.

(** ** Inputs of the examples, and the notions of the statements *)

Import evaluate2019.

(** The tolerance of the default configuration, [float64(0.1)]. *)
Definition defaultTolerance : float := 0x1.999999999999ap-4%float.

Definition defaultEvaluator : Evaluator := {| Tolerance := defaultTolerance |}.

Definition sample (podName : string) (value : Z)
    (metrics : PodMetricsInfo) : PodMetricsInfo :=
  <[podName := withValue value]> metrics.

(** The sign of the deviation [1 - u] of a usage ratio. *)
Definition deviationSign (usageRatio : float) : float_comparison :=
  PrimFloat.compare (1 - usageRatio) 0.

(** The exact value of a finite float, as a fraction [num / den] whose
    denominator is a power of two; [None] for NaN and the infinities. *)
Definition exactValue (x : float) : option (Z * Z) :=
  match Prim2SF x with
  | S754_zero _ => Some (0%Z, 1%Z)
  | S754_finite s m ex =>
      let n := if s then Z.neg m else Z.pos m in
      Some ((n * 2 ^ Z.max 0 ex)%Z, (2 ^ Z.max 0 (- ex))%Z)
  | S754_infinity _ | S754_nan => None
  end.

(** [n] is the ceiling of [x]: the integer with n - 1 < x <= n. *)
Definition isCeiling (n : Z) (x : float) : Prop :=
  ∃ num den, exactValue x = Some (num, den)
             ∧ ((n - 1) * den < num ≤ n * den)%Z.

(** [n] is a value of [int32]. *)
Definition isInt32 (n : Z) : Prop := (int32_min ≤ n ≤ int32_max)%Z.

(** [u] and [u'] lie strictly on opposite sides of 1. *)
Definition oppositeSides (usageRatio newUsageRatio : float) : Prop :=
  ((usageRatio <? 1)%float = true ∧ (1 <? newUsageRatio)%float = true)
  ∨ ((1 <? usageRatio)%float = true ∧ (newUsageRatio <? 1)%float = true).

(** A resource metric on CPU with a utilization target, in percent. *)
Definition utilizationSpec (targetUtilization : Z) : MetricSpec.t :=
  {| MetricSpec.Type_ := ResourceMetricSourceType;
     MetricSpec.Object := None;
     MetricSpec.Pods := None;
     MetricSpec.Resource :=
       Some {| ResourceMetricSource.Name := "cpu";
               ResourceMetricSource.Target :=
                 {| MetricTarget.Type_ := "Utilization";
                    MetricTarget.Value := None;
                    MetricTarget.AverageValue := None;
                    MetricTarget.AverageUtilization := Some targetUtilization |} |};
     MetricSpec.External := None |}.

Definition resourceMetric (currentReplicas : Z) (spec : MetricSpec.t)
    (measured : ResourceMetric.t) : Metric :=
  {| CombinedMetric.CurrentReplicas := currentReplicas;
     CombinedMetric.Spec := spec;
     CombinedMetric.Resource := Some measured;
     CombinedMetric.Pods := None;
     CombinedMetric.Object := None;
     CombinedMetric.External := None |}.

(** One sample of 15 for a request of 10, and a missing pod with a request
    of 10. *)
Definition measuredWithMissing : ResourceMetric.t :=
  {| ResourceMetric.PodMetricsInfo := sample "pod-1" 15 ∅;
     ResourceMetric.Requests := <["pod-1" := 10%Z]> (<["pod-2" := 10%Z]> ∅);
     ResourceMetric.ReadyPodCount := 1;
     ResourceMetric.IgnoredPods := ∅;
     ResourceMetric.MissingPods := {["pod-2"]};
     ResourceMetric.TotalPods := 2;
     ResourceMetric.Timestamp := 0 |}.

(** A calculater that is never asked. *)
Definition noCalculater : evaluate2021.Calculater :=
  {| evaluate2021.GetUsageRatioReplicaCount := λ _ _ _, 0%Z;
     evaluate2021.GetPlainMetricReplicaCount := λ _ _ _ _ _ _, Ok 0%Z |}.

Definition defaultResourceEvaluate : evaluate2021.resource.Evaluate :=
  {| evaluate2021.resource.Calculater_ := noCalculater;
     evaluate2021.resource.Tolerance := defaultTolerance |}.

(** The pods that the classification counts: not marked for deletion, and
    not in the phase Failed. *)
Definition counted (pod : v1.Pod) : Prop :=
  v1.DeletionTimestamp pod = None ∧ v1.Phase pod ≠ v1.PodFailed.

#[global] Instance counted_dec (pod : v1.Pod) : Decision (counted pod).
Proof. unfold counted. apply _. Defined.

(** The timing gate of a CPU sample, in the words of the contract: no ready
    condition or no start time; or inside the CPU initialization window with
    a ready status of False or a sample older than the last transition plus
    one window; or past the window, with a ready status of False and a last
    transition before the start time plus the initial readiness delay. *)
Definition cpuGated (pod : v1.Pod) (metric : PodMetric)
    (cpuInitializationPeriod delayOfInitialReadinessStatus now : Z) : Prop :=
  (gather.GetPodCondition (v1.Conditions pod) v1.PodReady = None
   ∨ v1.StartTime pod = None)
  ∨ ∃ condition startTime,
      gather.GetPodCondition (v1.Conditions pod) v1.PodReady = Some condition
      ∧ v1.StartTime pod = Some startTime
      ∧ ((now < startTime + cpuInitializationPeriod
          ∧ (v1.Status condition = v1.ConditionFalse
             ∨ Timestamp metric
               < v1.LastTransitionTime condition + Window metric))
         ∨ (¬ now < startTime + cpuInitializationPeriod
            ∧ v1.Status condition = v1.ConditionFalse
            ∧ v1.LastTransitionTime condition
              < startTime + delayOfInitialReadinessStatus))%Z.

(** A running pod without conditions. *)
Definition runningPod (name : string) : v1.Pod :=
  {| v1.Name := name;
     v1.DeletionTimestamp := None;
     v1.Phase := v1.PodRunning;
     v1.StartTime := Some 0%Z;
     v1.Conditions := [] |}.

(** The branch of [groupPods] that puts a pod among the missing pods. *)
Definition goesMissing (metrics : PodMetricsInfo) (pod : v1.Pod) : Prop :=
  gather.skipped pod = false ∧ metrics !! v1.Name pod = None.

(** The branch of [groupPods] that puts a pod among the ignored pods. *)
Definition goesIgnored (metrics : PodMetricsInfo) (resource : string)
    (cpuInitializationPeriod delayOfInitialReadinessStatus now : Z)
    (pod : v1.Pod) : Prop :=
  gather.skipped pod = false
  ∧ ∃ metric, metrics !! v1.Name pod = Some metric
              ∧ resource = v1.ResourceCPU
              ∧ gather.ignorePod pod metric cpuInitializationPeriod
                                 delayOfInitialReadinessStatus now = true.

(** ready + |ignored| + |missing| *)
Definition total (g : gather.groups) : nat :=
  gather.readyPodCount g + size (gather.ignoredPods g)
  + size (gather.missingPods g).

(** The target replica counts of the metrics that evaluate, and the errors
    of those that fail, both in input order. *)
Definition targets (evaluate : Metric → result Evaluation)
    (gatheredMetrics : list Metric) : list Z :=
  omap (λ gatheredMetric,
          match evaluate gatheredMetric with
          | Ok proposedEvaluation => Some (TargetReplicas proposedEvaluation)
          | _ => None
          end) gatheredMetrics.

Definition failures {A B} (run : A → result B) (inputs : list A)
    : list string :=
  omap (λ input, match run input with Err err => Some err | _ => None end)
       inputs.

(** [t] is the maximum of the list [l]. *)
Definition isMaximum (t : Z) (l : list Z) : Prop :=
  t ∈ l ∧ Forall (λ x, (x ≤ t)%Z) l.

(** The per-metric evaluation of each facade, as a function of the metric. *)
Definition evaluate2021_of (e : evaluate2021.Evaluate)
    (gatheredMetric : Metric) : result Evaluation :=
  evaluate2021.getEvaluation
    e (CombinedMetric.CurrentReplicas gatheredMetric) gatheredMetric.

Definition evaluate2019_of `{mc : Ratios} (e : Evaluator)
    (gatheredMetric : Metric) : result Evaluation :=
  getEvaluation e (CombinedMetric.CurrentReplicas gatheredMetric)
                gatheredMetric.

(** A gathered metric with only the type of its spec set. *)
Definition metricOfType (type : string) : Metric :=
  {| CombinedMetric.CurrentReplicas := 0;
     CombinedMetric.Spec :=
       {| MetricSpec.Type_ := type;
          MetricSpec.Object := None;
          MetricSpec.Pods := None;
          MetricSpec.Resource := None;
          MetricSpec.External := None |};
     CombinedMetric.Resource := None;
     CombinedMetric.Pods := None;
     CombinedMetric.Object := None;
     CombinedMetric.External := None |}.

Definition failing : Z → Metric → result Evaluation :=
  λ _ _, Err "fail to evaluate".

Definition yielding (targetReplicas : Z) : Z → Metric → result Evaluation :=
  λ _ _, Ok {| TargetReplicas := targetReplicas |}.

(** The evaluators of the facade test "2 success, 2 invalid, take the
    highest". *)
Definition twoOfFour : evaluate2021.Evaluate :=
  {| evaluate2021.External := failing;
     evaluate2021.Object := yielding 5;
     evaluate2021.Pods := λ _ _, {| TargetReplicas := 1 |};
     evaluate2021.Resource := failing |}.

(** The evaluators of the facade test "all success, take the highest". *)
Definition allFour : evaluate2021.Evaluate :=
  {| evaluate2021.External := yielding 9;
     evaluate2021.Object := yielding (-25);
     evaluate2021.Pods := λ _ _, {| TargetReplicas := 3 |};
     evaluate2021.Resource := yielding 5 |}.

Definition oneOfEach : list Metric :=
  [ metricOfType ObjectMetricSourceType;
    metricOfType ResourceMetricSourceType;
    metricOfType PodsMetricSourceType;
    metricOfType ExternalMetricSourceType ].

(** A resource metric on CPU with an average-value target, in milli-units;
    [object] is the field [Spec.Object]. *)
Definition averageValueSpec (averageValue : Z)
    (object : option ObjectMetricSource.t) : MetricSpec.t :=
  {| MetricSpec.Type_ := ResourceMetricSourceType;
     MetricSpec.Object := object;
     MetricSpec.Pods := None;
     MetricSpec.Resource :=
       Some {| ResourceMetricSource.Name := "cpu";
               ResourceMetricSource.Target :=
                 {| MetricTarget.Type_ := AverageValueMetricType;
                    MetricTarget.Value := None;
                    MetricTarget.AverageValue :=
                      Some {| Quantity.MilliValue := averageValue |};
                    MetricTarget.AverageUtilization := None |} |};
     MetricSpec.External := None |}.

Definition objectAverageValue (averageValue : Z) : ObjectMetricSource.t :=
  {| ObjectMetricSource.Target :=
       {| MetricTarget.Type_ := AverageValueMetricType;
          MetricTarget.Value := None;
          MetricTarget.AverageValue :=
            Some {| Quantity.MilliValue := averageValue |};
          MetricTarget.AverageUtilization := None |} |}.

(** Two ready pods with a sample of 100 each. *)
Definition measuredTwoPods : ResourceMetric.t :=
  {| ResourceMetric.PodMetricsInfo := sample "pod-1" 100 (sample "pod-2" 100 ∅);
     ResourceMetric.Requests := ∅;
     ResourceMetric.ReadyPodCount := 2;
     ResourceMetric.IgnoredPods := ∅;
     ResourceMetric.MissingPods := ∅;
     ResourceMetric.TotalPods := 2;
     ResourceMetric.Timestamp := 0 |}.

(** The calculater of the 2019 evaluator behind the 2021 interface. *)
Definition calculater2019 `{mc : Ratios} (e : Evaluator)
    : evaluate2021.Calculater :=
  {| evaluate2021.GetUsageRatioReplicaCount := getUsageRatioReplicaCount e;
     evaluate2021.GetPlainMetricReplicaCount :=
       λ metrics currentReplicas targetUtilization readyPodCount
         missingPods ignoredPods,
         outcome ← getPlainMetricReplicaCount e metrics currentReplicas
                     targetUtilization readyPodCount missingPods ignoredPods;
         Ok outcome.1 |}.

(** The evaluators of a facade whose resource metrics yield 5. *)
Definition resourceYields5 : evaluate2021.Evaluate :=
  {| evaluate2021.External := failing;
     evaluate2021.Object := failing;
     evaluate2021.Pods := λ _ _, {| TargetReplicas := 0 |};
     evaluate2021.Resource := yielding 5 |}.

(** A resource measurement from its samples, requests and groups. *)
Definition measure (metrics : PodMetricsInfo) (requests : gmap string Z)
    (readyPodCount : Z) (ignoredPods missingPods : gset string)
    : ResourceMetric.t :=
  {| ResourceMetric.PodMetricsInfo := metrics;
     ResourceMetric.Requests := requests;
     ResourceMetric.ReadyPodCount := readyPodCount;
     ResourceMetric.IgnoredPods := ignoredPods;
     ResourceMetric.MissingPods := missingPods;
     ResourceMetric.TotalPods :=
       readyPodCount + Z.of_nat (size ignoredPods + size missingPods);
     ResourceMetric.Timestamp := 0 |}.

Definition request (podName : string) (milli : Z)
    (requests : gmap string Z) : gmap string Z :=
  <[podName := milli]> requests.

(** The resource evaluator of the tests: utilization target 50. *)
Definition evaluateAt50 (tolerance : float) (currentReplicas : Z)
    (measured : ResourceMetric.t) : result Evaluation :=
  evaluate2021.resource.GetEvaluation (mc := specRatios)
    {| evaluate2021.resource.Calculater_ := noCalculater;
       evaluate2021.resource.Tolerance := tolerance |}
    currentReplicas
    (resourceMetric currentReplicas (utilizationSpec 50) measured).

(** ** More of the sources: the other evaluators of 2021 *)

Module perSource2021.

(** evaluate/object *)
Module object.

Record Evaluate : Type := mk {
  Calculater_ : evaluate2021.Calculater;
  Tolerance : float
}.

Definition GetEvaluation (e : Evaluate) (currentReplicas : Z)
    (gatheredMetric : Metric) : result Evaluation :=
  object ← deref (MetricSpec.Object (CombinedMetric.Spec gatheredMetric));
  let target := ObjectMetricSource.Target object in
  if bool_decide (MetricTarget.Type_ target = ValueMetricType) then
    measured ← deref (CombinedMetric.Object gatheredMetric);
    value ← deref (MetricTarget.Value target);
    let usageRatio :=
      (float64_of_Z (ObjectMetric.Utilization measured)
       / float64_of_Z (Quantity.MilliValue value))%float in
    readyPodCount ← deref (ObjectMetric.ReadyPodCount measured);
    Ok {| TargetReplicas :=
            evaluate2021.GetUsageRatioReplicaCount
              (Calculater_ e) currentReplicas usageRatio readyPodCount |}
  else if bool_decide (MetricTarget.Type_ target = AverageValueMetricType) then
    measured ← deref (CombinedMetric.Object gatheredMetric);
    let utilization := ObjectMetric.Utilization measured in
    averageValue ← deref (MetricTarget.AverageValue target);
    let usageRatio :=
      (float64_of_Z utilization
       / (float64_of_Z (Quantity.MilliValue averageValue)
          * float64_of_Z currentReplicas))%float in
    if (Tolerance e <? abs (1 - usageRatio))%float
    then Ok {| TargetReplicas :=
                 int32_ceil (float64_of_Z utilization
                             / float64_of_Z (Quantity.MilliValue averageValue)) |}
    else Ok {| TargetReplicas := currentReplicas |}
  else Err "invalid object metric source: neither a value target nor an average value target was set".

End object.

(** evaluate/external: the second branch asks for [Target.Value]. *)
Module external.

Record Evaluate : Type := mk {
  Calculater_ : evaluate2021.Calculater;
  Tolerance : float
}.

Definition GetEvaluation (e : Evaluate) (currentReplicas : Z)
    (gatheredMetric : Metric) : result Evaluation :=
  external ← deref (MetricSpec.External (CombinedMetric.Spec gatheredMetric));
  let target := ExternalMetricSource.Target external in
  match MetricTarget.AverageValue target with
  | Some averageValue =>
      measured ← deref (CombinedMetric.External gatheredMetric);
      let utilization := ExternalMetric.Utilization measured in
      let targetUtilizationPerPod := Quantity.MilliValue averageValue in
      let usageRatio :=
        (float64_of_Z utilization
         / (float64_of_Z targetUtilizationPerPod
            * float64_of_Z currentReplicas))%float in
      if (Tolerance e <? abs (1 - usageRatio))%float
      then Ok {| TargetReplicas :=
                   int32_ceil (float64_of_Z utilization
                               / float64_of_Z targetUtilizationPerPod) |}
      else Ok {| TargetReplicas := currentReplicas |}
  | None =>
      match MetricTarget.Value target with
      | Some value =>
          measured ← deref (CombinedMetric.External gatheredMetric);
          let utilization := ExternalMetric.Utilization measured in
          let usageRatio :=
            (float64_of_Z utilization
             / float64_of_Z (Quantity.MilliValue value))%float in
          readyPodCount ← deref (ExternalMetric.ReadyPodCount measured);
          Ok {| TargetReplicas :=
                  evaluate2021.GetUsageRatioReplicaCount
                    (Calculater_ e) currentReplicas usageRatio readyPodCount |}
      | None =>
          Err "invalid external metric source: neither a value target nor an average value target was set"
      end
  end.

End external.

(** evaluate/pods: no error result; a nil pointer still panics, and so
    does the calculation where the ratio helper panics. *)
Module pods.

Record Evaluate : Type := mk { Calculater_ : evaluate2021.Calculater }.

Definition GetEvaluation (e : Evaluate) (currentReplicas : Z)
    (gatheredMetric : Metric) : result Evaluation :=
  measured ← deref (CombinedMetric.Pods gatheredMetric);
  pods ← deref (MetricSpec.Pods (CombinedMetric.Spec gatheredMetric));
  averageValue ← deref (MetricTarget.AverageValue (PodsMetricSource.Target pods));
  targetReplicas ← evaluate2021.GetPlainMetricReplicaCount (Calculater_ e)
                     (PodsMetric.PodMetricsInfo measured)
                     currentReplicas
                     (Quantity.MilliValue averageValue)
                     (PodsMetric.ReadyPodCount measured)
                     (PodsMetric.MissingPods measured)
                     (PodsMetric.IgnoredPods measured);
  Ok {| TargetReplicas := targetReplicas |}.

End pods.

End perSource2021.

(** ** More of the sources: the per-source gatherers of 2019 and the
    dispatch of [getMetric] *)

Module gatherers.

(** [fmt.Errorf(prefix + "%v", err)] around a call. *)
Definition wrapErr {A} (prefix : string) (r : result A) : result A :=
  match r with
  | Err err => Err (prefix +:+ err)
  | other => other
  end.

(** [int64] addition. *)
Definition wrap64 (z : Z) : Z :=
  ((z + 9223372036854775808) mod 18446744073709551616
   - 9223372036854775808)%Z.

Definition add64 (x y : Z) : Z := wrap64 (x + y).

(** A container with [Resources.Requests], and a pod with the fields that
    the classifier reads next to [Spec.Containers]. *)
Record Container : Type := mkContainer {
  Requests : gmap string Quantity.t
}.

Record PodObject : Type := mkPodObject {
  Pod_ : v1.Pod;
  Containers : list Container
}.

(** The inner loop of [calculatePodRequests], from [podSum]. *)
Fixpoint sumRequests (resource : string) (containers : list Container)
    (podSum : Z) : result Z :=
  match containers with
  | [] => Ok podSum
  | container :: rest =>
      match Requests container !! resource with
      | Some containerRequest =>
          sumRequests resource rest
                      (add64 podSum (Quantity.MilliValue containerRequest))
      | None => Err ("missing request for " +:+ resource)
      end
  end.

(** The outer loop of [calculatePodRequests], from [requests]. *)
Fixpoint requestsFrom (pods : list PodObject) (resource : string)
    (requests : gmap string Z) : result (gmap string Z) :=
  match pods with
  | [] => Ok requests
  | pod :: rest =>
      podSum ← sumRequests resource (Containers pod) 0;
      requestsFrom rest resource (<[v1.Name (Pod_ pod) := podSum]> requests)
  end.

Definition calculatePodRequests (pods : list PodObject) (resource : string)
    : result (gmap string Z) :=
  requestsFrom pods resource ∅.

(** [for _, pod := range pods.UnsortedList() { delete(metrics, pod) }] *)
Definition removeMetricsForPods (metrics : PodMetricsInfo)
    (pods : gset string) : PodMetricsInfo :=
  set_fold (λ pod acc, delete pod acc) metrics pods.

Section Gatherer.
(** [labels.Selector], opaque to the gatherer. *)
Variable Selector : Type.

(** The two calls of the metrics client that the resource and the pods
    gatherer make, and the pod lister; each returns its results or an
    error. *)
Record Gatherer : Type := mkGatherer {
  GetResourceMetric : string → string → Selector → result (PodMetricsInfo * Z);
  GetRawMetric :
    string → string → Selector → Selector → result (PodMetricsInfo * Z);
  PodLister : string → Selector → result (list PodObject);
  CPUInitializationPeriod : Z;
  DelayOfInitialReadinessStatus : Z
}.

Variable c : Gatherer.
Variable now : Z.

Definition getResourceMetric (resource namespace : string)
    (selector : Selector) : result ResourceMetric.t :=
  '(metrics, timestamp) ←
    wrapErr ("unable to get metrics for resource " +:+ resource +:+ ": ")
            (GetResourceMetric c resource namespace selector);
  podList ←
    wrapErr "unable to get pods while calculating replica count: "
            (PodLister c namespace selector);
  let totalPods := length podList in
  if bool_decide (totalPods = 0)
  then Err "No pods returned by selector while calculating replica count"
  else
    let g := gather.groupPods metrics resource (CPUInitializationPeriod c)
               (DelayOfInitialReadinessStatus c) now (Pod_ <$> podList) in
    let metrics := removeMetricsForPods metrics (gather.ignoredPods g) in
    requests ← calculatePodRequests podList resource;
    Ok {| ResourceMetric.PodMetricsInfo := metrics;
          ResourceMetric.Requests := requests;
          ResourceMetric.ReadyPodCount := Z.of_nat (gather.readyPodCount g);
          ResourceMetric.IgnoredPods := gather.ignoredPods g;
          ResourceMetric.MissingPods := gather.missingPods g;
          ResourceMetric.TotalPods := Z.of_nat totalPods;
          ResourceMetric.Timestamp := timestamp |}.

Definition getRawResourceMetric (resource namespace : string)
    (selector : Selector) : result ResourceMetric.t :=
  '(metrics, timestamp) ←
    wrapErr ("unable to get metrics for resource " +:+ resource +:+ ": ")
            (GetResourceMetric c resource namespace selector);
  podList ←
    wrapErr "unable to get pods while calculating replica count: "
            (PodLister c namespace selector);
  let totalPods := length podList in
  if bool_decide (totalPods = 0)
  then Err "No pods returned by selector while calculating replica count"
  else
    let g := gather.groupPods metrics resource (CPUInitializationPeriod c)
               (DelayOfInitialReadinessStatus c) now (Pod_ <$> podList) in
    let metrics := removeMetricsForPods metrics (gather.ignoredPods g) in
    Ok {| ResourceMetric.PodMetricsInfo := metrics;
          ResourceMetric.Requests := ∅;
          ResourceMetric.ReadyPodCount := Z.of_nat (gather.readyPodCount g);
          ResourceMetric.IgnoredPods := gather.ignoredPods g;
          ResourceMetric.MissingPods := gather.missingPods g;
          ResourceMetric.TotalPods := Z.of_nat totalPods;
          ResourceMetric.Timestamp := timestamp |}.

(** On an empty pod list the maps and the sets of the result are nil. *)
Definition getPodsMetric (metricName namespace : string)
    (selector metricSelector : Selector) : result PodsMetric.t :=
  '(metrics, timestamp) ←
    wrapErr ("unable to get metric " +:+ metricName +:+ ": ")
            (GetRawMetric c metricName namespace selector metricSelector);
  podList ←
    wrapErr "unable to get pods while calculating replica count: "
            (PodLister c namespace selector);
  let totalPods := length podList in
  if bool_decide (totalPods = 0)
  then Ok {| PodsMetric.PodMetricsInfo := ∅;
             PodsMetric.ReadyPodCount := 0;
             PodsMetric.IgnoredPods := ∅;
             PodsMetric.MissingPods := ∅;
             PodsMetric.TotalPods := 0;
             PodsMetric.Timestamp := timestamp |}
  else
    let g := gather.groupPods metrics "" (CPUInitializationPeriod c)
               (DelayOfInitialReadinessStatus c) now (Pod_ <$> podList) in
    let metrics := removeMetricsForPods metrics (gather.ignoredPods g) in
    Ok {| PodsMetric.PodMetricsInfo := metrics;
          PodsMetric.ReadyPodCount := Z.of_nat (gather.readyPodCount g);
          PodsMetric.IgnoredPods := gather.ignoredPods g;
          PodsMetric.MissingPods := gather.missingPods g;
          PodsMetric.TotalPods := Z.of_nat totalPods;
          PodsMetric.Timestamp := timestamp |}.

End Gatherer.

(** What [getMetric] calls for each source: the conversion of the metric
    selector of the spec ([metav1.LabelSelectorAsSelector]) and the
    per-source gatherers, methods of the gatherer in 2019 and interfaces in
    2021.  The metric name, the described object and the selectors are fields
    of the source that the records above do not hold; a callee takes the
    source they are read from.  A callee returns a pointer, [None] for
    nil. *)
Record SubGatherers : Type := mkSubGatherers {
  objectSelector : ObjectMetricSource.t → result unit;
  podsSelector : PodsMetricSource.t → result unit;
  Object_GetMetric : ObjectMetricSource.t → result (option ObjectMetric.t);
  Object_GetPerPodMetric :
    ObjectMetricSource.t → result (option ObjectMetric.t);
  Pods_GetMetric : PodsMetricSource.t → result (option PodsMetric.t);
  Resource_GetRawMetric :
    ResourceMetricSource.t → result (option ResourceMetric.t);
  Resource_GetMetric :
    ResourceMetricSource.t → result (option ResourceMetric.t);
  External_GetPerPodMetric :
    ExternalMetricSource.t → result (option ExternalMetric.t);
  External_GetMetric :
    ExternalMetricSource.t → result (option ExternalMetric.t)
}.

Definition bare (currentReplicas : Z) (spec : MetricSpec.t) : Metric :=
  {| CombinedMetric.CurrentReplicas := currentReplicas;
     CombinedMetric.Spec := spec;
     CombinedMetric.Resource := None;
     CombinedMetric.Pods := None;
     CombinedMetric.Object := None;
     CombinedMetric.External := None |}.

Definition withObject (m : Metric) (o : option ObjectMetric.t) : Metric :=
  {| CombinedMetric.CurrentReplicas := CombinedMetric.CurrentReplicas m;
     CombinedMetric.Spec := CombinedMetric.Spec m;
     CombinedMetric.Resource := CombinedMetric.Resource m;
     CombinedMetric.Pods := CombinedMetric.Pods m;
     CombinedMetric.Object := o;
     CombinedMetric.External := CombinedMetric.External m |}.

Definition withPods (m : Metric) (p : option PodsMetric.t) : Metric :=
  {| CombinedMetric.CurrentReplicas := CombinedMetric.CurrentReplicas m;
     CombinedMetric.Spec := CombinedMetric.Spec m;
     CombinedMetric.Resource := CombinedMetric.Resource m;
     CombinedMetric.Pods := p;
     CombinedMetric.Object := CombinedMetric.Object m;
     CombinedMetric.External := CombinedMetric.External m |}.

Definition withResource (m : Metric) (r : option ResourceMetric.t) : Metric :=
  {| CombinedMetric.CurrentReplicas := CombinedMetric.CurrentReplicas m;
     CombinedMetric.Spec := CombinedMetric.Spec m;
     CombinedMetric.Resource := r;
     CombinedMetric.Pods := CombinedMetric.Pods m;
     CombinedMetric.Object := CombinedMetric.Object m;
     CombinedMetric.External := CombinedMetric.External m |}.

Definition withExternal (m : Metric) (x : option ExternalMetric.t) : Metric :=
  {| CombinedMetric.CurrentReplicas := CombinedMetric.CurrentReplicas m;
     CombinedMetric.Spec := CombinedMetric.Spec m;
     CombinedMetric.Resource := CombinedMetric.Resource m;
     CombinedMetric.Pods := CombinedMetric.Pods m;
     CombinedMetric.Object := CombinedMetric.Object m;
     CombinedMetric.External := x |}.

(** [getMetric], the same statements in both revisions. *)
Definition getMetric (g : SubGatherers) (currentReplicas : Z)
    (spec : MetricSpec.t) : result Metric :=
  let type := MetricSpec.Type_ spec in
  if bool_decide (type = ObjectMetricSourceType) then
    object ← deref (MetricSpec.Object spec);
    _ ← wrapErr "failed to get object metric: " (objectSelector g object);
    let target := ObjectMetricSource.Target object in
    if bool_decide (MetricTarget.Type_ target = ValueMetricType) then
      objectMetric ←
        wrapErr "failed to get object metric: " (Object_GetMetric g object);
      Ok (withObject (bare currentReplicas spec) objectMetric)
    else if bool_decide (MetricTarget.Type_ target = AverageValueMetricType)
    then
      objectMetric ←
        wrapErr "failed to get object metric: "
                (Object_GetPerPodMetric g object);
      Ok (withObject (bare currentReplicas spec) objectMetric)
    else Err "invalid object metric source: neither a value target nor an average value target was set"
  else if bool_decide (type = PodsMetricSourceType) then
    pods ← deref (MetricSpec.Pods spec);
    _ ← wrapErr "failed to get pods metric: " (podsSelector g pods);
    podsMetric ← wrapErr "failed to get pods metric: " (Pods_GetMetric g pods);
    Ok (withPods (bare currentReplicas spec) podsMetric)
  else if bool_decide (type = ResourceMetricSourceType) then
    resource ← deref (MetricSpec.Resource spec);
    let target := ResourceMetricSource.Target resource in
    if bool_decide (MetricTarget.AverageValue target ≠ None) then
      resourceMetric ←
        wrapErr "failed to get resource metric: "
                (Resource_GetRawMetric g resource);
      Ok (withResource (bare currentReplicas spec) resourceMetric)
    else if bool_decide (MetricTarget.AverageUtilization target ≠ None) then
      resourceMetric ←
        wrapErr "failed to get resource metric: "
                (Resource_GetMetric g resource);
      Ok (withResource (bare currentReplicas spec) resourceMetric)
    else Err "invalid resource metric source: neither a utilization target nor a value target was set"
  else if bool_decide (type = ExternalMetricSourceType) then
    external ← deref (MetricSpec.External spec);
    let target := ExternalMetricSource.Target external in
    if bool_decide (MetricTarget.AverageValue target ≠ None) then
      externalMetric ←
        wrapErr "failed to get external metric: "
                (External_GetPerPodMetric g external);
      Ok (withExternal (bare currentReplicas spec) externalMetric)
    else if bool_decide (MetricTarget.AverageUtilization target ≠ None) then
      externalMetric ←
        wrapErr "failed to get external metric: "
                (External_GetMetric g external);
      Ok (withExternal (bare currentReplicas spec) externalMetric)
    else Err "invalid external metric source: neither a value target nor an average value target was set"
  else Err (unknownSourceType type).

End gatherers.

(** The results of the inputs that succeed, in input order. *)
Definition successes {A B} (run : A → result B) (inputs : list A) : list B :=
  omap (λ input, match run input with Ok b => Some b | _ => None end) inputs.

(** The first error that a facade keeps: the loop stores an error only
    while its count of invalid inputs is 0. *)
Definition firstError (count : nat) (kept : option string)
    (errors : list string) : option string :=
  if bool_decide (count ≤ 0)
  then match errors with err :: _ => Some err | [] => kept end
  else kept.

(** Sub-gatherers for the examples: every call succeeds with nil, but the
    resource calls, which fail. *)
Definition resourceFails : gatherers.SubGatherers :=
  {| gatherers.objectSelector := λ _, Ok ();
     gatherers.podsSelector := λ _, Ok ();
     gatherers.Object_GetMetric := λ _, Ok None;
     gatherers.Object_GetPerPodMetric := λ _, Ok None;
     gatherers.Pods_GetMetric := λ _, Ok None;
     gatherers.Resource_GetRawMetric := λ _, Err "fail to get resource metric";
     gatherers.Resource_GetMetric := λ _, Err "fail to get resource metric";
     gatherers.External_GetPerPodMetric := λ _, Ok None;
     gatherers.External_GetMetric := λ _, Ok None |}.

Definition averageTarget (averageValue : Z) : MetricTarget.t :=
  {| MetricTarget.Type_ := AverageValueMetricType;
     MetricTarget.Value := None;
     MetricTarget.AverageValue := Some {| Quantity.MilliValue := averageValue |};
     MetricTarget.AverageUtilization := None |}.

(** A pods spec with an average-value target. *)
Definition podsSpec (averageValue : Z) : MetricSpec.t :=
  {| MetricSpec.Type_ := PodsMetricSourceType;
     MetricSpec.Object := None;
     MetricSpec.Pods :=
       Some {| PodsMetricSource.Target := averageTarget averageValue |};
     MetricSpec.Resource := None;
     MetricSpec.External := None |}.

(** A spec with only its type set. *)
Definition specOfType (type : string) : MetricSpec.t :=
  CombinedMetric.Spec (metricOfType type).

#[global] Instance isErr_dec {A} (r : result A) : Decision (isErr r).
Proof. destruct r; simpl; apply _. Defined.

(** The evaluators of 2021 with the tolerance and the calculations of a
    2019 evaluator, as [NewEvaluate] assembles them around one calculater;
    the pods evaluator is left to the caller. *)
Definition objectEvaluate `{mc : Ratios} (e : Evaluator)
    : perSource2021.object.Evaluate :=
  {| perSource2021.object.Calculater_ := calculater2019 e;
     perSource2021.object.Tolerance := Tolerance e |}.

Definition externalEvaluate `{mc : Ratios} (e : Evaluator)
    : perSource2021.external.Evaluate :=
  {| perSource2021.external.Calculater_ := calculater2019 e;
     perSource2021.external.Tolerance := Tolerance e |}.

Definition resourceEvaluate `{mc : Ratios} (e : Evaluator)
    : evaluate2021.resource.Evaluate :=
  {| evaluate2021.resource.Calculater_ := calculater2019 e;
     evaluate2021.resource.Tolerance := Tolerance e |}.

Definition assemble `{mc : Ratios} (e : Evaluator)
    (pods : Z → Metric → Evaluation) : evaluate2021.Evaluate :=
  {| evaluate2021.External :=
       perSource2021.external.GetEvaluation (externalEvaluate e);
     evaluate2021.Object :=
       perSource2021.object.GetEvaluation (objectEvaluate e);
     evaluate2021.Pods := pods;
     evaluate2021.Resource :=
       evaluate2021.resource.GetEvaluation (resourceEvaluate e) |}.

(** The branch of [groupPods] that counts a pod as ready. *)
Definition goesReady (metrics : PodMetricsInfo) (resource : string)
    (cpuInitializationPeriod delayOfInitialReadinessStatus now : Z)
    (pod : v1.Pod) : Prop :=
  gather.skipped pod = false
  ∧ ∃ metric, metrics !! v1.Name pod = Some metric
              ∧ bool_decide (resource = v1.ResourceCPU)
                && gather.ignorePod pod metric cpuInitializationPeriod
                                    delayOfInitialReadinessStatus now = false.

#[global] Instance goesReady_dec (metrics : PodMetricsInfo) (resource : string)
    (cpuInitializationPeriod delayOfInitialReadinessStatus now : Z)
    (pod : v1.Pod) :
  Decision (goesReady metrics resource cpuInitializationPeriod
                      delayOfInitialReadinessStatus now pod).
Proof.
  unfold goesReady.
  destruct (metrics !! v1.Name pod) as [metric|].
  - destruct (decide (gather.skipped pod = false
                      ∧ bool_decide (resource = v1.ResourceCPU)
                        && gather.ignorePod pod metric cpuInitializationPeriod
                             delayOfInitialReadinessStatus now = false))
      as [Hyes|Hno].
    + left. destruct Hyes as [Hskip Hgate].
      split; [exact Hskip|]. exists metric. split; [reflexivity|exact Hgate].
    + right. intros [Hskip (metric' & Hsome & Hgate)].
      apply Hno. injection Hsome as <-. split; assumption.
  - right. intros [_ (metric & Hsome & _)]. discriminate.
Defined.

(** Every container of the pod requests [resource]. *)
Definition requestsComplete (resource : string) (pod : gatherers.PodObject)
    : Prop :=
  Forall (λ container,
            is_Some (gatherers.Requests container !! resource))
         (gatherers.Containers pod).

#[global] Instance requestsComplete_dec (resource : string)
    (pod : gatherers.PodObject) : Decision (requestsComplete resource pod).
Proof. unfold requestsComplete. apply _. Defined.

(** The sum of the requests of the containers of a pod, as an [int64]. *)
Definition requestSum (resource : string) (pod : gatherers.PodObject) : Z :=
  gatherers.wrap64
    (foldr Z.add 0%Z
           ((λ container,
               from_option Quantity.MilliValue 0%Z
                           (gatherers.Requests container !! resource))
              <$> gatherers.Containers pod)).

(** The last pod of the list with the name [name]. *)
Definition lastNamed (name : string) (pods : list gatherers.PodObject)
    : option gatherers.PodObject :=
  last (filter (λ pod, v1.Name (gatherers.Pod_ pod) = name) pods).

Definition container (resource : string) (milli : Z) : gatherers.Container :=
  {| gatherers.Requests := {[ resource := {| Quantity.MilliValue := milli |} ]} |}.

Definition podWith (name : string) (containers : list gatherers.Container)
    : gatherers.PodObject :=
  {| gatherers.Pod_ := runningPod name; gatherers.Containers := containers |}.

(** A gatherer whose metrics client and pod lister return what they are
    given. *)
Definition listing (metrics : PodMetricsInfo) (timestamp : Z)
    (podList : list gatherers.PodObject) : gatherers.Gatherer unit :=
  {| gatherers.GetResourceMetric := λ _ _ _, Ok (metrics, timestamp);
     gatherers.GetRawMetric := λ _ _ _ _, Ok (metrics, timestamp);
     gatherers.PodLister := λ _ _, Ok podList;
     gatherers.CPUInitializationPeriod := 300;
     gatherers.DelayOfInitialReadinessStatus := 30 |}.

(** A resource measurement with other requests. *)
Definition withRequests (m : ResourceMetric.t) (requests : gmap string Z)
    : ResourceMetric.t :=
  {| ResourceMetric.PodMetricsInfo := ResourceMetric.PodMetricsInfo m;
     ResourceMetric.Requests := requests;
     ResourceMetric.ReadyPodCount := ResourceMetric.ReadyPodCount m;
     ResourceMetric.IgnoredPods := ResourceMetric.IgnoredPods m;
     ResourceMetric.MissingPods := ResourceMetric.MissingPods m;
     ResourceMetric.TotalPods := ResourceMetric.TotalPods m;
     ResourceMetric.Timestamp := ResourceMetric.Timestamp m |}.

(** A counted pod with a sample. *)
Definition sampled (metrics : PodMetricsInfo) (pod : v1.Pod) : Prop :=
  counted pod ∧ is_Some (metrics !! v1.Name pod).

#[global] Instance sampled_dec (metrics : PodMetricsInfo) (pod : v1.Pod)
    : Decision (sampled metrics pod).
Proof. unfold sampled. apply _. Defined.

(** Two listed pods without a ready condition, [pod-1] with a sample, and a
    sample of an unlisted pod; the measurement that [getResourceMetric]
    returns for them. *)
Definition twoPodListing : gatherers.Gatherer unit :=
  listing (sample "pod-1" 15 (sample "pod-9" 20 ∅)) 7
          [ podWith "pod-1" [container "cpu" 10];
            podWith "pod-2" [container "cpu" 10] ].

Definition gatheredTwoPods : ResourceMetric.t :=
  {| ResourceMetric.PodMetricsInfo := sample "pod-9" 20 ∅;
     ResourceMetric.Requests := request "pod-1" 10 (request "pod-2" 10 ∅);
     ResourceMetric.ReadyPodCount := 0;
     ResourceMetric.IgnoredPods := {["pod-1"]};
     ResourceMetric.MissingPods := {["pod-2"]};
     ResourceMetric.TotalPods := 2;
     ResourceMetric.Timestamp := 7 |}.

(** Sub-gatherers for the examples that return a measurement for every
    source. *)
Definition allGathered : gatherers.SubGatherers :=
  {| gatherers.objectSelector := λ _, Ok ();
     gatherers.podsSelector := λ _, Ok ();
     gatherers.Object_GetMetric := λ _,
       Ok (Some {| ObjectMetric.Utilization := 10;
                   ObjectMetric.ReadyPodCount := Some 2%Z;
                   ObjectMetric.Timestamp := 0 |});
     gatherers.Object_GetPerPodMetric := λ _,
       Ok (Some {| ObjectMetric.Utilization := 10;
                   ObjectMetric.ReadyPodCount := None;
                   ObjectMetric.Timestamp := 0 |});
     gatherers.Pods_GetMetric := λ _,
       Ok (Some {| PodsMetric.PodMetricsInfo := sample "pod-1" 20 ∅;
                   PodsMetric.ReadyPodCount := 1;
                   PodsMetric.IgnoredPods := ∅;
                   PodsMetric.MissingPods := ∅;
                   PodsMetric.TotalPods := 1;
                   PodsMetric.Timestamp := 0 |});
     gatherers.Resource_GetRawMetric := λ _, Ok (Some measuredTwoPods);
     gatherers.Resource_GetMetric := λ _, Ok (Some measuredWithMissing);
     gatherers.External_GetPerPodMetric := λ _,
       Ok (Some {| ExternalMetric.Utilization := 10;
                   ExternalMetric.ReadyPodCount := None;
                   ExternalMetric.Timestamp := 0 |});
     gatherers.External_GetMetric := λ _,
       Ok (Some {| ExternalMetric.Utilization := 10;
                   ExternalMetric.ReadyPodCount := Some 2%Z;
                   ExternalMetric.Timestamp := 0 |}) |}.

(** An external spec with the given target. *)
Definition externalSpec (target : MetricTarget.t) : MetricSpec.t :=
  {| MetricSpec.Type_ := ExternalMetricSourceType;
     MetricSpec.Object := None;
     MetricSpec.Pods := None;
     MetricSpec.Resource := None;
     MetricSpec.External := Some {| ExternalMetricSource.Target := target |} |}.

(** A target with only [AverageUtilization] set, and one with only [Value]
    set. *)
Definition utilizationTarget (averageUtilization : Z) : MetricTarget.t :=
  {| MetricTarget.Type_ := "Utilization";
     MetricTarget.Value := None;
     MetricTarget.AverageValue := None;
     MetricTarget.AverageUtilization := Some averageUtilization |}.

Definition valueTarget (value : Z) : MetricTarget.t :=
  {| MetricTarget.Type_ := ValueMetricType;
     MetricTarget.Value := Some {| Quantity.MilliValue := value |};
     MetricTarget.AverageValue := None;
     MetricTarget.AverageUtilization := None |}.

(** The Pods metric that [getMetric] builds from the pods spec with the
    sub-gatherers of the examples, and a pods evaluator with the
    calculations of the 2019 evaluator. *)
Definition gatheredPods : Metric :=
  gatherers.withPods (gatherers.bare 1 (podsSpec 10))
    (Some {| PodsMetric.PodMetricsInfo := sample "pod-1" 20 ∅;
             PodsMetric.ReadyPodCount := 1;
             PodsMetric.IgnoredPods := ∅;
             PodsMetric.MissingPods := ∅;
             PodsMetric.TotalPods := 1;
             PodsMetric.Timestamp := 0 |}).

Definition podsEvaluate : perSource2021.pods.Evaluate :=
  {| perSource2021.pods.Calculater_ :=
       calculater2019 (mc := specRatios) defaultEvaluator |}.

(** * Properties *)

(** ** Comparisons of binary64 numbers *)

Lemma SFcompare_swap (x y : spec_float) :
  SFcompare y x = CompOpp <$> SFcompare x y.
Proof.
  destruct x as [sx|sx| |sx mx ex], y as [sy|sy| |sy my ey]; simpl;
    try reflexivity;
    try (destruct sx; reflexivity);
    try (destruct sy; reflexivity);
    try (destruct sx, sy; reflexivity).
  f_equal.
  rewrite (Z.compare_antisym ex ey).
  change (PosDef.Pos.compare_cont Eq my mx) with (Pos.compare my mx).
  change (PosDef.Pos.compare_cont Eq mx my) with (Pos.compare mx my).
  rewrite (Pos.compare_antisym mx my).
  destruct sx, sy, (ex ?= ey)%Z, (mx ?= my)%positive; reflexivity.
Qed.

(** [x <= y] excludes [y < x]. *)
Lemma leb_not_ltb (x y : float) :
  (x <=? y)%float = true → (y <? x)%float = false.
Proof.
  rewrite leb_spec, ltb_spec. unfold SFleb, SFltb.
  rewrite (SFcompare_swap (Prim2SF x) (Prim2SF y)).
  destruct (SFcompare (Prim2SF x) (Prim2SF y)) as [[]|]; simpl; congruence.
Qed.

(** [x < y] excludes [y < x]. *)
Lemma ltb_asym (x y : float) :
  (x <? y)%float = true → (y <? x)%float = false.
Proof.
  rewrite !ltb_spec. unfold SFltb.
  rewrite (SFcompare_swap (Prim2SF x) (Prim2SF y)).
  destruct (SFcompare (Prim2SF x) (Prim2SF y)) as [[]|]; simpl; congruence.
Qed.

(** ** The loops that write synthetic samples *)

Lemma lookup_setSamples (pods : gset string) (v : string → Z)
    (metrics : PodMetricsInfo) (podName : string) :
  setSamples pods v metrics !! podName
  = if decide (podName ∈ pods) then Some (withValue (v podName))
    else metrics !! podName.
Proof.
  unfold setSamples.
  set (P := λ (r : PodMetricsInfo) (X : gset string),
              r !! podName
              = if decide (podName ∈ X) then Some (withValue (v podName))
                else metrics !! podName).
  change (P (set_fold (λ podName acc, <[podName := withValue (v podName)]> acc)
                      metrics pods) pods).
  apply set_fold_ind_L; unfold P.
  - rewrite decide_False by set_solver. reflexivity.
  - intros x X r Hx IH.
    destruct (decide (x = podName)) as [->|Hne].
    + rewrite lookup_insert_eq.
      destruct (decide (podName ∈ {[podName]} ∪ X)) as [_|Hn];
        [reflexivity | exfalso; apply Hn; set_solver].
    + rewrite lookup_insert_ne by done. rewrite IH.
      destruct (decide (podName ∈ X)).
      * rewrite decide_True by set_solver. reflexivity.
      * rewrite decide_False by set_solver. reflexivity.
Qed.

Lemma rebalance_false_cases
    (ignoredPods : gset string) (usageRatio : float) :
  size ignoredPods = 0%nat ∨ (usageRatio <=? 1)%float = true →
  rebalance ignoredPods usageRatio = false.
Proof.
  unfold rebalance. intros [Hsize|Hle].
  - rewrite bool_decide_eq_false_2 by lia. reflexivity.
  - rewrite (leb_not_ltb _ _ Hle). apply andb_false_r.
Qed.

(** ** The plain-metric replica calculation (2019 evaluator) *)

(** [int32(math.Ceil(x))] is the ceiling of [x] whenever the ceiling is a
    value of [int32]. *)
Lemma int32_ceil_isCeiling (x : float) (n : Z) :
  isCeiling n x → isInt32 n → int32_ceil x = n.
Proof.
  intros (num & den & Hvalue & Hlow & Hhigh) [Hmin Hmax].
  unfold exactValue in Hvalue. unfold int32_ceil, ceilZ.
  destruct (Prim2SF x) as [s|s| |s m ex]; try discriminate.
  - injection Hvalue as <- <-.
    assert (n = 0%Z) as -> by lia. reflexivity.
  - injection Hvalue as <- <-.
    set (v := if s then Z.neg m else Z.pos m) in *.
    assert (Hceil : (if (0 <=? ex)%Z then (v * 2 ^ ex)%Z
                     else (- ((- v) / 2 ^ (- ex)))%Z) = n).
    { destruct (0 <=? ex)%Z eqn:Hex.
      - apply Z.leb_le in Hex.
        rewrite (Z.max_r 0 ex) in * by lia.
        rewrite (Z.max_l 0 (- ex)) in * by lia.
        change (2 ^ 0)%Z with 1%Z in *. lia.
      - apply Z.leb_gt in Hex.
        rewrite (Z.max_l 0 ex) in * by lia.
        rewrite (Z.max_r 0 (- ex)) in * by lia.
        change (2 ^ 0)%Z with 1%Z in *.
        assert (0 < 2 ^ (- ex))%Z as Hpos by (apply Z.pow_pos_nonneg; lia).
        set (den := (2 ^ (- ex))%Z) in *.
        assert ((- v) / den = - n)%Z as ->; [|lia].
        symmetry. apply (Z.div_unique_pos _ _ _ (n * den - v * 1)); lia. }
    rewrite Hceil.
    unfold int32_min, int32_max in *.
    destruct (Z.leb_spec (-2147483648) n); [|lia].
    destruct (Z.leb_spec n 2147483647); [|lia]. reflexivity.
Qed.

(** C9, as stated, fails outside the range of int32: at C = 0 and
    u = 3000000000 the ceiling of u is 3000000000 and the helper returns
    -2147483648. *)
Lemma getUsageRatioReplicaCount_cases_counterexample :
  getUsageRatioReplicaCount defaultEvaluator 0 3e9%float 1
  = (-2147483648)%Z
  ∧ isCeiling 3000000000 3e9%float.
Proof.
  split; [vm_compute; reflexivity|].
  unfold isCeiling. eexists _, _. split; [vm_compute; reflexivity|].
  vm_compute. split; [reflexivity|]. discriminate.
Qed.

(** C9 (amended): the usage-ratio-replica helper returns the ceiling of u
    without a tolerance check when the current replicas C are 0; when C is
    not 0 it returns C if |1 - u| <= tolerance and the ceiling of the
    float64 product u * P otherwise; in both cases provided the ceiling is a
    value of int32. *)
Theorem getUsageRatioReplicaCount_cases
    (e : Evaluator) (currentReplicas : Z) (usageRatio : float)
    (readyPodCount : Z) :
  (currentReplicas = 0%Z →
   ∀ n, isCeiling n usageRatio → isInt32 n →
        getUsageRatioReplicaCount e currentReplicas usageRatio readyPodCount
        = n)
  ∧ (currentReplicas ≠ 0%Z →
     (abs (1 - usageRatio) <=? Tolerance e)%float = true →
     getUsageRatioReplicaCount e currentReplicas usageRatio readyPodCount
     = currentReplicas)
  ∧ (currentReplicas ≠ 0%Z →
     (abs (1 - usageRatio) <=? Tolerance e)%float = false →
     ∀ n, isCeiling n (usageRatio * float64_of_Z readyPodCount) → isInt32 n →
          getUsageRatioReplicaCount e currentReplicas usageRatio readyPodCount
          = n).
Proof.
  unfold getUsageRatioReplicaCount, withinTolerance.
  split; [|split].
  - intros -> n Hceil Hrange.
    rewrite bool_decide_eq_false_2 by (intros H; apply H; reflexivity).
    by apply int32_ceil_isCeiling.
  - intros Hne Htol. rewrite bool_decide_eq_true_2 by assumption.
    rewrite Htol. reflexivity.
  - intros Hne Htol n Hceil Hrange.
    rewrite bool_decide_eq_true_2 by assumption.
    rewrite Htol. by apply int32_ceil_isCeiling.
Qed.

Lemma getUsageRatioReplicaCount_cases_witness :
  getUsageRatioReplicaCount defaultEvaluator 0 0.5%float 3 = 1%Z
  ∧ getUsageRatioReplicaCount defaultEvaluator 3 1.0625%float 3 = 3%Z
  ∧ getUsageRatioReplicaCount defaultEvaluator 3 1.5%float 3 = 5%Z.
Proof.
  split; [|split].
  - apply (proj1 (getUsageRatioReplicaCount_cases defaultEvaluator 0 0.5 3)).
    + reflexivity.
    + eexists _, _. split; [vm_compute; reflexivity|].
      vm_compute. split; [reflexivity|]. discriminate.
    + vm_compute. split; discriminate.
  - apply (proj1 (proj2 (getUsageRatioReplicaCount_cases
                           defaultEvaluator 3 1.0625 3))).
    + discriminate.
    + vm_compute. reflexivity.
  - apply (proj2 (proj2 (getUsageRatioReplicaCount_cases
                           defaultEvaluator 3 1.5 3))).
    + discriminate.
    + vm_compute. reflexivity.
    + eexists _, _. split; [vm_compute; reflexivity|].
      vm_compute. split; [reflexivity|]. discriminate.
    + vm_compute. split; discriminate.
Defined.

(** Scaling from zero: u = 0, 0.5, 1 and 2 give 0, 1, 1 and 2, also for
    u = 1, inside every tolerance band. *)
Example getUsageRatioReplicaCount_from_zero :
  getUsageRatioReplicaCount defaultEvaluator 0 0%float 3 = 0%Z
  ∧ getUsageRatioReplicaCount defaultEvaluator 0 0.5%float 3 = 1%Z
  ∧ getUsageRatioReplicaCount defaultEvaluator 0 1%float 3 = 1%Z
  ∧ getUsageRatioReplicaCount defaultEvaluator 0 2%float 3 = 2%Z.
Proof. vm_compute. repeat split; reflexivity. Qed.

(** The helper of the repository returns a ratio exactly on a sample map
    that is not empty. *)
Lemma specMetricUtilizationRatio_returns (metrics : PodMetricsInfo)
    (targetUtilization : Z) :
  (metrics = ∅ →
   GetMetricUtilizationRatio (Ratios := specRatios) metrics targetUtilization
   = Panic)
  ∧ (metrics ≠ ∅ →
     ∃ usageRatio,
       GetMetricUtilizationRatio (Ratios := specRatios) metrics
                                 targetUtilization = Ok usageRatio).
Proof.
  simpl. unfold specMetricUtilizationRatio. split.
  - intros ->. rewrite map_size_empty. reflexivity.
  - intros Hne. rewrite bool_decide_eq_false_2; [by eexists|].
    intros Hsize. by apply map_size_empty_iff in Hsize.
Qed.

(** C2, as stated, fails where the call returns no result or a result out
    of the range of int32: on an empty sample map the ratio helper panics,
    and so does the call; with one sample of 10 against a target of 0 the
    base ratio is infinite, no integer is the ceiling of u * R, and the call
    returns -2147483648. *)
Lemma getPlainMetricReplicaCount_no_correction_counterexample :
  getPlainMetricReplicaCount (mc := specRatios) defaultEvaluator
    ∅ 2 10 0 ∅ ∅ = Panic
  ∧ GetMetricUtilizationRatio (Ratios := specRatios) (sample "pod-1" 10 ∅) 0
    = Ok infinity
  ∧ exactValue (infinity * float64_of_Z 1) = None
  ∧ getPlainMetricReplicaCount (mc := specRatios) defaultEvaluator
      (sample "pod-1" 10 ∅) 2 0 1 ∅ ∅
    = Ok ((-2147483648)%Z, sample "pod-1" 10 ∅).
Proof. vm_compute. repeat split; reflexivity. Qed.

(** C2 (amended): in every call in which the ratio helper returns a base
    ratio u (the helper of the repository does on every sample map that is
    not empty), with no missing pod, and no ignored pod or u <= 1, the
    plain-metric calculation inserts no synthetic sample (the sample map is
    left as it was) and returns C when |1 - u| <= tolerance and otherwise
    the ceiling of the float64 product u * R, provided the ceiling is a
    value of int32. *)
Theorem getPlainMetricReplicaCount_no_correction
    `{mc : Ratios} (e : Evaluator) (metrics : PodMetricsInfo)
    (currentReplicas targetUtilization readyPodCount : Z)
    (missingPods ignoredPods : gset string) (usageRatio : float) :
  GetMetricUtilizationRatio metrics targetUtilization = Ok usageRatio →
  size missingPods = 0%nat →
  size ignoredPods = 0%nat ∨ (usageRatio <=? 1)%float = true →
  ((abs (1 - usageRatio) <=? Tolerance e)%float = true →
   getPlainMetricReplicaCount e metrics currentReplicas targetUtilization
                              readyPodCount missingPods ignoredPods
   = Ok (currentReplicas, metrics))
  ∧ ((abs (1 - usageRatio) <=? Tolerance e)%float = false →
     ∀ n, isCeiling n (usageRatio * float64_of_Z readyPodCount) → isInt32 n →
          getPlainMetricReplicaCount e metrics currentReplicas
            targetUtilization readyPodCount missingPods ignoredPods
          = Ok (n, metrics)).
Proof.
  intros Hratio Hmissing Hignored.
  unfold getPlainMetricReplicaCount. rewrite Hratio.
  cbn [mbind result_bind].
  rewrite (rebalance_false_cases _ _ Hignored).
  rewrite bool_decide_eq_true_2 by assumption.
  cbn [negb andb]. unfold withinTolerance. split.
  - intros ->. reflexivity.
  - intros -> n Hceil Hrange.
    by rewrite (int32_ceil_isCeiling _ n Hceil Hrange).
Qed.

Lemma getPlainMetricReplicaCount_no_correction_witness :
  getPlainMetricReplicaCount (mc := specRatios) defaultEvaluator
    (sample "pod-1" 20 (sample "pod-2" 20 ∅)) 2 20 2 ∅ ∅
  = Ok (2%Z, sample "pod-1" 20 (sample "pod-2" 20 ∅))
  ∧ getPlainMetricReplicaCount (mc := specRatios) defaultEvaluator
      (sample "pod-1" 5 (sample "pod-2" 5 ∅)) 2 20 2 ∅ {["pod-3"]}
    = Ok (1%Z, sample "pod-1" 5 (sample "pod-2" 5 ∅)).
Proof.
  assert (Hnone : size (∅ : gset string) = 0%nat) by reflexivity.
  split.
  - assert (Hratio : GetMetricUtilizationRatio (Ratios := specRatios)
                       (sample "pod-1" 20 (sample "pod-2" 20 ∅)) 20
                     = Ok 1%float) by (vm_compute; reflexivity).
    assert (Hwithin : (abs (1 - 1) <=? Tolerance defaultEvaluator)%float
                      = true) by (vm_compute; reflexivity).
    exact (proj1 (getPlainMetricReplicaCount_no_correction
                    (mc := specRatios) defaultEvaluator
                    (sample "pod-1" 20 (sample "pod-2" 20 ∅)) 2 20 2 ∅ ∅
                    1%float Hratio Hnone (or_introl Hnone)) Hwithin).
  - assert (Hratio : GetMetricUtilizationRatio (Ratios := specRatios)
                       (sample "pod-1" 5 (sample "pod-2" 5 ∅)) 20
                     = Ok 0.25%float) by (vm_compute; reflexivity).
    assert (Hbelow : (0.25 <=? 1)%float = true) by (vm_compute; reflexivity).
    assert (Hout : (abs (1 - 0.25) <=? Tolerance defaultEvaluator)%float
                   = false) by (vm_compute; reflexivity).
    assert (Hceil : isCeiling 1 (0.25 * float64_of_Z 2)).
    { eexists _, _. split; [vm_compute; reflexivity|].
      vm_compute. split; [reflexivity|]. discriminate. }
    assert (Hrange : isInt32 1) by (vm_compute; split; discriminate).
    exact (proj2 (getPlainMetricReplicaCount_no_correction
                    (mc := specRatios) defaultEvaluator
                    (sample "pod-1" 5 (sample "pod-2" 5 ∅)) 2 20 2
                    ∅ {["pod-3"]} 0.25%float Hratio Hnone (or_intror Hbelow))
                 Hout 1%Z Hceil Hrange).
Defined.

(** What the fill-in of the plain-metric calculation leaves in the map. *)
Lemma lookup_plainFillIn (e : Evaluator) (usageRatio : float)
    (rebalanceIgnored : bool) (targetUtilization : Z)
    (missingPods ignoredPods : gset string) (metrics : PodMetricsInfo)
    (podName : string) :
  plainFillIn usageRatio rebalanceIgnored targetUtilization
              missingPods ignoredPods metrics !! podName
  = if decide (rebalanceIgnored = true ∧ podName ∈ ignoredPods)
    then Some (withValue 0)
    else if decide (podName ∈ missingPods)
         then Some (withValue (if (usageRatio <? 1)%float
                               then targetUtilization else 0%Z))
         else metrics !! podName.
Proof.
  unfold plainFillIn.
  assert (Hmissing :
    (if bool_decide (0 < size missingPods)%nat
     then if (usageRatio <? 1)%float
          then setSamples missingPods (λ _, targetUtilization) metrics
          else setSamples missingPods (λ _, 0%Z) metrics
     else metrics) !! podName
    = if decide (podName ∈ missingPods)
      then Some (withValue (if (usageRatio <? 1)%float
                            then targetUtilization else 0%Z))
      else metrics !! podName).
  { case_bool_decide as Hsize.
    - destruct (usageRatio <? 1)%float; apply lookup_setSamples.
    - assert (missingPods = ∅) as ->
        by (apply leibniz_equiv, size_empty_iff; lia).
      rewrite decide_False by set_solver. reflexivity. }
  destruct rebalanceIgnored.
  - rewrite lookup_setSamples.
    destruct (decide (podName ∈ ignoredPods)) as [Hin|Hin].
    + rewrite decide_True by done. reflexivity.
    + rewrite decide_False by (intros [_ ?]; done). apply Hmissing.
  - rewrite decide_False by (intros [? _]; done). apply Hmissing.
Qed.

(** X19: on a scale-down (base ratio u < 1) the fill-in of the plain-metric
    calculation gives every missing pod a sample of the target value. *)
Lemma plainFillIn_scale_down (e : Evaluator) (usageRatio : float)
    (targetUtilization : Z) (missingPods ignoredPods : gset string)
    (metrics : PodMetricsInfo) (podName : string) :
  (usageRatio <? 1)%float = true →
  podName ∈ missingPods →
  plainFillIn usageRatio (rebalance ignoredPods usageRatio) targetUtilization
              missingPods ignoredPods metrics !! podName
  = Some (withValue targetUtilization).
Proof.
  intros Hlt Hin. rewrite (lookup_plainFillIn e).
  unfold rebalance. rewrite (ltb_asym _ _ Hlt), andb_false_r.
  rewrite decide_False by (intros [? _]; done).
  rewrite decide_True by done. rewrite Hlt. reflexivity.
Qed.

Lemma plainFillIn_scale_down_witness :
  plainFillIn 0.5 (rebalance {["pod-3"]} 0.5) 10 {["pod-2"]} {["pod-3"]}
              (sample "pod-1" 5 ∅) !! "pod-2"
  = Some (withValue 10).
Proof.
  apply (plainFillIn_scale_down defaultEvaluator).
  - vm_compute. reflexivity.
  - by apply elem_of_singleton.
Defined.

(** X20: on a scale-up (base ratio u > 1) the fill-in of the plain-metric
    calculation gives every missing pod and every ignored pod a sample of
    0. *)
Lemma plainFillIn_scale_up (e : Evaluator) (usageRatio : float)
    (targetUtilization : Z) (missingPods ignoredPods : gset string)
    (metrics : PodMetricsInfo) (podName : string) :
  (1 <? usageRatio)%float = true →
  podName ∈ missingPods ∨ podName ∈ ignoredPods →
  plainFillIn usageRatio (rebalance ignoredPods usageRatio) targetUtilization
              missingPods ignoredPods metrics !! podName
  = Some (withValue 0).
Proof.
  intros Hgt Hin. rewrite (lookup_plainFillIn e).
  rewrite (ltb_asym _ _ Hgt).
  destruct (decide (rebalance ignoredPods usageRatio = true
                    ∧ podName ∈ ignoredPods)) as [_|Hno]; [reflexivity|].
  destruct (decide (podName ∈ missingPods)) as [_|Hnm]; [reflexivity|].
  destruct Hin as [?|Hig]; [done|].
  exfalso. apply Hno. split; [|done].
  unfold rebalance. rewrite Hgt, andb_true_r.
  apply bool_decide_eq_true_2.
  destruct (decide (size ignoredPods = 0%nat)) as [Hz|Hz]; [|lia].
  apply size_empty_iff in Hz. set_solver.
Qed.

Lemma plainFillIn_scale_up_witness :
  plainFillIn 1.5 (rebalance {["pod-3"]} 1.5) 10 {["pod-2"]} {["pod-3"]}
              (sample "pod-1" 15 ∅) !! "pod-3"
  = Some (withValue 0).
Proof.
  apply (plainFillIn_scale_up defaultEvaluator).
  - vm_compute. reflexivity.
  - right. by apply elem_of_singleton.
Defined.

(** The utilization mode guards its second loop with [usageRatio > 1.0]:
    at a ratio that is neither below nor above 1 it writes no sample. *)
Lemma utilizationFillIn_no_direction (usageRatio : float)
    (requests : gmap string Z) (missingPods ignoredPods : gset string)
    (metrics : PodMetricsInfo) :
  (usageRatio <? 1)%float = false →
  (1 <? usageRatio)%float = false →
  utilizationFillIn usageRatio (rebalance ignoredPods usageRatio) requests
                    missingPods ignoredPods metrics
  = metrics.
Proof.
  intros Hlt Hgt. unfold utilizationFillIn, rebalance.
  rewrite Hlt, Hgt, andb_false_r.
  destruct (bool_decide (0 < size missingPods)%nat); reflexivity.
Qed.

(** C3: at the base ratio u = 1 the plain-metric calculation does write a
    synthetic sample, of value 0, for a missing pod: one sample of 10 against
    the target 10, one missing pod, tolerance 0.1, 2 current replicas; the
    call then scales down to 1. *)
Theorem plainFillIn_at_ratio_one :
  let metrics := sample "pod-1" 10 ∅ in
  let outcome :=
    getPlainMetricReplicaCount (mc := specRatios) defaultEvaluator
      metrics 2 10 1 {["pod-2"]} ∅ in
  GetMetricUtilizationRatio (Ratios := specRatios) metrics 10 = Ok 1%float
  ∧ metrics !! "pod-2" = None
  ∧ ∃ filled, outcome = Ok (1%Z, filled)
              ∧ filled !! "pod-2" = Some (withValue 0).
Proof.
  vm_compute. split; [reflexivity|]. split; [reflexivity|].
  eexists. split; reflexivity.
Qed.

(** C1: the guard fails in the plain-metric calculation at a base ratio of
    1.  One sample of 10 against the target 10 gives u = 1; the else branch
    of the fill-in, commented on a scale-up, fills the missing pod with 0
    and u' = 0.5; the deviations 0 and 0.5 differ in sign, and the call
    returns 1, not the 2 current replicas.  The utilization mode, whose
    second branch is guarded by u > 1, returns the 2 current replicas for a
    sample of 10 against a request of 10 and one missing pod. *)
Theorem direction_flip_guard_at_ratio_one :
  let metrics := sample "pod-1" 10 ∅ in
  let filled := sample "pod-2" 0 metrics in
  GetMetricUtilizationRatio (Ratios := specRatios) metrics 10 = Ok 1%float
  ∧ getPlainMetricReplicaCount (mc := specRatios) defaultEvaluator
      metrics 2 10 1 {["pod-2"]} ∅
    = Ok (1%Z, filled)
  ∧ GetMetricUtilizationRatio (Ratios := specRatios) filled 10 = Ok 0.5%float
  ∧ deviationSign 1 = FEq
  ∧ deviationSign 0.5 = FGt
  ∧ GetResourceUtilizationRatio (Ratios := specRatios) metrics
      (request "pod-1" 10 (request "pod-2" 10 ∅)) 100
    = Ok 1%float
  ∧ evaluate2021.resource.GetEvaluation (mc := specRatios)
      defaultResourceEvaluate 2
      (resourceMetric 2 (utilizationSpec 100)
         (measure metrics (request "pod-1" 10 (request "pod-2" 10 ∅))
                  1 ∅ {["pod-2"]}))
    = Ok {| TargetReplicas := 2 |}.
Proof. vm_compute. repeat split; reflexivity. Qed.

Lemma oppositeSides_changesDirection (usageRatio newUsageRatio : float) :
  oppositeSides usageRatio newUsageRatio →
  changesDirection usageRatio newUsageRatio = true.
Proof.
  unfold changesDirection.
  intros [[-> ->]|[-> ->]]; [reflexivity | apply orb_true_r].
Qed.

Lemma oppositeSides_irrefl (usageRatio : float) :
  ¬ oppositeSides usageRatio usageRatio.
Proof.
  intros [[H1 H2]|[H1 H2]]; apply ltb_asym in H1; congruence.
Qed.

(** The guard of the plain-metric calculation. *)
Lemma getPlainMetricReplicaCount_flip
    `{mc : Ratios} (e : Evaluator) (metrics : PodMetricsInfo)
    (currentReplicas targetUtilization readyPodCount : Z)
    (missingPods ignoredPods : gset string)
    (usageRatio newUsageRatio : float) :
  let filled :=
    plainFillIn usageRatio (rebalance ignoredPods usageRatio)
                targetUtilization missingPods ignoredPods metrics in
  GetMetricUtilizationRatio metrics targetUtilization = Ok usageRatio →
  GetMetricUtilizationRatio filled targetUtilization = Ok newUsageRatio →
  oppositeSides usageRatio newUsageRatio →
  getPlainMetricReplicaCount e metrics currentReplicas targetUtilization
                             readyPodCount missingPods ignoredPods
  = Ok (currentReplicas, filled).
Proof.
  intros filled Hu Hu' Hopp. unfold getPlainMetricReplicaCount.
  rewrite Hu. cbn [mbind result_bind].
  destruct (negb (rebalance ignoredPods usageRatio)
            && bool_decide (size missingPods = 0%nat)) eqn:Hbase.
  - exfalso.
    apply andb_true_iff in Hbase as [Hreb Hmiss].
    apply negb_true_iff in Hreb. apply bool_decide_eq_true_1 in Hmiss.
    unfold filled, plainFillIn in Hu'.
    rewrite Hreb, bool_decide_eq_false_2 in Hu' by lia.
    rewrite Hu in Hu'. injection Hu' as <-.
    exact (oppositeSides_irrefl _ Hopp).
  - fold filled. rewrite Hu'. cbn [mbind result_bind].
    rewrite (oppositeSides_changesDirection _ _ Hopp), orb_true_r.
    reflexivity.
Qed.

(** The guard of the utilization mode. *)
Lemma utilizationEvaluation_flip
    `{mc : Ratios} (tolerance : float) (currentReplicas : Z)
    (measured : ResourceMetric.t) (targetUtilization : Z)
    (usageRatio newUsageRatio : float) :
  let metrics := ResourceMetric.PodMetricsInfo measured in
  let requests := ResourceMetric.Requests measured in
  let missingPods := ResourceMetric.MissingPods measured in
  let ignoredPods := ResourceMetric.IgnoredPods measured in
  GetResourceUtilizationRatio metrics requests targetUtilization
  = Ok usageRatio →
  GetResourceUtilizationRatio
    (utilizationFillIn usageRatio (rebalance ignoredPods usageRatio)
                       requests missingPods ignoredPods metrics)
    requests targetUtilization
  = Ok newUsageRatio →
  oppositeSides usageRatio newUsageRatio →
  utilizationEvaluation tolerance currentReplicas measured targetUtilization
  = Ok {| TargetReplicas := currentReplicas |}.
Proof.
  intros metrics requests missingPods ignoredPods Hu Hu' Hopp.
  unfold utilizationEvaluation.
  fold metrics requests missingPods ignoredPods.
  rewrite Hu. simpl.
  destruct (negb (rebalance ignoredPods usageRatio)
            && bool_decide (size missingPods = 0%nat)) eqn:Hbase.
  - exfalso.
    apply andb_true_iff in Hbase as [Hreb Hmiss].
    apply negb_true_iff in Hreb. apply bool_decide_eq_true_1 in Hmiss.
    unfold utilizationFillIn in Hu'.
    rewrite Hreb, bool_decide_eq_false_2 in Hu' by lia.
    rewrite Hu in Hu'. injection Hu' as <-.
    exact (oppositeSides_irrefl _ Hopp).
  - rewrite Hu'. simpl.
    rewrite (oppositeSides_changesDirection _ _ Hopp), orb_true_r.
    reflexivity.
Qed.

(** X21: whenever the base ratio u and the ratio u' recomputed on the
    augmented sample map lie strictly on opposite sides of 1 (u < 1 < u'
    or u' < 1 < u), the plain-metric calculation and the utilization mode of
    the resource evaluation return the current replicas C. *)
Theorem direction_flip_guard `{mc : Ratios} :
  (∀ (e : Evaluator) (metrics : PodMetricsInfo)
     (currentReplicas targetUtilization readyPodCount : Z)
     (missingPods ignoredPods : gset string)
     (usageRatio newUsageRatio : float),
     let filled :=
       plainFillIn usageRatio (rebalance ignoredPods usageRatio)
                   targetUtilization missingPods ignoredPods metrics in
     GetMetricUtilizationRatio metrics targetUtilization = Ok usageRatio →
     GetMetricUtilizationRatio filled targetUtilization = Ok newUsageRatio →
     oppositeSides usageRatio newUsageRatio →
     getPlainMetricReplicaCount e metrics currentReplicas targetUtilization
                                readyPodCount missingPods ignoredPods
     = Ok (currentReplicas, filled))
  ∧ (∀ (e : evaluate2021.resource.Evaluate) (currentReplicas : Z)
       (gatheredMetric : Metric) (resource : ResourceMetricSource.t)
       (measured : ResourceMetric.t) (targetUtilization : Z)
       (usageRatio newUsageRatio : float),
       MetricSpec.Resource (CombinedMetric.Spec gatheredMetric)
       = Some resource →
       MetricTarget.AverageValue (ResourceMetricSource.Target resource)
       = None →
       MetricTarget.AverageUtilization (ResourceMetricSource.Target resource)
       = Some targetUtilization →
       CombinedMetric.Resource gatheredMetric = Some measured →
       GetResourceUtilizationRatio (ResourceMetric.PodMetricsInfo measured)
         (ResourceMetric.Requests measured) targetUtilization
       = Ok usageRatio →
       GetResourceUtilizationRatio
         (utilizationFillIn usageRatio
            (rebalance (ResourceMetric.IgnoredPods measured) usageRatio)
            (ResourceMetric.Requests measured)
            (ResourceMetric.MissingPods measured)
            (ResourceMetric.IgnoredPods measured)
            (ResourceMetric.PodMetricsInfo measured))
         (ResourceMetric.Requests measured) targetUtilization
       = Ok newUsageRatio →
       oppositeSides usageRatio newUsageRatio →
       evaluate2021.resource.GetEvaluation e currentReplicas gatheredMetric
       = Ok {| TargetReplicas := currentReplicas |}).
Proof.
  split.
  - intros e metrics currentReplicas targetUtilization readyPodCount
           missingPods ignoredPods usageRatio newUsageRatio filled Hu Hu' Hopp.
    exact (getPlainMetricReplicaCount_flip e metrics currentReplicas
             targetUtilization readyPodCount missingPods ignoredPods
             usageRatio newUsageRatio Hu Hu' Hopp).
  - intros e currentReplicas gatheredMetric resource measured
           targetUtilization usageRatio newUsageRatio
           Hres Hav Hau Hmeasured Hu Hu' Hopp.
    unfold evaluate2021.resource.GetEvaluation.
    rewrite Hres. simpl. rewrite Hav, Hau, Hmeasured. simpl.
    eapply utilizationEvaluation_flip; eassumption.
Qed.

Lemma direction_flip_guard_witness :
  getPlainMetricReplicaCount (mc := specRatios) defaultEvaluator
    (sample "pod-1" 30 ∅) 5 20 1 {["pod-2"]} ∅
  = Ok (5%Z,
        plainFillIn 1.5 (rebalance ∅ 1.5) 20 {["pod-2"]} ∅
                    (sample "pod-1" 30 ∅))
  ∧ evaluate2021.resource.GetEvaluation (mc := specRatios)
      defaultResourceEvaluate 5
      (resourceMetric 5 (utilizationSpec 100) measuredWithMissing)
    = Ok {| TargetReplicas := 5 |}.
Proof.
  destruct (direction_flip_guard (mc := specRatios)) as [Hplain Hutilization].
  split.
  - assert (Hu : GetMetricUtilizationRatio (Ratios := specRatios)
                   (sample "pod-1" 30 ∅) 20 = Ok 1.5%float)
      by (vm_compute; reflexivity).
    assert (Hu' : GetMetricUtilizationRatio (Ratios := specRatios)
                    (plainFillIn 1.5 (rebalance ∅ 1.5) 20 {["pod-2"]} ∅
                                 (sample "pod-1" 30 ∅)) 20
                  = Ok 0.75%float)
      by (vm_compute; reflexivity).
    assert (Hopp : oppositeSides 1.5 0.75)
      by (right; vm_compute; split; reflexivity).
    exact (Hplain defaultEvaluator (sample "pod-1" 30 ∅) 5%Z 20%Z 1%Z
                  {["pod-2"]} ∅ 1.5%float 0.75%float Hu Hu' Hopp).
  - eapply Hutilization with (measured := measuredWithMissing)
                             (targetUtilization := 100%Z)
                             (usageRatio := 0x1.8p+0%float)
                             (newUsageRatio := 0x1.8p-1%float).
    + reflexivity.
    + reflexivity.
    + reflexivity.
    + reflexivity.
    + vm_compute. reflexivity.
    + vm_compute. reflexivity.
    + right. vm_compute. split; reflexivity.
Defined.

(** The scenarios of the resource evaluator tests, with the ratios of the
    specification: scale-up without missing pods, scale-down without missing
    pods, scale-up and scale-down with two missing pods, scale-up with two
    ignored and two missing pods, and the same inside a tolerance of 0.5. *)
Example utilization_scenarios :
  evaluateAt50 0 2
    (measure (sample "pod-1" 20 (sample "pod-2" 20 ∅))
             (request "pod-1" 10 (request "pod-2" 10 ∅)) 2 ∅ ∅)
  = Ok {| TargetReplicas := 8 |}
  ∧ evaluateAt50 0 2
      (measure (sample "pod-1" 2 (sample "pod-2" 2 ∅))
               (request "pod-1" 10 (request "pod-2" 10 ∅)) 2 ∅ ∅)
    = Ok {| TargetReplicas := 1 |}
  ∧ evaluateAt50 0 4
      (measure (sample "pod-1" 20 (sample "pod-2" 20 ∅))
               (request "pod-1" 10 (request "pod-2" 10
                 (request "missing-1" 10 (request "missing-2" 10 ∅))))
               2 ∅ {["missing-1"; "missing-2"]})
    = Ok {| TargetReplicas := 8 |}
  ∧ evaluateAt50 0 4
      (measure (sample "pod-1" 1 (sample "pod-2" 1 ∅))
               (request "pod-1" 20 (request "pod-2" 20
                 (request "missing-1" 3 (request "missing-2" 3 ∅))))
               2 ∅ {["missing-1"; "missing-2"]})
    = Ok {| TargetReplicas := 2 |}
  ∧ evaluateAt50 0 4
      (measure (sample "pod-1" 20 (sample "pod-2" 20 ∅))
               (request "pod-1" 10 (request "pod-2" 10
                 (request "missing-1" 5 (request "missing-2" 5
                   (request "ignored-1" 5 (request "ignored-2" 5 ∅))))))
               2 {["ignored-1"; "ignored-2"]} {["missing-1"; "missing-2"]})
    = Ok {| TargetReplicas := 12 |}
  ∧ evaluateAt50 0.5 4
      (measure (sample "pod-1" 20 (sample "pod-2" 20 ∅))
               (request "pod-1" 10 (request "pod-2" 10
                 (request "missing-1" 10 (request "missing-2" 10
                   (request "ignored-1" 10 (request "ignored-2" 10 ∅))))))
               2 {["ignored-1"; "ignored-2"]} {["missing-1"; "missing-2"]})
    = Ok {| TargetReplicas := 4 |}.
Proof. vm_compute. repeat split; reflexivity. Qed.

(** ** The pod classifier *)

Lemma skipped_false_counted (pod : v1.Pod) :
  gather.skipped pod = false ↔ counted pod.
Proof.
  unfold gather.skipped, counted.
  rewrite orb_false_iff, !bool_decide_eq_false.
  split; intros [Hdel Hphase]; split; try assumption.
  - destruct (v1.DeletionTimestamp pod); [exfalso; apply Hdel|]; done.
  - rewrite Hdel. intros H. apply H. reflexivity.
Qed.

Lemma ignorePod_cpuGated (pod : v1.Pod) (metric : PodMetric)
    (cpuInitializationPeriod delayOfInitialReadinessStatus now : Z) :
  gather.ignorePod pod metric cpuInitializationPeriod
                   delayOfInitialReadinessStatus now = true
  ↔ cpuGated pod metric cpuInitializationPeriod
             delayOfInitialReadinessStatus now.
Proof.
  unfold gather.ignorePod, cpuGated.
  destruct (gather.GetPodCondition (v1.Conditions pod) v1.PodReady)
    as [condition|]; [|split; [intros _; left; left; reflexivity | done]].
  destruct (v1.StartTime pod) as [startTime|];
    [|split; [intros _; left; right; reflexivity | done]].
  case_bool_decide as Hwindow.
  - rewrite orb_true_iff, !bool_decide_eq_true. split.
    + intros H. right. exists condition, startTime.
      split; [reflexivity|]. split; [reflexivity|]. left. done.
    + intros [[?|?]|(c & t & Hc & Ht & H)]; [done|done|].
      injection Hc as <-. injection Ht as <-.
      destruct H as [[_ H]|[Hnot _]]; [exact H | done].
  - rewrite andb_true_iff, !bool_decide_eq_true. split.
    + intros H. right. exists condition, startTime.
      split; [reflexivity|]. split; [reflexivity|]. right. done.
    + intros [[?|?]|(c & t & Hc & Ht & H)]; [done|done|].
      injection Hc as <-. injection Ht as <-.
      destruct H as [[Hin _]|[_ H]]; [done | exact H].
Qed.

Section groupPods_properties.
Variable metrics : PodMetricsInfo.
Variable resource : string.
Variables cpuInitializationPeriod delayOfInitialReadinessStatus now : Z.

Local Abbreviation step :=
  (gather.groupPod metrics resource cpuInitializationPeriod
                   delayOfInitialReadinessStatus now).
Local Abbreviation isMissing := (goesMissing metrics).
Local Abbreviation isIgnored :=
  (goesIgnored metrics resource cpuInitializationPeriod
               delayOfInitialReadinessStatus now).

Lemma groupPod_missing (g : gather.groups) (pod : v1.Pod) (name : string) :
  name ∈ gather.missingPods (step g pod)
  ↔ name ∈ gather.missingPods g ∨ (v1.Name pod = name ∧ isMissing pod).
Proof.
  unfold step, gather.groupPod, isMissing.
  destruct (gather.skipped pod); [naive_solver|].
  destruct (metrics !! v1.Name pod) as [metric|]; simpl.
  - destruct (bool_decide (resource = v1.ResourceCPU)
              && gather.ignorePod pod metric _ _ _); simpl; naive_solver.
  - rewrite elem_of_union, elem_of_singleton. naive_solver.
Qed.

Lemma groupPod_ignored (g : gather.groups) (pod : v1.Pod) (name : string) :
  name ∈ gather.ignoredPods (step g pod)
  ↔ name ∈ gather.ignoredPods g ∨ (v1.Name pod = name ∧ isIgnored pod).
Proof.
  unfold step, gather.groupPod, isIgnored.
  destruct (gather.skipped pod); [naive_solver|].
  destruct (metrics !! v1.Name pod) as [metric|]; simpl; [|naive_solver].
  destruct (bool_decide (resource = v1.ResourceCPU)
            && gather.ignorePod pod metric _ _ _) eqn:Hignore; simpl.
  - apply andb_true_iff in Hignore as [Hcpu Hgate].
    apply bool_decide_eq_true_1 in Hcpu.
    rewrite elem_of_union, elem_of_singleton. naive_solver.
  - split; [naive_solver|].
    intros [?|[_ [_ (m & Hm & Hcpu & Hgate)]]]; [done|].
    injection Hm as <-.
    rewrite Hgate, bool_decide_eq_true_2 in Hignore by done. done.
Qed.

Lemma foldl_groupPod_missing (pods : list v1.Pod) (g : gather.groups)
    (name : string) :
  name ∈ gather.missingPods (foldl step g pods)
  ↔ name ∈ gather.missingPods g
    ∨ ∃ pod, pod ∈ pods ∧ v1.Name pod = name ∧ isMissing pod.
Proof.
  revert g. induction pods as [|pod pods IH]; intros g; simpl.
  - split; [auto|]. intros [?|(pod & Hin & _)]; [done|].
    by apply not_elem_of_nil in Hin.
  - rewrite IH, groupPod_missing. setoid_rewrite elem_of_cons. naive_solver.
Qed.

Lemma foldl_groupPod_ignored (pods : list v1.Pod) (g : gather.groups)
    (name : string) :
  name ∈ gather.ignoredPods (foldl step g pods)
  ↔ name ∈ gather.ignoredPods g
    ∨ ∃ pod, pod ∈ pods ∧ v1.Name pod = name ∧ isIgnored pod.
Proof.
  revert g. induction pods as [|pod pods IH]; intros g; simpl.
  - split; [auto|]. intros [?|(pod & Hin & _)]; [done|].
    by apply not_elem_of_nil in Hin.
  - rewrite IH, groupPod_ignored. setoid_rewrite elem_of_cons. naive_solver.
Qed.

(** The three counters together grow by one for a counted pod with a new
    name, and not at all for a skipped pod. *)

Lemma groupPod_total (g : gather.groups) (pod : v1.Pod) :
  v1.Name pod ∉ gather.ignoredPods g →
  v1.Name pod ∉ gather.missingPods g →
  total (step g pod)
  = total g + (if decide (counted pod) then 1 else 0).
Proof.
  intros Hignored Hmissing. unfold total, step, gather.groupPod.
  destruct (gather.skipped pod) eqn:Hskip.
  - rewrite decide_False; [lia|].
    intros Hc. apply skipped_false_counted in Hc. congruence.
  - rewrite decide_True by (by apply skipped_false_counted).
    destruct (metrics !! v1.Name pod) as [metric|]; simpl.
    + destruct (bool_decide (resource = v1.ResourceCPU)
                && gather.ignorePod pod metric _ _ _); simpl.
      * rewrite size_union, size_singleton by set_solver. lia.
      * lia.
    + rewrite size_union, size_singleton by set_solver. lia.
Qed.

Lemma foldl_groupPod_total (pods : list v1.Pod) (g : gather.groups) :
  NoDup (v1.Name <$> pods) →
  (∀ pod, pod ∈ pods →
          (v1.Name pod ∉ gather.ignoredPods g)
          ∧ (v1.Name pod ∉ gather.missingPods g)) →
  total (foldl step g pods) = total g + length (filter counted pods).
Proof.
  revert g. induction pods as [|pod pods IH]; intros g Hnodup Hfresh; simpl.
  - lia.
  - rewrite fmap_cons in Hnodup. apply NoDup_cons in Hnodup as [Hhead Htail].
    destruct (Hfresh pod) as [Hi Hm]; [left|].
    rewrite IH; [|exact Htail|].
    + rewrite (groupPod_total g pod Hi Hm), filter_cons.
      destruct (decide (counted pod)); simpl; lia.
    + intros pod' Hin.
      destruct (Hfresh pod') as [Hi' Hm']; [by right|].
      assert (v1.Name pod ≠ v1.Name pod') as Hne.
      { intros Heq. apply Hhead. rewrite Heq.
        apply list_elem_of_fmap. exists pod'. done. }
      rewrite groupPod_ignored, groupPod_missing. naive_solver.
Qed.

End groupPods_properties.

(** C4, as stated, fails on a pod list that names a pod twice: the two
    entries without a sample are one missing name, and the three counters
    add up to 1 for 2 counted pods. *)
Lemma groupPods_partition_counterexample :
  let pods := [runningPod "pod-1"; runningPod "pod-1"] in
  let g := gather.groupPods ∅ v1.ResourceCPU 300 30 0 pods in
  gather.readyPodCount g = 0
  ∧ gather.ignoredPods g = ∅
  ∧ gather.missingPods g = {["pod-1"]}
  ∧ total g = 1
  ∧ length (filter counted pods) = 2.
Proof. vm_compute. repeat split; reflexivity. Qed.

(** C4 (amended): for every pod list with pairwise distinct pod names,
    sample map, resource kind and pair of timing constants, groupPods returns
    (ready, ignored, missing) with ready + |ignored| + |missing| equal to the
    number of pods that are not marked for deletion and not in the phase
    Failed; missing holds exactly the names of the counted pods without a
    sample, and every ignored name has a sample. *)
Theorem groupPods_partition
    (metrics : PodMetricsInfo) (resource : string)
    (cpuInitializationPeriod delayOfInitialReadinessStatus now : Z)
    (pods : list v1.Pod) :
  NoDup (v1.Name <$> pods) →
  let g := gather.groupPods metrics resource cpuInitializationPeriod
                            delayOfInitialReadinessStatus now pods in
  gather.readyPodCount g + size (gather.ignoredPods g)
  + size (gather.missingPods g)
  = length (filter counted pods)
  ∧ (∀ name, name ∈ gather.missingPods g
             ↔ ∃ pod, pod ∈ pods ∧ v1.Name pod = name ∧ counted pod
                      ∧ metrics !! name = None)
  ∧ (∀ name, name ∈ gather.ignoredPods g → is_Some (metrics !! name)).
Proof.
  intros Hnodup g. unfold g, gather.groupPods. split; [|split].
  - pose proof (foldl_groupPod_total metrics resource cpuInitializationPeriod
                  delayOfInitialReadinessStatus now pods
                  {| gather.readyPodCount := 0; gather.ignoredPods := ∅;
                     gather.missingPods := ∅ |} Hnodup) as Htotal.
    unfold total in Htotal.
    cbn [gather.readyPodCount gather.ignoredPods gather.missingPods] in Htotal.
    rewrite size_empty in Htotal.
    rewrite Htotal; [lia|].
    intros pod _. set_solver.
  - intros name. rewrite foldl_groupPod_missing. simpl.
    split.
    + intros [Hin|(pod & Hin & Hname & Hskip & Hnone)]; [set_solver|].
      exists pod. rewrite <- Hname.
      by rewrite <- skipped_false_counted.
    + intros (pod & Hin & Hname & Hcounted & Hnone). right.
      exists pod. unfold goesMissing.
      rewrite skipped_false_counted, Hname. done.
  - intros name. rewrite foldl_groupPod_ignored. simpl.
    intros [Hin|(pod & _ & Hname & _ & metric & Hsome & _)]; [set_solver|].
    rewrite <- Hname, Hsome. by eexists.
Qed.

Lemma groupPods_partition_witness :
  total (gather.groupPods (sample "pod-1" 10 ∅) v1.ResourceCPU 300 30 0
                          [runningPod "pod-1"; runningPod "pod-2"])
  = 2.
Proof.
  assert (NoDup (v1.Name <$> [runningPod "pod-1"; runningPod "pod-2"]))
    as Hnodup.
  { simpl. apply NoDup_cons. split.
    - rewrite list_elem_of_singleton. discriminate.
    - apply NoDup_singleton. }
  exact (proj1 (groupPods_partition (sample "pod-1" 10 ∅) v1.ResourceCPU
                  300 30 0 _ Hnodup)).
Defined.

(** C8: for a CPU resource metric groupPods ignores exactly the names of the
    sampled pods that it does not skip and whose sample the timing gate
    holds back: no ready condition or no start time; or start time plus the
    CPU initialization period in the future and (ready status False, or
    sample older than the last ready transition plus the sample window); or
    the window passed, ready status False and start time plus the initial
    readiness delay after the last ready transition.  For another resource
    no pod is ignored. *)
Theorem groupPods_cpu_gating
    (metrics : PodMetricsInfo) (resource : string)
    (cpuInitializationPeriod delayOfInitialReadinessStatus now : Z)
    (pods : list v1.Pod) :
  let g := gather.groupPods metrics resource cpuInitializationPeriod
                            delayOfInitialReadinessStatus now pods in
  (∀ name, name ∈ gather.ignoredPods g
           ↔ resource = v1.ResourceCPU
             ∧ ∃ pod metric,
                 pod ∈ pods ∧ v1.Name pod = name ∧ counted pod
                 ∧ metrics !! name = Some metric
                 ∧ cpuGated pod metric cpuInitializationPeriod
                            delayOfInitialReadinessStatus now)
  ∧ (resource ≠ v1.ResourceCPU → gather.ignoredPods g = ∅).
Proof.
  intros g.
  assert (Hiff : ∀ name, name ∈ gather.ignoredPods g
           ↔ resource = v1.ResourceCPU
             ∧ ∃ pod metric,
                 pod ∈ pods ∧ v1.Name pod = name ∧ counted pod
                 ∧ metrics !! name = Some metric
                 ∧ cpuGated pod metric cpuInitializationPeriod
                            delayOfInitialReadinessStatus now).
  { intros name. unfold g, gather.groupPods.
    rewrite foldl_groupPod_ignored. simpl. split.
    - intros [Hin|(pod & Hin & Hname & Hskip & metric & Hsome & Hcpu & Hgate)];
        [set_solver|].
      split; [exact Hcpu|]. exists pod, metric.
      rewrite <- Hname, <- skipped_false_counted, <- ignorePod_cpuGated.
      done.
    - intros (Hcpu & pod & metric & Hin & Hname & Hcounted & Hsome & Hgate).
      right. exists pod. split; [exact Hin|]. split; [exact Hname|].
      split; [by apply skipped_false_counted|].
      exists metric. rewrite Hname, ignorePod_cpuGated. done. }
  split; [exact Hiff|].
  intros Hne. apply leibniz_equiv. intros name. split; [|set_solver].
  intros Hin. apply Hiff in Hin as [Hcpu _]. done.
Qed.

(** A pod that started at 0 and turned ready at 10, seen at 100 with an
    initialization period of 300, is ignored while its sample of window 60
    is older than 70, and ready with a sample taken at 70. *)
Example groupPods_cpu_gating_window :
  let pod := {| v1.Name := "pod-1";
                v1.DeletionTimestamp := None;
                v1.Phase := v1.PodRunning;
                v1.StartTime := Some 0%Z;
                v1.Conditions :=
                  [ {| v1.Type_ := v1.PodReady;
                       v1.Status := v1.ConditionTrue;
                       v1.LastTransitionTime := 10 |} ] |} in
  let early := {| Timestamp := 69; Window := 60; Value := 5 |} in
  let late := {| Timestamp := 70; Window := 60; Value := 5 |} in
  gather.ignoredPods
    (gather.groupPods (<["pod-1" := early]> ∅) v1.ResourceCPU 300 30 100 [pod])
  = {["pod-1"]}
  ∧ gather.readyPodCount
      (gather.groupPods (<["pod-1" := late]> ∅) v1.ResourceCPU 300 30 100 [pod])
    = 1
  ∧ gather.readyPodCount
      (gather.groupPods (<["pod-1" := early]> ∅) "memory" 300 30 100 [pod])
    = 1.
Proof. vm_compute. repeat split; reflexivity. Qed.

(** ** The evaluator facade of 2021 *)

Section facade2021.
Variable e : evaluate2021.Evaluate.

Local Abbreviation run := (evaluate2021_of e).

(** What the loop leaves in its three variables. *)
Lemma evaluateAll2021_state (gatheredMetrics : list Metric)
    (st st' : evaluate2021.loopState) :
  evaluate2021.evaluateAll e gatheredMetrics st = Ok st' →
  let seen := from_option (λ best, [TargetReplicas best]) []
                          (evaluate2021.evaluation st) in
  length gatheredMetrics
  = length (targets run gatheredMetrics)
    + length (failures run gatheredMetrics)
  ∧ evaluate2021.invalidEvaluationsCount st'
    = evaluate2021.invalidEvaluationsCount st
      + length (failures run gatheredMetrics)
  ∧ (evaluate2021.invalidEvaluationsCount st = 0 →
     evaluate2021.invalidEvaluationError st = None →
     evaluate2021.invalidEvaluationError st'
     = head (failures run gatheredMetrics))
  ∧ match evaluate2021.evaluation st' with
    | Some best =>
        isMaximum (TargetReplicas best) (seen ++ targets run gatheredMetrics)
    | None => seen ++ targets run gatheredMetrics = []
    end.
Proof.
  revert st. induction gatheredMetrics as [|m ms IH]; intros st; simpl.
  - intros [= <-]. repeat split; try lia.
    + intros _ H. exact H.
    + unfold isMaximum. rewrite app_nil_r.
      destruct (evaluate2021.evaluation st) as [best|]; simpl; [|done].
      split; [left | repeat constructor; lia].
  - unfold evaluate2021.loopStep, targets, failures. simpl.
    fold (run m). fold (targets run ms). fold (failures run ms).
    destruct (run m) as [proposed|err|] eqn:Hrun; simpl; [| |done].
    + destruct (evaluate2021.evaluation st) as [best|] eqn:Hbest; simpl.
      * case_bool_decide as Hlt; simpl; intros Hrest;
          destruct (IH _ Hrest) as (Hlen & Hcount & Herr & Hmax); simpl in *.
        -- repeat split; [lia | lia | exact Herr |].
           destruct (evaluate2021.evaluation st') as [best'|];
             [|done].
           destruct Hmax as [Hin Hall]. split.
           ++ right. exact Hin.
           ++ constructor; [|exact Hall].
              apply Forall_cons in Hall as [Hle _]. lia.
        -- rewrite Hbest in Hmax. simpl in Hmax.
           repeat split; [lia | lia | exact Herr |].
           destruct (evaluate2021.evaluation st') as [best'|];
             [|done].
           destruct Hmax as [Hin Hall]. split.
           ++ apply elem_of_cons in Hin as [->|Hin]; [left | right; right; exact Hin].
           ++ apply Forall_cons in Hall as [Hle Hall].
              constructor; [exact Hle|]. constructor; [lia | exact Hall].
      * intros Hrest.
        destruct (IH _ Hrest) as (Hlen & Hcount & Herr & Hmax); simpl in *.
        repeat split; [lia | lia | exact Herr | exact Hmax].
    + intros Hrest.
      destruct (IH _ Hrest) as (Hlen & Hcount & Herr & Hmax); simpl in *.
      repeat split; [lia | lia | | exact Hmax].
      intros Hzero Hnone. rewrite Hzero in Hrest.
      rewrite bool_decide_eq_true_2 in Hrest by lia.
      clear Herr.
      assert (Hkeep : ∀ l (s s' : evaluate2021.loopState),
                evaluate2021.evaluateAll e l s = Ok s' →
                0 < evaluate2021.invalidEvaluationsCount s →
                evaluate2021.invalidEvaluationError s'
                = evaluate2021.invalidEvaluationError s).
      { clear. induction l as [|x l IHl]; intros s s'; simpl.
        - intros [= <-] _. reflexivity.
        - unfold evaluate2021.loopStep.
          destruct (evaluate2021.getEvaluation e _ x) as [p|msg|]; simpl;
            [| |done].
          + destruct (evaluate2021.evaluation s) as [b|]; simpl.
            * case_bool_decide; simpl; intros Hs Hpos;
                rewrite (IHl _ _ Hs); simpl; done.
            * intros Hs Hpos. rewrite (IHl _ _ Hs); simpl; done.
          + intros Hs Hpos. rewrite (IHl _ _ Hs); simpl; [|lia].
            rewrite bool_decide_eq_false_2 by lia. reflexivity. }
      rewrite (Hkeep _ _ _ Hrest); simpl; [reflexivity | lia].
Qed.

(** The loop ends in a panic only when some evaluation panics. *)
Lemma evaluateAll2021_total (gatheredMetrics : list Metric)
    (st : evaluate2021.loopState) :
  Forall (λ m, run m ≠ Panic) gatheredMetrics →
  ∃ st', evaluate2021.evaluateAll e gatheredMetrics st = Ok st'.
Proof.
  revert st. induction gatheredMetrics as [|m ms IH]; intros st Hall; simpl.
  - by eexists.
  - apply Forall_cons in Hall as [Hm Hms].
    unfold evaluate2021.loopStep. fold (run m).
    destruct (run m) as [proposed|err|]; simpl; [| |done].
    + destruct (evaluate2021.evaluation st); simpl;
        [case_bool_decide; simpl|]; by apply IH.
    + by apply IH.
Qed.

End facade2021.

Lemma failures_length {A B} (run : A → result B) (inputs : list A) :
  length (failures run inputs) ≤ length inputs
  ∧ (length (failures run inputs) = length inputs
     ↔ Forall (λ input, isErr (run input)) inputs).
Proof.
  induction inputs as [|x l [IHle IHiff]]; simpl.
  - split; [lia|]. split; [constructor | reflexivity].
  - unfold failures in *. simpl.
    destruct (run x) as [b|err|] eqn:Hx; simpl.
    + split; [lia|]. split; [lia|].
      intros H. apply Forall_cons in H as [H _]. rewrite Hx in H. done.
    + split; [lia|]. rewrite Forall_cons, Hx, <- IHiff. simpl.
      split; [intros [= ->]; done | intros [_ ->]; done].
    + split; [lia|]. split; [lia|].
      intros H. apply Forall_cons in H as [H _]. rewrite Hx in H. done.
Qed.

Lemma allErr_no_panic {A B} (run : A → result B) (inputs : list A) :
  Forall (λ input, isErr (run input)) inputs →
  Forall (λ input, run input ≠ Panic) inputs.
Proof.
  intros Hall. eapply Forall_impl; [exact Hall|].
  intros x Hx Hp. simpl in Hx. rewrite Hp in Hx. exact Hx.
Qed.

Lemma evaluateAll2021_not_Err (e : evaluate2021.Evaluate)
    (gatheredMetrics : list Metric) (st : evaluate2021.loopState)
    (msg : string) :
  evaluate2021.evaluateAll e gatheredMetrics st ≠ Err msg.
Proof.
  revert st. induction gatheredMetrics as [|m ms IH]; intros st; simpl;
    [done|].
  unfold evaluate2021.loopStep.
  destruct (evaluate2021.getEvaluation e _ m); simpl; [| |done].
  - destruct (evaluate2021.evaluation st); simpl;
      [case_bool_decide; simpl|]; apply IH.
  - apply IH.
Qed.

(** X2: the failure policy of the 2021 facade: an error exactly when every
    metric fails to evaluate, with the count and the first error in the
    message. *)
Lemma GetEvaluation2021_failure_policy (e : evaluate2021.Evaluate)
    (gatheredMetrics : list Metric) :
  ((∃ msg, evaluate2021.GetEvaluation e gatheredMetrics = Err msg)
   ↔ Forall (λ m, isErr (evaluate2021_of e m)) gatheredMetrics)
  ∧ (Forall (λ m, isErr (evaluate2021_of e m)) gatheredMetrics →
     evaluate2021.GetEvaluation e gatheredMetrics
     = Err (allInvalid "evaluations" (length gatheredMetrics)
              (length gatheredMetrics)
              (head (failures (evaluate2021_of e) gatheredMetrics)))).
Proof.
  assert (Hall : Forall (λ m, isErr (evaluate2021_of e m)) gatheredMetrics →
     evaluate2021.GetEvaluation e gatheredMetrics
     = Err (allInvalid "evaluations" (length gatheredMetrics)
              (length gatheredMetrics)
              (head (failures (evaluate2021_of e) gatheredMetrics)))).
  { intros Hfail. unfold evaluate2021.GetEvaluation.
    destruct (evaluateAll2021_total e gatheredMetrics
                {| evaluate2021.evaluation := None;
                   evaluate2021.invalidEvaluationError := None;
                   evaluate2021.invalidEvaluationsCount := 0 |}
                (allErr_no_panic _ _ Hfail)) as [st' Hst'].
    rewrite Hst'. simpl.
    destruct (evaluateAll2021_state e _ _ _ Hst') as (_ & Hcount & Herr & _).
    simpl in Hcount, Herr.
    apply (failures_length (evaluate2021_of e)) in Hfail.
    rewrite Hcount, Hfail, Herr by reflexivity.
    rewrite bool_decide_eq_true_2 by lia. reflexivity. }
  split; [|exact Hall].
  split; [|intros Hfail; eexists; by apply Hall].
  intros [msg Hmsg]. unfold evaluate2021.GetEvaluation in Hmsg.
  destruct (evaluate2021.evaluateAll e gatheredMetrics _) as [st'|msg'|]
    eqn:Hst'; simpl in Hmsg; [| |done].
  - destruct (evaluateAll2021_state e _ _ _ Hst') as (Hlen & Hcount & _).
    simpl in Hcount.
    case_bool_decide as Hge; [|done].
    apply (failures_length (evaluate2021_of e)).
    pose proof (proj1 (failures_length (evaluate2021_of e) gatheredMetrics)).
    lia.
  - by apply evaluateAll2021_not_Err in Hst'.
Qed.

(** ** The evaluator facade of 2019 *)

Lemma evaluateAll2019_state `{mc : Ratios} (e : Evaluator)
    (gatheredMetrics : list Metric) (best r : option Evaluation) :
  evaluate2019.evaluateAll e gatheredMetrics best = Ok r →
  let seen := from_option (λ b, [TargetReplicas b]) [] best in
  length (targets (evaluate2019_of e) gatheredMetrics)
  = length gatheredMetrics
  ∧ match r with
    | Some b =>
        isMaximum (TargetReplicas b)
                  (seen ++ targets (evaluate2019_of e) gatheredMetrics)
    | None => seen ++ targets (evaluate2019_of e) gatheredMetrics = []
    end.
Proof.
  revert best. induction gatheredMetrics as [|m ms IH]; intros best; simpl.
  - intros [= <-]. split; [reflexivity|].
    unfold isMaximum. rewrite app_nil_r.
    destruct best as [b|]; simpl; [|done].
    split; [left | repeat constructor; lia].
  - unfold targets. simpl. fold (evaluate2019_of e m).
    fold (targets (evaluate2019_of e) ms).
    destruct (evaluate2019_of e m) as [proposed|err|]; simpl; [|done|done].
    destruct best as [b|]; simpl.
    + case_bool_decide as Hlt; intros Hrest;
        destruct (IH _ Hrest) as (Hlen & Hmax); simpl in *.
      * split; [lia|]. destruct r as [b'|]; [|done].
        destruct Hmax as [Hin Hall]. split.
        -- right. exact Hin.
        -- constructor; [|exact Hall].
           apply Forall_cons in Hall as [Hle _]. lia.
      * split; [lia|]. destruct r as [b'|]; [|done].
        destruct Hmax as [Hin Hall]. split.
        -- apply elem_of_cons in Hin as [->|Hin];
             [left | right; right; exact Hin].
        -- apply Forall_cons in Hall as [Hle Hall].
           constructor; [exact Hle|]. constructor; [lia | exact Hall].
    + intros Hrest. destruct (IH _ Hrest) as (Hlen & Hmax); simpl in *.
      split; [lia | exact Hmax].
Qed.

Lemma evaluateAll2019_total `{mc : Ratios} (e : Evaluator)
    (gatheredMetrics : list Metric) :
  Forall (λ m, ∃ proposed, evaluate2019_of e m = Ok proposed)
         gatheredMetrics →
  ∀ best,
    ∃ r, evaluate2019.evaluateAll e gatheredMetrics best = Ok r
         ∧ (is_Some best ∨ gatheredMetrics ≠ [] → is_Some r).
Proof.
  induction 1 as [|m ms [proposed Hm] _ IH]; intros best; simpl.
  - exists best. split; [reflexivity|]. intros [?|?]; done.
  - unfold evaluate2019_of in Hm. rewrite Hm. simpl.
    destruct best as [b|]; [case_bool_decide|];
      match goal with
      | |- context [evaluate2019.evaluateAll e ms ?b'] =>
          destruct (IH b') as (r & Hr & Hsome)
      end;
      exists r; (split; [exact Hr|]); intros _; apply Hsome; left; by eexists.
Qed.

(** X22: whenever a facade GetEvaluation returns without error, it returns
    an evaluation whose target replica count is the maximum of the target
    replica counts of the per-metric evaluations that succeeded.  The 2021
    facade returns without error as soon as one metric evaluates and none
    panics; the 2019 facade does on every list that is not empty and whose
    metrics all evaluate. *)
Theorem GetEvaluation_maximum `{mc : Ratios} :
  (∀ (e : evaluate2021.Evaluate) (gatheredMetrics : list Metric)
     (r : option Evaluation),
     evaluate2021.GetEvaluation e gatheredMetrics = Ok r →
     ∃ best, r = Some best
             ∧ isMaximum (TargetReplicas best)
                         (targets (evaluate2021_of e) gatheredMetrics))
  ∧ (∀ (e : Evaluator) (gatheredMetrics : list Metric)
       (r : option Evaluation),
       evaluate2019.GetEvaluation e gatheredMetrics = Ok r →
       ∃ best, r = Some best
               ∧ isMaximum (TargetReplicas best)
                           (targets (evaluate2019_of e) gatheredMetrics))
  ∧ (∀ (e : evaluate2021.Evaluate) (gatheredMetrics : list Metric),
       Forall (λ m, evaluate2021_of e m ≠ Panic) gatheredMetrics →
       targets (evaluate2021_of e) gatheredMetrics ≠ [] →
       ∃ best, evaluate2021.GetEvaluation e gatheredMetrics = Ok (Some best))
  ∧ (∀ (e : Evaluator) (gatheredMetrics : list Metric),
       Forall (λ m, ∃ proposed, evaluate2019_of e m = Ok proposed)
              gatheredMetrics →
       gatheredMetrics ≠ [] →
       ∃ best, evaluate2019.GetEvaluation e gatheredMetrics = Ok (Some best)).
Proof.
  split; [|split; [|split]].
  4: {
    intros e gatheredMetrics Hall Hne.
    unfold evaluate2019.GetEvaluation.
    destruct (evaluateAll2019_total e gatheredMetrics Hall None)
      as (r & Hr & Hsome).
    rewrite Hr. simpl.
    rewrite bool_decide_eq_false_2
      by (destruct gatheredMetrics; [done | simpl; lia]).
    destruct (Hsome (or_intror Hne)) as [best ->]. by exists best.
  }
  3: {
    intros e gatheredMetrics Hnopanic Hsome.
    unfold evaluate2021.GetEvaluation.
    destruct (evaluateAll2021_total e gatheredMetrics
                {| evaluate2021.evaluation := None;
                   evaluate2021.invalidEvaluationError := None;
                   evaluate2021.invalidEvaluationsCount := 0 |} Hnopanic)
      as [st' Hst'].
    rewrite Hst'. simpl.
    destruct (evaluateAll2021_state e _ _ _ Hst') as (Hlen & Hcount & _ & Hmax).
    simpl in Hcount, Hmax.
    assert (0 < length (targets (evaluate2021_of e) gatheredMetrics)).
    { destruct (targets (evaluate2021_of e) gatheredMetrics);
        [done | simpl; lia]. }
    rewrite bool_decide_eq_false_2 by lia.
    destruct (evaluate2021.evaluation st') as [best|]; [by eexists | done].
  }
  - intros e gatheredMetrics r. unfold evaluate2021.GetEvaluation.
    destruct (evaluate2021.evaluateAll e gatheredMetrics _) as [st'|msg|]
      eqn:Hst'; simpl; [|done|done].
    case_bool_decide as Hge; [done|]. intros [= <-].
    destruct (evaluateAll2021_state e _ _ _ Hst') as (Hlen & Hcount & _ & Hmax).
    simpl in Hcount, Hmax.
    destruct (evaluate2021.evaluation st') as [best|].
    + exists best. split; [reflexivity | exact Hmax].
    + rewrite Hmax in Hlen. simpl in Hlen. lia.
  - intros e gatheredMetrics r. unfold evaluate2019.GetEvaluation.
    destruct (evaluate2019.evaluateAll e gatheredMetrics None) as [r'|msg|]
      eqn:Hr'; simpl; [|done|done].
    case_bool_decide as Hge; [done|]. intros [= <-].
    destruct (evaluateAll2019_state e _ _ _ Hr') as (Hlen & Hmax).
    simpl in Hmax.
    destruct r' as [best|].
    + exists best. split; [reflexivity | exact Hmax].
    + rewrite Hmax in Hlen. simpl in Hlen. lia.
Qed.

Lemma GetEvaluation_maximum_witness :
  (∃ best, Some {| TargetReplicas := 5 |} = Some best
           ∧ isMaximum (TargetReplicas best)
                       (targets (evaluate2021_of twoOfFour) oneOfEach))
  ∧ (∃ best, Some {| TargetReplicas := 9 |} = Some best
             ∧ isMaximum (TargetReplicas best)
                         (targets (evaluate2021_of allFour) oneOfEach))
  ∧ (∃ best, Some {| TargetReplicas := 5 |} = Some best
             ∧ isMaximum (TargetReplicas best)
                 (targets (evaluate2019_of (mc := specRatios) defaultEvaluator)
                    [resourceMetric 5 (utilizationSpec 100)
                                    measuredWithMissing])).
Proof.
  destruct (GetEvaluation_maximum (mc := specRatios))
    as (H2021 & H2019 & _ & _).
  split; [|split].
  - apply (H2021 twoOfFour oneOfEach). vm_compute. reflexivity.
  - apply (H2021 allFour oneOfEach). vm_compute. reflexivity.
  - apply (H2019 defaultEvaluator). vm_compute. reflexivity.
Defined.

(** C5: the 2019 facade does not skip the metrics that fail.  Of a resource
    metric that evaluates to 5, a metric of an unknown type and a resource
    metric that evaluates to 8, the per-metric evaluations that succeed give
    5 and 8, with the maximum 8; the 2019 facade returns the error of the
    second metric, where the 2021 facade, with the same per-metric
    evaluations, returns 8. *)
Theorem GetEvaluation2019_no_maximum :
  let gatheredMetrics :=
    [ resourceMetric 5 (utilizationSpec 100) measuredWithMissing;
      metricOfType "invalid";
      resourceMetric 2 (utilizationSpec 50)
        (measure (sample "pod-1" 20 (sample "pod-2" 20 ∅))
                 (request "pod-1" 10 (request "pod-2" 10 ∅)) 2 ∅ ∅) ] in
  let e21 :=
    assemble (mc := specRatios) defaultEvaluator
             (λ _ _, {| TargetReplicas := 0 |}) in
  targets (evaluate2019_of (mc := specRatios) defaultEvaluator)
          gatheredMetrics = [5%Z; 8%Z]
  ∧ isMaximum 8 [5%Z; 8%Z]
  ∧ evaluate2019.GetEvaluation (mc := specRatios) defaultEvaluator
      gatheredMetrics
    = Err (unknownSourceType "invalid")
  ∧ targets (evaluate2021_of e21) gatheredMetrics = [5%Z; 8%Z]
  ∧ evaluate2021.GetEvaluation e21 gatheredMetrics
    = Ok (Some {| TargetReplicas := 8 |}).
Proof.
  intros gatheredMetrics e21.
  split; [vm_compute; reflexivity|].
  split.
  { split; [set_solver|]. repeat constructor; lia. }
  split; [vm_compute; reflexivity|].
  split; vm_compute; reflexivity.
Qed.

(** C6: the 2019 facade breaks the failure policy.  On a resource metric
    that evaluates to 5 followed by a metric of an unknown type it returns
    the error of the second metric as it is, although the first metric
    evaluates and the message is not of the form invalid evaluations (K
    invalid out of N); the 2021 facade returns 5 for the same outcomes. *)
Theorem GetEvaluation2019_one_failure :
  let gatheredMetrics :=
    [ resourceMetric 5 (utilizationSpec 100) measuredWithMissing;
      metricOfType "invalid" ] in
  evaluate2019_of (mc := specRatios) defaultEvaluator
    (resourceMetric 5 (utilizationSpec 100) measuredWithMissing)
  = Ok {| TargetReplicas := 5 |}
  ∧ evaluate2019.GetEvaluation (mc := specRatios) defaultEvaluator
      gatheredMetrics
    = Err (unknownSourceType "invalid")
  ∧ ¬ Forall (λ m, isErr (evaluate2019_of (mc := specRatios)
                            defaultEvaluator m)) gatheredMetrics
  ∧ evaluate2021.GetEvaluation resourceYields5 gatheredMetrics
    = Ok (Some {| TargetReplicas := 5 |}).
Proof.
  intros gatheredMetrics.
  assert (Hfirst :
    evaluate2019_of (mc := specRatios) defaultEvaluator
      (resourceMetric 5 (utilizationSpec 100) measuredWithMissing)
    = Ok {| TargetReplicas := 5 |}) by (vm_compute; reflexivity).
  split; [exact Hfirst|]. split; [vm_compute; reflexivity|].
  split; [|vm_compute; reflexivity].
  intros Hall. apply Forall_cons in Hall as [Hhead _].
  rewrite Hfirst in Hhead. exact Hhead.
Qed.

(** X3: in the 2019 facade every failing metric ends the call with its own
    error. *)
Lemma GetEvaluation2019_propagates `{mc : Ratios} (e : Evaluator)
    (before after : list Metric) (gatheredMetric : Metric) (err : string) :
  Forall (λ m, ∃ proposed, evaluate2019_of e m = Ok proposed) before →
  evaluate2019_of e gatheredMetric = Err err →
  evaluate2019.GetEvaluation e (before ++ gatheredMetric :: after) = Err err.
Proof.
  intros Hbefore Herr. unfold evaluate2019.GetEvaluation.
  assert (Hloop : ∀ best,
            evaluate2019.evaluateAll e (before ++ gatheredMetric :: after) best
            = Err err).
  { induction Hbefore as [|m ms [proposed Hm] _ IH]; intros best; simpl.
    - unfold evaluate2019_of in Herr. rewrite Herr. reflexivity.
    - unfold evaluate2019_of in Hm. rewrite Hm. simpl.
      destruct best; [case_bool_decide|]; apply IH. }
  rewrite Hloop. reflexivity.
Qed.

Lemma GetEvaluation2019_propagates_witness :
  evaluate2019.GetEvaluation (mc := specRatios) defaultEvaluator
    ([ resourceMetric 5 (utilizationSpec 100) measuredWithMissing ]
     ++ metricOfType "invalid"
     :: [ resourceMetric 5 (utilizationSpec 100) measuredWithMissing ])
  = Err (unknownSourceType "invalid").
Proof.
  apply (GetEvaluation2019_propagates (mc := specRatios) defaultEvaluator).
  - repeat constructor. eexists. vm_compute. reflexivity.
  - vm_compute. reflexivity.
Defined.

(** ** The resource evaluation with an average-value target *)

(** The 2021 resource evaluator hands the average value of the resource
    spec, with the samples, the ready pod count, the missing and the ignored
    pods of the resource measurement, to the plain-metric calculation. *)
Lemma resource_GetEvaluation2021_average_value
    `{mc : Ratios} (e : evaluate2021.resource.Evaluate)
    (currentReplicas : Z) (gatheredMetric : Metric)
    (resource : ResourceMetricSource.t) (averageValue : Quantity.t)
    (measured : ResourceMetric.t) :
  MetricSpec.Resource (CombinedMetric.Spec gatheredMetric) = Some resource →
  MetricTarget.AverageValue (ResourceMetricSource.Target resource)
  = Some averageValue →
  CombinedMetric.Resource gatheredMetric = Some measured →
  evaluate2021.resource.GetEvaluation e currentReplicas gatheredMetric
  = (replicaCount ← evaluate2021.GetPlainMetricReplicaCount
                      (evaluate2021.resource.Calculater_ e)
                      (ResourceMetric.PodMetricsInfo measured)
                      currentReplicas
                      (Quantity.MilliValue averageValue)
                      (ResourceMetric.ReadyPodCount measured)
                      (ResourceMetric.MissingPods measured)
                      (ResourceMetric.IgnoredPods measured);
     Ok {| TargetReplicas := replicaCount |}).
Proof.
  intros Hres Hav Hmeasured. unfold evaluate2021.resource.GetEvaluation.
  rewrite Hres. simpl. rewrite Hav, Hmeasured. reflexivity.
Qed.

(** The 2019 resource evaluation takes the target from [Spec.Object]: it
    panics when the spec has no object source, and otherwise computes with
    the average value of the object source. *)
Lemma getResourceEvaluation2019_reads_object
    `{mc : Ratios} (e : Evaluator) (currentReplicas : Z)
    (gatheredMetric : Metric) (resource : ResourceMetricSource.t)
    (averageValue : Quantity.t) (measured : ResourceMetric.t) :
  MetricSpec.Resource (CombinedMetric.Spec gatheredMetric) = Some resource →
  MetricTarget.AverageValue (ResourceMetricSource.Target resource)
  = Some averageValue →
  CombinedMetric.Resource gatheredMetric = Some measured →
  getResourceEvaluation e currentReplicas gatheredMetric
  = match MetricSpec.Object (CombinedMetric.Spec gatheredMetric) with
    | None => Panic
    | Some object =>
        match MetricTarget.AverageValue (ObjectMetricSource.Target object) with
        | None => Panic
        | Some objectAverage =>
            outcome ← getPlainMetricReplicaCount e
                        (ResourceMetric.PodMetricsInfo measured)
                        currentReplicas
                        (Quantity.MilliValue objectAverage)
                        (ResourceMetric.ReadyPodCount measured)
                        (ResourceMetric.MissingPods measured)
                        (ResourceMetric.IgnoredPods measured);
            Ok {| TargetReplicas := outcome.1 |}
        end
    end.
Proof.
  intros Hres Hav Hmeasured. unfold getResourceEvaluation.
  rewrite Hres. simpl. rewrite Hav, Hmeasured.
  rewrite bool_decide_eq_true_2 by done. simpl.
  destruct (MetricSpec.Object (CombinedMetric.Spec gatheredMetric))
    as [object|]; simpl; [|reflexivity].
  destruct (MetricTarget.AverageValue (ObjectMetricSource.Target object));
    reflexivity.
Qed.

(** C7: the 2019 resource evaluation does not compute with the average
    value of the resource spec.  For two ready pods with samples of 100 and a
    resource target of 50 (u = 2, so 4 replicas), it panics when the spec
    has no object source, and returns 1 when an object source carries the
    average value 200; the 2021 resource evaluator returns 4. *)
Theorem getResourceEvaluation2019_average_value :
  getPlainMetricReplicaCount (mc := specRatios) defaultEvaluator
    (ResourceMetric.PodMetricsInfo measuredTwoPods) 2 50 2 ∅ ∅
  = Ok (4%Z, ResourceMetric.PodMetricsInfo measuredTwoPods)
  ∧ getResourceEvaluation (mc := specRatios) defaultEvaluator 2
      (resourceMetric 2 (averageValueSpec 50 None) measuredTwoPods)
    = Panic
  ∧ getResourceEvaluation (mc := specRatios) defaultEvaluator 2
      (resourceMetric 2
         (averageValueSpec 50 (Some (objectAverageValue 200)))
         measuredTwoPods)
    = Ok {| TargetReplicas := 1 |}
  ∧ evaluate2021.resource.GetEvaluation (mc := specRatios)
      {| evaluate2021.resource.Calculater_ :=
           calculater2019 (mc := specRatios) defaultEvaluator;
         evaluate2021.resource.Tolerance := defaultTolerance |}
      2 (resourceMetric 2 (averageValueSpec 50 None) measuredTwoPods)
    = Ok {| TargetReplicas := 4 |}.
Proof. vm_compute. repeat split; reflexivity. Qed.

(** ** The facades on an empty input *)

(** C10: on an empty list of metric specs the gatherer facade GetMetrics
    returns an error, and on an empty list of gathered metrics so does the
    evaluator facade GetEvaluation: the error of the all-invalid check, with
    0 invalid out of 0 and a nil first error (or, in the 2021 gatherer, the
    error of an unsupported resource, raised before); never a success. *)
Theorem facades_empty_input `{mc : Ratios} :
  (∀ (getMetric : Z → MetricSpec.t → result Metric)
     (resource : gather.Object),
     gather.GetMetrics getMetric resource []
     = match resource with
       | gather.OtherObject typeName =>
           Err ("Unsupported resource of type " +:+ typeName)
       | _ => Err "invalid metrics (0 invalid out of 0), first error is: <nil>"
       end)
  ∧ (∀ (getMetric : Z → MetricSpec.t → result Metric)
       (deploymentReplicas : option Z),
       gather.GetMetrics2019 getMetric deploymentReplicas []
       = Err "invalid metrics (0 invalid out of 0), first error is: <nil>")
  ∧ (∀ e : evaluate2021.Evaluate,
       evaluate2021.GetEvaluation e []
       = Err "invalid evaluations (0 invalid out of 0), first error is: <nil>")
  ∧ (∀ e : Evaluator,
       evaluate2019.GetEvaluation e []
       = Err "invalid evaluations (0 invalid out of 0), first error is: <nil>").
Proof.
  split; [|split; [|split]].
  - intros getMetric [replicas|replicas|replicas|replicas|typeName];
      reflexivity.
  - intros getMetric deploymentReplicas. reflexivity.
  - intros e. reflexivity.
  - intros e. reflexivity.
Qed.

(** ** The gatherer facade *)

Section gatherSpecs_properties.
Variable getMetric : Z → MetricSpec.t → result Metric.
Variable currentReplicas : Z.

Local Abbreviation run := (getMetric currentReplicas).

(** The state in which the loop of [GetMetrics] ends. *)
Lemma gatherAll_state (specs : list MetricSpec.t) (st : gather.loopState) :
  Forall (λ spec, run spec ≠ Panic) specs →
  gather.gatherAll getMetric currentReplicas specs st
  = Ok {| gather.combinedMetrics :=
            gather.combinedMetrics st ++ successes run specs;
          gather.invalidMetricError :=
            firstError (gather.invalidMetricsCount st)
                       (gather.invalidMetricError st) (failures run specs);
          gather.invalidMetricsCount :=
            gather.invalidMetricsCount st + length (failures run specs) |}.
Proof.
  revert st. induction specs as [|spec specs IH]; intros st Hall; simpl.
  - unfold firstError. rewrite app_nil_r, Nat.add_0_r.
    destruct st; simpl. by case_bool_decide.
  - apply Forall_cons in Hall as [Hspec Hspecs].
    unfold gather.loopStep, successes, failures. simpl.
    fold (successes run specs). fold (failures run specs).
    destruct (run spec) as [metric|err|]; simpl; [| |done].
    + rewrite IH by done. simpl. by rewrite <- app_assoc.
    + rewrite IH by done. simpl. rewrite Nat.add_succ_r.
      assert (firstError (S (gather.invalidMetricsCount st))
                (if bool_decide (gather.invalidMetricsCount st ≤ 0)
                 then Some err else gather.invalidMetricError st)
                (failures run specs)
              = firstError (gather.invalidMetricsCount st)
                  (gather.invalidMetricError st)
                  (err :: failures run specs)) as ->; [|reflexivity].
      unfold firstError.
      assert (bool_decide (S (gather.invalidMetricsCount st) ≤ 0) = false)
        as -> by (apply bool_decide_eq_false_2, Nat.nle_succ_0).
      by case_bool_decide.
Qed.

Lemma successes_cons {A B} (f : A → result B) (x : A) (l : list A) :
  successes f (x :: l)
  = match f x with Ok b => b :: successes f l | _ => successes f l end.
Proof. unfold successes. simpl. destruct (f x); reflexivity. Qed.

Lemma failures_cons {A B} (f : A → result B) (x : A) (l : list A) :
  failures f (x :: l)
  = match f x with Err err => err :: failures f l | _ => failures f l end.
Proof. unfold failures. simpl. destruct (f x); reflexivity. Qed.

End gatherSpecs_properties.

(** X1: when no per-spec gathering panics, the loop of GetMetrics fails
    exactly when every spec fails, with the count of the specs and the
    first error in the message, and otherwise returns the metrics of the
    specs that succeeded, in the order of the specs. *)
Theorem gatherSpecs_policy
    (getMetric : Z → MetricSpec.t → result Metric) (currentReplicas : Z)
    (specs : list MetricSpec.t) :
  Forall (λ spec, getMetric currentReplicas spec ≠ Panic) specs →
  gather.gatherSpecs getMetric currentReplicas specs
  = if decide (Forall (λ spec, isErr (getMetric currentReplicas spec)) specs)
    then Err (allInvalid "metrics" (length specs) (length specs)
                (head (failures (getMetric currentReplicas) specs)))
    else Ok (successes (getMetric currentReplicas) specs).
Proof.
  intros Hall. unfold gather.gatherSpecs.
  rewrite (gatherAll_state getMetric currentReplicas specs _ Hall). simpl.
  pose proof (failures_length (getMetric currentReplicas) specs)
    as [Hle Hiff].
  destruct (decide (Forall _ specs)) as [Hfail|Hsome].
  - apply Hiff in Hfail. rewrite Hfail.
    rewrite bool_decide_eq_true_2 by lia.
    unfold firstError. simpl.
    destruct (failures (getMetric currentReplicas) specs); reflexivity.
  - rewrite bool_decide_eq_false_2; [reflexivity|].
    intros Hge. apply Hsome, Hiff. lia.
Qed.

Lemma gatherSpecs_policy_witness :
  gather.gatherSpecs (gatherers.getMetric resourceFails) 3
    [ utilizationSpec 50; podsSpec 10; averageValueSpec 50 None;
      specOfType "invalid" ]
  = Ok [ gatherers.bare 3 (podsSpec 10) ]
  ∧ gather.gatherSpecs (gatherers.getMetric resourceFails) 3
      [ specOfType "invalid"; utilizationSpec 50 ]
    = Err (allInvalid "metrics" 2 2 (Some (unknownSourceType "invalid"))).
Proof.
  split.
  - rewrite gatherSpecs_policy.
    + vm_compute. reflexivity.
    + repeat constructor; vm_compute; discriminate.
  - rewrite gatherSpecs_policy.
    + vm_compute. reflexivity.
    + repeat constructor; vm_compute; discriminate.
Defined.

(** ** The evaluator facades, once more *)

Lemma isMaximum_unique (a b : Z) (l : list Z) :
  isMaximum a l → isMaximum b l → a = b.
Proof.
  intros [Ha Hla] [Hb Hlb].
  rewrite Forall_forall in Hla, Hlb.
  apply Hla in Hb. apply Hlb in Ha. lia.
Qed.

Lemma isMaximum_permutation (a : Z) (l l' : list Z) :
  l ≡ₚ l' → isMaximum a l → isMaximum a l'.
Proof.
  intros Hperm [Hin Hall]. split.
  - by rewrite <- Hperm.
  - by rewrite <- Hperm.
Qed.

Lemma targets_cons (f : Metric → result Evaluation) (m : Metric)
    (ms : list Metric) :
  targets f (m :: ms)
  = match f m with
    | Ok proposed => TargetReplicas proposed :: targets f ms
    | _ => targets f ms
    end.
Proof. unfold targets. simpl. destruct (f m); reflexivity. Qed.

Lemma targets_length (f : Metric → result Evaluation) (ms : list Metric) :
  length (targets f ms) ≤ length ms
  ∧ (length (targets f ms) = length ms →
     Forall (λ m, ∃ proposed, f m = Ok proposed) ms).
Proof.
  induction ms as [|m ms [IHle IHall]].
  - split; [reflexivity | constructor].
  - rewrite targets_cons. destruct (f m) as [proposed|err|] eqn:Hfm; simpl.
    + split; [lia|]. intros Hlen. constructor; [eexists; exact Hfm|].
      apply IHall. lia.
    + split; [lia|]. intros Hlen. lia.
    + split; [lia|]. intros Hlen. lia.
Qed.

Lemma targets_ext (f g : Metric → result Evaluation) (ms : list Metric) :
  Forall (λ m, f m = g m) ms → targets f ms = targets g ms.
Proof.
  induction 1 as [|m ms Hm _ IH]; [reflexivity|].
  rewrite !targets_cons, Hm, IH. reflexivity.
Qed.

Lemma failures_nil_of_ok {A B} (f : A → result B) (inputs : list A) :
  Forall (λ input, ∃ b, f input = Ok b) inputs → failures f inputs = [].
Proof.
  induction 1 as [|x l [b Hx] _ IH]; [reflexivity|].
  rewrite failures_cons, Hx. exact IH.
Qed.

(** The loop of the 2021 facade ends normally only if no evaluation
    panics. *)
Lemma evaluateAll2021_no_panic (e : evaluate2021.Evaluate)
    (gatheredMetrics : list Metric) (st st' : evaluate2021.loopState) :
  evaluate2021.evaluateAll e gatheredMetrics st = Ok st' →
  Forall (λ m, evaluate2021_of e m ≠ Panic) gatheredMetrics.
Proof.
  revert st. induction gatheredMetrics as [|m ms IH]; intros st; simpl;
    [constructor|].
  unfold evaluate2021.loopStep. fold (evaluate2021_of e m).
  destruct (evaluate2021_of e m) as [proposed|err|] eqn:Hm; simpl;
    [| |done].
  - destruct (evaluate2021.evaluation st); simpl;
      [case_bool_decide; simpl|]; intros Hrest;
      (constructor; [rewrite Hm; done | eauto]).
  - intros Hrest. constructor; [rewrite Hm; done | eauto].
Qed.

(** What the 2021 facade returns when at least one metric evaluates. *)
Lemma GetEvaluation2021_some (e : evaluate2021.Evaluate)
    (gatheredMetrics : list Metric) :
  Forall (λ m, evaluate2021_of e m ≠ Panic) gatheredMetrics →
  length (failures (evaluate2021_of e) gatheredMetrics)
  < length gatheredMetrics →
  ∃ best, evaluate2021.GetEvaluation e gatheredMetrics = Ok (Some best)
          ∧ isMaximum (TargetReplicas best)
                      (targets (evaluate2021_of e) gatheredMetrics).
Proof.
  intros Hnopanic Hfew. unfold evaluate2021.GetEvaluation.
  destruct (evaluateAll2021_total e gatheredMetrics
              {| evaluate2021.evaluation := None;
                 evaluate2021.invalidEvaluationError := None;
                 evaluate2021.invalidEvaluationsCount := 0 |} Hnopanic)
    as [st' Hst'].
  rewrite Hst'. simpl.
  destruct (evaluateAll2021_state e _ _ _ Hst') as (Hlen & Hcount & _ & Hmax).
  simpl in Hcount, Hmax.
  rewrite bool_decide_eq_false_2 by lia.
  destruct (evaluate2021.evaluation st') as [best|].
  - exists best. done.
  - rewrite Hmax in Hlen. simpl in Hlen. lia.
Qed.

(** The converse: a result of the 2021 facade comes from a run without
    panic in which some metric evaluates. *)
Lemma GetEvaluation2021_ok_inv (e : evaluate2021.Evaluate)
    (gatheredMetrics : list Metric) (r : option Evaluation) :
  evaluate2021.GetEvaluation e gatheredMetrics = Ok r →
  Forall (λ m, evaluate2021_of e m ≠ Panic) gatheredMetrics
  ∧ length (failures (evaluate2021_of e) gatheredMetrics)
    < length gatheredMetrics.
Proof.
  unfold evaluate2021.GetEvaluation.
  destruct (evaluate2021.evaluateAll e gatheredMetrics _) as [st'|msg|]
    eqn:Hst'; simpl; [|done|done].
  case_bool_decide as Hge; [done|]. intros _.
  split; [by eapply evaluateAll2021_no_panic|].
  destruct (evaluateAll2021_state e _ _ _ Hst') as (_ & Hcount & _).
  simpl in Hcount. lia.
Qed.

(** X4: the decision of the 2021 facade does not depend on the order of
    the gathered metrics: a call that returns without error returns the
    same evaluation on every permutation of its input. *)
Theorem GetEvaluation2021_permutation (e : evaluate2021.Evaluate)
    (gatheredMetrics gatheredMetrics' : list Metric)
    (r : option Evaluation) :
  gatheredMetrics ≡ₚ gatheredMetrics' →
  evaluate2021.GetEvaluation e gatheredMetrics = Ok r →
  evaluate2021.GetEvaluation e gatheredMetrics' = Ok r.
Proof.
  intros Hperm Hr.
  destruct (GetEvaluation2021_ok_inv e _ _ Hr) as [Hnopanic Hfew].
  destruct (GetEvaluation2021_some e _ Hnopanic Hfew)
    as (best & Hbest & Hmax).
  rewrite Hbest in Hr. injection Hr as <-.
  assert (Hfailures : failures (evaluate2021_of e) gatheredMetrics
                      ≡ₚ failures (evaluate2021_of e) gatheredMetrics').
  { unfold failures. by rewrite Hperm. }
  assert (Htargets : targets (evaluate2021_of e) gatheredMetrics
                     ≡ₚ targets (evaluate2021_of e) gatheredMetrics').
  { unfold targets. by rewrite Hperm. }
  destruct (GetEvaluation2021_some e gatheredMetrics')
    as (best' & Hbest' & Hmax').
  - by rewrite <- Hperm.
  - rewrite <- Hfailures, <- Hperm. exact Hfew.
  - rewrite Hbest'. do 2 f_equal.
    apply (isMaximum_permutation _ _ _ Htargets) in Hmax.
    pose proof (isMaximum_unique _ _ _ Hmax Hmax') as Heq.
    destruct best, best'. simpl in Heq. by rewrite Heq.
Qed.

Lemma GetEvaluation2021_permutation_witness :
  evaluate2021.GetEvaluation allFour (reverse oneOfEach)
  = Ok (Some {| TargetReplicas := 9 |}).
Proof.
  apply (GetEvaluation2021_permutation allFour oneOfEach).
  - symmetry. apply reverse_Permutation.
  - vm_compute. reflexivity.
Defined.

(** X5: the 2021 facade extends the 2019 facade: when its evaluators
    agree with the 2019 evaluation on every metric of the input, a result of
    the 2019 facade is the result of the 2021 facade too. *)
Theorem GetEvaluation2021_extends_2019 `{mc : Ratios}
    (e19 : Evaluator) (e21 : evaluate2021.Evaluate)
    (gatheredMetrics : list Metric) (r : option Evaluation) :
  Forall (λ m, evaluate2021_of e21 m = evaluate2019_of e19 m)
         gatheredMetrics →
  evaluate2019.GetEvaluation e19 gatheredMetrics = Ok r →
  evaluate2021.GetEvaluation e21 gatheredMetrics = Ok r.
Proof.
  intros Hagree. unfold evaluate2019.GetEvaluation.
  destruct (evaluate2019.evaluateAll e19 gatheredMetrics None) as [r'|msg|]
    eqn:Hr'; simpl; [|done|done].
  case_bool_decide as Hge; [done|]. intros [= <-].
  destruct (evaluateAll2019_state e19 _ _ _ Hr') as (Hlen & Hmax).
  simpl in Hmax.
  apply (targets_length (evaluate2019_of e19)) in Hlen as Hok.
  assert (Hok21 : Forall (λ m, ∃ proposed, evaluate2021_of e21 m = Ok proposed)
                         gatheredMetrics).
  { rewrite Forall_forall in *. intros m Hm.
    rewrite (Hagree m Hm). by apply Hok. }
  destruct (GetEvaluation2021_some e21 gatheredMetrics)
    as (best' & Hbest' & Hmax').
  - eapply Forall_impl; [exact Hok21|]. intros m [p Hp]. simpl.
    rewrite Hp. done.
  - rewrite (failures_nil_of_ok _ _ Hok21). simpl. lia.
  - rewrite Hbest'. f_equal.
    rewrite (targets_ext _ _ _ Hagree) in Hmax'.
    destruct r' as [best|].
    + pose proof (isMaximum_unique _ _ _ Hmax Hmax') as Heq.
      destruct best, best'. simpl in Heq. by rewrite Heq.
    + rewrite Hmax in Hmax'. destruct Hmax' as [Hin _].
      by apply not_elem_of_nil in Hin.
Qed.

Lemma GetEvaluation2021_extends_2019_witness :
  evaluate2021.GetEvaluation
    (assemble (mc := specRatios) defaultEvaluator
              (λ _ _, {| TargetReplicas := 0 |}))
    [ resourceMetric 5 (utilizationSpec 100) measuredWithMissing;
      resourceMetric 2 (utilizationSpec 50)
        (measure (sample "pod-1" 20 (sample "pod-2" 20 ∅))
                 (request "pod-1" 10 (request "pod-2" 10 ∅)) 2 ∅ ∅) ]
  = Ok (Some {| TargetReplicas := 8 |}).
Proof.
  apply (GetEvaluation2021_extends_2019 (mc := specRatios) defaultEvaluator).
  - repeat constructor; vm_compute; reflexivity.
  - vm_compute. reflexivity.
Defined.

(** X6: with the calculations of the 2019 evaluator behind the Calculater
    interface, the 2021 object evaluator returns what the 2019 evaluator
    returns on every metric; the resource evaluators agree on every metric
    whose resource target has no average value; the external evaluators
    agree when the external target has an average value, or has both or
    neither of Value and AverageUtilization. *)
Theorem evaluators_agree `{mc : Ratios} (e : Evaluator)
    (currentReplicas : Z) (gatheredMetric : Metric) :
  perSource2021.object.GetEvaluation (objectEvaluate e) currentReplicas
                                     gatheredMetric
  = getObjectEvaluation e currentReplicas gatheredMetric
  ∧ ((∀ resource,
        MetricSpec.Resource (CombinedMetric.Spec gatheredMetric)
        = Some resource →
        MetricTarget.AverageValue (ResourceMetricSource.Target resource)
        = None) →
     evaluate2021.resource.GetEvaluation (resourceEvaluate e) currentReplicas
                                         gatheredMetric
     = getResourceEvaluation e currentReplicas gatheredMetric)
  ∧ ((∀ external,
        MetricSpec.External (CombinedMetric.Spec gatheredMetric)
        = Some external →
        let target := ExternalMetricSource.Target external in
        MetricTarget.AverageValue target ≠ None
        ∨ (MetricTarget.Value target = None
           ↔ MetricTarget.AverageUtilization target = None)) →
     perSource2021.external.GetEvaluation (externalEvaluate e) currentReplicas
                                          gatheredMetric
     = getExternalEvaluation e currentReplicas gatheredMetric).
Proof.
  split; [|split].
  - unfold perSource2021.object.GetEvaluation, getObjectEvaluation.
    destruct (MetricSpec.Object (CombinedMetric.Spec gatheredMetric))
      as [object|]; reflexivity.
  - intros Hno.
    unfold evaluate2021.resource.GetEvaluation, getResourceEvaluation.
    destruct (MetricSpec.Resource (CombinedMetric.Spec gatheredMetric))
      as [resource|]; simpl; [|reflexivity].
    rewrite (Hno resource eq_refl).
    case_bool_decide; [done|reflexivity].
  - intros Hshape.
    unfold perSource2021.external.GetEvaluation, getExternalEvaluation.
    destruct (MetricSpec.External (CombinedMetric.Spec gatheredMetric))
      as [external|]; simpl; [|reflexivity].
    specialize (Hshape external eq_refl). simpl in Hshape.
    destruct (MetricTarget.AverageValue (ExternalMetricSource.Target external))
      as [averageValue|]; [reflexivity|].
    destruct Hshape as [Habs|Hboth]; [done|].
    destruct (MetricTarget.Value (ExternalMetricSource.Target external))
      as [value|],
      (MetricTarget.AverageUtilization (ExternalMetricSource.Target external))
      as [averageUtilization|]; simpl.
    + destruct (CombinedMetric.External gatheredMetric) as [measured|];
        reflexivity.
    + destruct Hboth as [_ Hboth]. by specialize (Hboth eq_refl).
    + destruct Hboth as [Hboth _]. by specialize (Hboth eq_refl).
    + reflexivity.
Qed.

Lemma evaluators_agree_witness :
  evaluate2021.resource.GetEvaluation (mc := specRatios)
    (resourceEvaluate (mc := specRatios) defaultEvaluator) 5
    (resourceMetric 5 (utilizationSpec 100) measuredWithMissing)
  = getResourceEvaluation (mc := specRatios) defaultEvaluator 5
      (resourceMetric 5 (utilizationSpec 100) measuredWithMissing).
Proof.
  apply (proj1 (proj2 (evaluators_agree (mc := specRatios) defaultEvaluator 5
                         (resourceMetric 5 (utilizationSpec 100)
                                         measuredWithMissing)))).
  intros resource [= <-]. reflexivity.
Defined.

(** ** The pod classifier on every pod list *)

Section groupPods_lists.
Variable metrics : PodMetricsInfo.
Variable resource : string.
Variables cpuInitializationPeriod delayOfInitialReadinessStatus now : Z.

Local Abbreviation step :=
  (gather.groupPod metrics resource cpuInitializationPeriod
                   delayOfInitialReadinessStatus now).
Local Abbreviation isReady :=
  (goesReady metrics resource cpuInitializationPeriod
             delayOfInitialReadinessStatus now).

Lemma groupPod_comm (g : gather.groups) (a b : v1.Pod) :
  step (step g a) b = step (step g b) a.
Proof.
  unfold step, gather.groupPod.
  destruct (gather.skipped a), (gather.skipped b); try reflexivity.
  destruct (metrics !! v1.Name a) as [ma|], (metrics !! v1.Name b) as [mb|];
    simpl.
  - destruct (bool_decide (resource = v1.ResourceCPU)
              && gather.ignorePod a ma _ _ _),
             (bool_decide (resource = v1.ResourceCPU)
              && gather.ignorePod b mb _ _ _); simpl; f_equal; set_solver.
  - destruct (bool_decide (resource = v1.ResourceCPU)
              && gather.ignorePod a ma _ _ _); simpl; reflexivity.
  - destruct (bool_decide (resource = v1.ResourceCPU)
              && gather.ignorePod b mb _ _ _); simpl; reflexivity.
  - f_equal. set_solver.
Qed.

Lemma foldl_groupPod_permutation (pods pods' : list v1.Pod) :
  pods ≡ₚ pods' → ∀ g, foldl step g pods = foldl step g pods'.
Proof.
  induction 1 as [|pod l l' _ IH|a b l|l l' l'' _ IH1 _ IH2]; intros g; simpl.
  - reflexivity.
  - apply IH.
  - rewrite groupPod_comm. reflexivity.
  - rewrite IH1. apply IH2.
Qed.

Lemma groupPod_ready (g : gather.groups) (pod : v1.Pod) :
  gather.readyPodCount (step g pod)
  = gather.readyPodCount g + (if decide (isReady pod) then 1 else 0).
Proof.
  destruct (decide (isReady pod)) as [Hready|Hnot].
  - destruct Hready as [Hskip (metric & Hm & Hgate)].
    unfold step, gather.groupPod. rewrite Hskip, Hm, Hgate. simpl. lia.
  - unfold step, gather.groupPod.
    destruct (gather.skipped pod) eqn:Hskip; [lia|].
    destruct (metrics !! v1.Name pod) as [metric|] eqn:Hm; simpl; [|lia].
    destruct (bool_decide (resource = v1.ResourceCPU)
              && gather.ignorePod pod metric _ _ _) eqn:Hgate; simpl; [lia|].
    exfalso. apply Hnot. split; [exact Hskip|]. exists metric. done.
Qed.

Lemma foldl_groupPod_ready (pods : list v1.Pod) (g : gather.groups) :
  gather.readyPodCount (foldl step g pods)
  = gather.readyPodCount g + length (filter isReady pods).
Proof.
  revert g. induction pods as [|pod pods IH]; intros g; simpl; [lia|].
  rewrite IH, groupPod_ready, filter_cons.
  destruct (decide (isReady pod)); simpl; lia.
Qed.

Lemma groupPod_total_le (g : gather.groups) (pod : v1.Pod) :
  total (step g pod) ≤ total g + (if decide (counted pod) then 1 else 0).
Proof.
  assert (Hsize : ∀ (name : string) (X : gset string),
            size ({[name]} ∪ X) ≤ 1 + size X).
  { intros name X. rewrite size_union_alt, size_singleton.
    pose proof (subseteq_size (X ∖ {[name]}) X) as Hle.
    assert (X ∖ {[name]} ⊆ X) as Hsub by set_solver.
    specialize (Hle Hsub). lia. }
  unfold total, step, gather.groupPod.
  destruct (gather.skipped pod) eqn:Hskip.
  - destruct (decide (counted pod)); lia.
  - rewrite decide_True by (by apply skipped_false_counted).
    destruct (metrics !! v1.Name pod) as [metric|]; simpl.
    + destruct (bool_decide (resource = v1.ResourceCPU)
                && gather.ignorePod pod metric _ _ _); simpl.
      * pose proof (Hsize (v1.Name pod) (gather.ignoredPods g)). lia.
      * lia.
    + pose proof (Hsize (v1.Name pod) (gather.missingPods g)). lia.
Qed.

Lemma foldl_groupPod_total_le (pods : list v1.Pod) (g : gather.groups) :
  total (foldl step g pods) ≤ total g + length (filter counted pods).
Proof.
  revert g. induction pods as [|pod pods IH]; intros g; simpl; [lia|].
  pose proof (IH (step g pod)) as Hrest.
  pose proof (groupPod_total_le g pod) as Hstep.
  rewrite filter_cons.
  destruct (decide (counted pod)); simpl in *; lia.
Qed.

End groupPods_lists.

(** X7: the classification of groupPods does not depend on the order of
    the pod list: a permutation of the pods gives the same ready count, the
    same ignored pods and the same missing pods. *)
Theorem groupPods_permutation
    (metrics : PodMetricsInfo) (resource : string)
    (cpuInitializationPeriod delayOfInitialReadinessStatus now : Z)
    (pods pods' : list v1.Pod) :
  pods ≡ₚ pods' →
  gather.groupPods metrics resource cpuInitializationPeriod
                   delayOfInitialReadinessStatus now pods
  = gather.groupPods metrics resource cpuInitializationPeriod
                     delayOfInitialReadinessStatus now pods'.
Proof.
  intros Hperm. unfold gather.groupPods.
  by apply foldl_groupPod_permutation.
Qed.

Lemma groupPods_permutation_witness :
  gather.groupPods (sample "pod-1" 10 ∅) v1.ResourceCPU 300 30 0
                   [runningPod "pod-1"; runningPod "pod-2"; runningPod "pod-3"]
  = gather.groupPods (sample "pod-1" 10 ∅) v1.ResourceCPU 300 30 0
                     [runningPod "pod-3"; runningPod "pod-2"; runningPod "pod-1"].
Proof.
  apply groupPods_permutation.
  change [runningPod "pod-3"; runningPod "pod-2"; runningPod "pod-1"]
    with (reverse [runningPod "pod-1"; runningPod "pod-2"; runningPod "pod-3"]).
  symmetry. apply reverse_Permutation.
Defined.

(** X8: on every pod list, also one that names a pod twice, groupPods counts
    as ready the list entries that are not skipped, have a sample and are not
    held back by the CPU gate; no pod name is both missing and ignored; a
    missing name has no sample and an ignored name has one; and the three
    counters together do not exceed the number of pods that are not marked
    for deletion and not failed. *)
Theorem groupPods_any_list
    (metrics : PodMetricsInfo) (resource : string)
    (cpuInitializationPeriod delayOfInitialReadinessStatus now : Z)
    (pods : list v1.Pod) :
  let g := gather.groupPods metrics resource cpuInitializationPeriod
                            delayOfInitialReadinessStatus now pods in
  gather.readyPodCount g
  = length (filter (goesReady metrics resource cpuInitializationPeriod
                              delayOfInitialReadinessStatus now) pods)
  ∧ gather.missingPods g ## gather.ignoredPods g
  ∧ (∀ name, name ∈ gather.missingPods g → metrics !! name = None)
  ∧ (∀ name, name ∈ gather.ignoredPods g → is_Some (metrics !! name))
  ∧ gather.readyPodCount g + size (gather.ignoredPods g)
    + size (gather.missingPods g)
    ≤ length (filter counted pods)
  ∧ length (filter counted pods) ≤ length pods.
Proof.
  intros g.
  assert (Hmissing : ∀ name, name ∈ gather.missingPods g →
                             metrics !! name = None).
  { intros name. unfold g, gather.groupPods.
    rewrite foldl_groupPod_missing. simpl.
    intros [Hin|(pod & _ & Hname & _ & Hnone)]; [set_solver|].
    by rewrite <- Hname. }
  assert (Hignored : ∀ name, name ∈ gather.ignoredPods g →
                             is_Some (metrics !! name)).
  { intros name. unfold g, gather.groupPods.
    rewrite foldl_groupPod_ignored. simpl.
    intros [Hin|(pod & _ & Hname & _ & metric & Hsome & _)]; [set_solver|].
    rewrite <- Hname, Hsome. by eexists. }
  split; [|split; [|split; [|split; [|split]]]].
  - unfold g, gather.groupPods. rewrite foldl_groupPod_ready. simpl. lia.
  - intros name Hm Hi. apply Hmissing in Hm. apply Hignored in Hi.
    rewrite Hm in Hi. by destruct Hi.
  - exact Hmissing.
  - exact Hignored.
  - pose proof (foldl_groupPod_total_le metrics resource
                  cpuInitializationPeriod delayOfInitialReadinessStatus now
                  pods {| gather.readyPodCount := 0; gather.ignoredPods := ∅;
                          gather.missingPods := ∅ |}) as Hle.
    unfold total in Hle.
    cbn [gather.readyPodCount gather.ignoredPods gather.missingPods] in Hle.
    rewrite size_empty in Hle. unfold g, gather.groupPods. lia.
  - apply length_filter.
Qed.

(** ** The requests of the pods *)

Lemma wrap64_add_l (a b : Z) :
  gatherers.wrap64 (gatherers.wrap64 a + b) = gatherers.wrap64 (a + b).
Proof.
  unfold gatherers.wrap64. f_equal.
  replace ((a + 9223372036854775808) mod 18446744073709551616
           - 9223372036854775808 + b + 9223372036854775808)%Z
    with ((a + 9223372036854775808) mod 18446744073709551616 + b)%Z by lia.
  rewrite Zplus_mod_idemp_l. f_equal. lia.
Qed.

Lemma sumRequests_cases (resource : string)
    (containers : list gatherers.Container) (s : Z) :
  gatherers.sumRequests resource containers (gatherers.wrap64 s)
  = if decide (Forall (λ container,
                         is_Some (gatherers.Requests container !! resource))
                      containers)
    then Ok (gatherers.wrap64
               (s + foldr Z.add 0%Z
                      ((λ container,
                          from_option Quantity.MilliValue 0%Z
                            (gatherers.Requests container !! resource))
                         <$> containers)))
    else Err ("missing request for " +:+ resource).
Proof.
  revert s. induction containers as [|c cs IH]; intros s;
    cbn [gatherers.sumRequests].
  - rewrite decide_True by constructor. simpl. do 2 f_equal. lia.
  - destruct (gatherers.Requests c !! resource) as [containerRequest|] eqn:Hc.
    + unfold gatherers.add64. rewrite wrap64_add_l, IH.
      destruct (decide (Forall _ cs)) as [Hcs|Hcs].
      * rewrite decide_True by (constructor; [by rewrite Hc|exact Hcs]).
        rewrite fmap_cons. cbn [foldr]. rewrite Hc. simpl. do 2 f_equal. lia.
      * rewrite decide_False; [reflexivity|].
        intros H. apply Forall_cons in H as [_ H]. done.
    + rewrite decide_False; [reflexivity|].
      intros H. apply Forall_cons in H as [H _]. rewrite Hc in H.
      by destruct H.
Qed.

Lemma requestsFrom_cases (resource : string)
    (pods : list gatherers.PodObject) (requests : gmap string Z) :
  if decide (Forall (requestsComplete resource) pods)
  then ∃ requests',
         gatherers.requestsFrom pods resource requests = Ok requests'
         ∧ ∀ name,
             requests' !! name
             = match lastNamed name pods with
               | Some pod => Some (requestSum resource pod)
               | None => requests !! name
               end
  else gatherers.requestsFrom pods resource requests
       = Err ("missing request for " +:+ resource).
Proof.
  revert requests. induction pods as [|pod pods IH]; intros requests.
  - rewrite decide_True by constructor. exists requests. done.
  - cbn [gatherers.requestsFrom].
    change (gatherers.sumRequests resource (gatherers.Containers pod) 0)
      with (gatherers.sumRequests resource (gatherers.Containers pod)
                                  (gatherers.wrap64 0)).
    rewrite sumRequests_cases.
    destruct (decide (Forall _ (gatherers.Containers pod))) as [Hpod|Hpod].
    + cbn [mbind result_bind]. rewrite Z.add_0_l.
      change (gatherers.wrap64 _) with (requestSum resource pod).
      specialize (IH (<[v1.Name (gatherers.Pod_ pod)
                               := requestSum resource pod]> requests)).
      destruct (decide (Forall (requestsComplete resource) pods))
        as [Hpods|Hpods].
      * rewrite decide_True by (constructor; assumption).
        destruct IH as (requests' & Hok & Hlookup).
        exists requests'. split; [exact Hok|].
        intros name. rewrite Hlookup. unfold lastNamed.
        rewrite filter_cons.
        destruct (decide (v1.Name (gatherers.Pod_ pod) = name)) as [<-|Hne].
        -- rewrite last_cons.
           destruct (last (filter _ pods)); [reflexivity|].
           by rewrite lookup_insert_eq.
        -- destruct (last (filter _ pods)); [reflexivity|].
           by rewrite lookup_insert_ne.
      * rewrite decide_False; [exact IH|].
        intros H. apply Forall_cons in H as [_ H]. done.
    + simpl. rewrite decide_False; [reflexivity|].
      intros H. apply Forall_cons in H as [H _]. done.
Qed.

(** X9: calculatePodRequests fails with the error missing request for the
    resource exactly when a container of a listed pod does not request the
    resource; otherwise it returns a map that holds, under each pod name of
    the list, the int64 sum of the requests of the containers of the last
    pod with that name, and nothing under another name. *)
Theorem calculatePodRequests_cases (resource : string)
    (pods : list gatherers.PodObject) :
  (¬ Forall (requestsComplete resource) pods →
   gatherers.calculatePodRequests pods resource
   = Err ("missing request for " +:+ resource))
  ∧ (Forall (requestsComplete resource) pods →
     ∃ requests,
       gatherers.calculatePodRequests pods resource = Ok requests
       ∧ ∀ name,
           requests !! name = requestSum resource <$> lastNamed name pods).
Proof.
  pose proof (requestsFrom_cases resource pods ∅) as Hcases.
  unfold gatherers.calculatePodRequests.
  destruct (decide (Forall (requestsComplete resource) pods)) as [Hall|Hnot].
  - split; [done|]. intros _.
    destruct Hcases as (requests & Hok & Hlookup).
    exists requests. split; [exact Hok|].
    intros name. rewrite Hlookup.
    destruct (lastNamed name pods); [reflexivity|]. apply lookup_empty.
  - split; [intros _; exact Hcases | done].
Qed.

Lemma calculatePodRequests_cases_witness :
  ∃ requests,
    gatherers.calculatePodRequests
      [ podWith "pod-1" [container "cpu" 100; container "cpu" 150];
        podWith "pod-2" [];
        podWith "pod-1" [container "cpu" 9223372036854775807;
                         container "cpu" 1] ]
      "cpu" = Ok requests
    ∧ ∀ name,
        requests !! name
        = requestSum "cpu"
            <$> lastNamed name
                  [ podWith "pod-1" [container "cpu" 100; container "cpu" 150];
                    podWith "pod-2" [];
                    podWith "pod-1" [container "cpu" 9223372036854775807;
                                     container "cpu" 1] ].
Proof.
  apply (proj2 (calculatePodRequests_cases "cpu" _)).
  repeat constructor; vm_compute; eexists; reflexivity.
Defined.

(** ** The resource and the pods gatherer of 2019 *)

Lemma removeMetricsForPods_lookup (metrics : PodMetricsInfo)
    (pods : gset string) (podName : string) :
  gatherers.removeMetricsForPods metrics pods !! podName
  = if decide (podName ∈ pods) then None else metrics !! podName.
Proof.
  unfold gatherers.removeMetricsForPods.
  set (P := λ (r : PodMetricsInfo) (X : gset string),
              r !! podName
              = if decide (podName ∈ X) then None else metrics !! podName).
  change (P (set_fold (λ pod acc, delete pod acc) metrics pods) pods).
  apply set_fold_ind_L; unfold P.
  - rewrite decide_False by set_solver. reflexivity.
  - intros x X r Hx IH.
    destruct (decide (x = podName)) as [->|Hne].
    + rewrite lookup_delete_eq.
      destruct (decide (podName ∈ {[podName]} ∪ X)) as [_|Hn];
        [reflexivity | exfalso; apply Hn; set_solver].
    + rewrite lookup_delete_ne by done. rewrite IH.
      destruct (decide (podName ∈ X)).
      * rewrite decide_True by set_solver. reflexivity.
      * rewrite decide_False by set_solver. reflexivity.
Qed.

Lemma calculatePodRequests_ok (resource : string)
    (pods : list gatherers.PodObject) (requests : gmap string Z) :
  gatherers.calculatePodRequests pods resource = Ok requests →
  Forall (requestsComplete resource) pods
  ∧ ∀ name, requests !! name = requestSum resource <$> lastNamed name pods.
Proof.
  intros Hok. pose proof (requestsFrom_cases resource pods ∅) as Hcases.
  unfold gatherers.calculatePodRequests in Hok.
  destruct (decide (Forall (requestsComplete resource) pods)) as [Hall|Hnot].
  - split; [exact Hall|].
    destruct Hcases as (requests' & Hok' & Hlookup).
    rewrite Hok in Hok'. injection Hok' as <-.
    intros name. rewrite Hlookup.
    destruct (lastNamed name pods); [reflexivity|]. apply lookup_empty.
  - rewrite Hok in Hcases. done.
Qed.

Lemma groupPods_total_le_length (metrics : PodMetricsInfo) (resource : string)
    (cpuInitializationPeriod delayOfInitialReadinessStatus now : Z)
    (pods : list v1.Pod) :
  total (gather.groupPods metrics resource cpuInitializationPeriod
                          delayOfInitialReadinessStatus now pods)
  ≤ length pods.
Proof.
  pose proof (foldl_groupPod_total_le metrics resource
                cpuInitializationPeriod delayOfInitialReadinessStatus now
                pods {| gather.readyPodCount := 0; gather.ignoredPods := ∅;
                        gather.missingPods := ∅ |}) as Hle.
  pose proof (length_filter counted pods) as Hlen.
  unfold gather.groupPods.
  unfold total in *.
  cbn [gather.readyPodCount gather.ignoredPods gather.missingPods] in Hle.
  rewrite size_empty in Hle. lia.
Qed.

Lemma groupPods_missing_unsampled (metrics : PodMetricsInfo)
    (resource : string)
    (cpuInitializationPeriod delayOfInitialReadinessStatus now : Z)
    (pods : list v1.Pod) (name : string) :
  name ∈ gather.missingPods
           (gather.groupPods metrics resource cpuInitializationPeriod
                             delayOfInitialReadinessStatus now pods)
  ↔ ∃ pod, pod ∈ pods ∧ v1.Name pod = name ∧ counted pod
           ∧ metrics !! name = None.
Proof.
  unfold gather.groupPods. rewrite foldl_groupPod_missing. simpl. split.
  - intros [Hin|(pod & Hin & Hname & Hskip & Hnone)]; [set_solver|].
    exists pod. rewrite <- Hname. by rewrite <- skipped_false_counted.
  - intros (pod & Hin & Hname & Hcounted & Hnone). right.
    exists pod. unfold goesMissing.
    rewrite skipped_false_counted, Hname. done.
Qed.

Lemma groupPods_ignored_sampled (metrics : PodMetricsInfo)
    (resource : string)
    (cpuInitializationPeriod delayOfInitialReadinessStatus now : Z)
    (pods : list v1.Pod) (name : string) :
  name ∈ gather.ignoredPods
           (gather.groupPods metrics resource cpuInitializationPeriod
                             delayOfInitialReadinessStatus now pods) →
  is_Some (metrics !! name).
Proof.
  unfold gather.groupPods. rewrite foldl_groupPod_ignored. simpl.
  intros [Hin|(pod & _ & Hname & _ & metric & Hsome & _)]; [set_solver|].
  rewrite <- Hname, Hsome. by eexists.
Qed.

(** X10: a resource measurement that getResourceMetric returns comes from a
    successful call of the metrics client and a non-empty pod list.  Its
    sample map is the map of the metrics client without the samples of the
    ignored pods, the samples of skipped or unlisted pods included; no
    missing pod has a sample, and no pod is both missing and ignored; the
    ready count, the ignored and the missing
    pods together do not exceed TotalPods, the length of the pod list; every
    container of every listed pod requests the resource, and the requests
    hold under each listed pod name the int64 sum of the requests of the
    last pod with that name. *)
Theorem getResourceMetric_ok {Selector : Type}
    (c : gatherers.Gatherer Selector) (now : Z) (resource namespace : string)
    (selector : Selector) (m : ResourceMetric.t) :
  gatherers.getResourceMetric Selector c now resource namespace selector
  = Ok m →
  ∃ metrics podList,
    gatherers.GetResourceMetric Selector c resource namespace selector
    = Ok (metrics, ResourceMetric.Timestamp m)
    ∧ gatherers.PodLister Selector c namespace selector = Ok podList
    ∧ ResourceMetric.TotalPods m = Z.of_nat (length podList)
    ∧ (1 ≤ ResourceMetric.TotalPods m)%Z
    ∧ (∀ name,
         ResourceMetric.PodMetricsInfo m !! name
         = if decide (name ∈ ResourceMetric.IgnoredPods m) then None
           else metrics !! name)
    ∧ (∀ name, name ∈ ResourceMetric.MissingPods m →
               ResourceMetric.PodMetricsInfo m !! name = None)
    ∧ ResourceMetric.MissingPods m ## ResourceMetric.IgnoredPods m
    ∧ (ResourceMetric.ReadyPodCount m
       + Z.of_nat (size (ResourceMetric.IgnoredPods m))
       + Z.of_nat (size (ResourceMetric.MissingPods m))
       ≤ ResourceMetric.TotalPods m)%Z
    ∧ Forall (requestsComplete resource) podList
    ∧ (∀ name,
         ResourceMetric.Requests m !! name
         = requestSum resource <$> lastNamed name podList).
Proof.
  unfold gatherers.getResourceMetric. intros Hok.
  destruct (gatherers.GetResourceMetric Selector c resource namespace selector)
    as [[metrics timestamp]|err|] eqn:Hclient;
    cbn [mbind result_bind gatherers.wrapErr] in Hok; [|done|done].
  destruct (gatherers.PodLister Selector c namespace selector)
    as [podList|err|] eqn:Hlister;
    cbn [mbind result_bind gatherers.wrapErr] in Hok; [|done|done].
  case_bool_decide as Hempty; [done|].
  destruct (gatherers.calculatePodRequests podList resource)
    as [requests|err|] eqn:Hreq;
    cbn [mbind result_bind] in Hok; [|done|done].
  injection Hok as <-.
  cbn [ResourceMetric.PodMetricsInfo ResourceMetric.Requests
       ResourceMetric.ReadyPodCount ResourceMetric.IgnoredPods
       ResourceMetric.MissingPods ResourceMetric.TotalPods
       ResourceMetric.Timestamp].
  apply calculatePodRequests_ok in Hreq as [Hcomplete Hrequests].
  exists metrics, podList.
  split; [reflexivity|]. split; [reflexivity|]. split; [reflexivity|].
  split; [lia|].
  split; [intros name; apply removeMetricsForPods_lookup|].
  split.
  { intros name Hmissing. rewrite removeMetricsForPods_lookup.
    destruct (decide _); [reflexivity|].
    apply groupPods_missing_unsampled in Hmissing
      as (pod & _ & _ & _ & Hnone). exact Hnone. }
  split.
  { intros name Hmissing Hignored.
    apply groupPods_missing_unsampled in Hmissing
      as (pod & _ & _ & _ & Hnone).
    apply groupPods_ignored_sampled in Hignored as [x Hx].
    rewrite Hnone in Hx. done. }
  split; [|split; assumption].
  pose proof (groupPods_total_le_length metrics resource
                (gatherers.CPUInitializationPeriod Selector c)
                (gatherers.DelayOfInitialReadinessStatus Selector c) now
                (gatherers.Pod_ <$> podList)) as Hle.
  rewrite length_fmap in Hle. unfold total in Hle. lia.
Qed.

Lemma getResourceMetric_ok_witness :
  ∃ metrics podList,
    gatherers.GetResourceMetric unit twoPodListing "cpu" "default" ()
    = Ok (metrics, ResourceMetric.Timestamp gatheredTwoPods)
    ∧ gatherers.PodLister unit twoPodListing "default" () = Ok podList
    ∧ ResourceMetric.TotalPods gatheredTwoPods = Z.of_nat (length podList)
    ∧ (1 ≤ ResourceMetric.TotalPods gatheredTwoPods)%Z
    ∧ (∀ name,
         ResourceMetric.PodMetricsInfo gatheredTwoPods !! name
         = if decide (name ∈ ResourceMetric.IgnoredPods gatheredTwoPods)
           then None else metrics !! name)
    ∧ (∀ name, name ∈ ResourceMetric.MissingPods gatheredTwoPods →
               ResourceMetric.PodMetricsInfo gatheredTwoPods !! name = None)
    ∧ ResourceMetric.MissingPods gatheredTwoPods
      ## ResourceMetric.IgnoredPods gatheredTwoPods
    ∧ (ResourceMetric.ReadyPodCount gatheredTwoPods
       + Z.of_nat (size (ResourceMetric.IgnoredPods gatheredTwoPods))
       + Z.of_nat (size (ResourceMetric.MissingPods gatheredTwoPods))
       ≤ ResourceMetric.TotalPods gatheredTwoPods)%Z
    ∧ Forall (requestsComplete "cpu") podList
    ∧ (∀ name,
         ResourceMetric.Requests gatheredTwoPods !! name
         = requestSum "cpu" <$> lastNamed name podList).
Proof.
  apply (getResourceMetric_ok twoPodListing 0 "cpu" "default" ()
                              gatheredTwoPods).
  vm_compute. reflexivity.
Defined.

(** X11: getRawResourceMetric differs from getResourceMetric in the requests
    only: where getResourceMetric returns a measurement, the raw gatherer
    returns the same measurement without requests; where the raw gatherer
    returns a measurement, getResourceMetric returns it with requests or
    fails on a missing request; and every error of the raw gatherer is the
    error of getResourceMetric. *)
Theorem getRawResourceMetric_drops_requests {Selector : Type}
    (c : gatherers.Gatherer Selector) (now : Z) (resource namespace : string)
    (selector : Selector) :
  (∀ m,
     gatherers.getResourceMetric Selector c now resource namespace selector
     = Ok m →
     gatherers.getRawResourceMetric Selector c now resource namespace selector
     = Ok (withRequests m ∅))
  ∧ (∀ m,
       gatherers.getRawResourceMetric Selector c now resource namespace
                                      selector = Ok m →
       gatherers.getResourceMetric Selector c now resource namespace selector
       = Err ("missing request for " +:+ resource)
       ∨ ∃ requests,
           gatherers.getResourceMetric Selector c now resource namespace
                                       selector
           = Ok (withRequests m requests))
  ∧ (∀ err,
       gatherers.getRawResourceMetric Selector c now resource namespace
                                      selector = Err err →
       gatherers.getResourceMetric Selector c now resource namespace selector
       = Err err).
Proof.
  unfold gatherers.getResourceMetric, gatherers.getRawResourceMetric.
  destruct (gatherers.GetResourceMetric Selector c resource namespace selector)
    as [[metrics timestamp]|err|];
    cbn [mbind result_bind gatherers.wrapErr]; [|by repeat split..].
  destruct (gatherers.PodLister Selector c namespace selector)
    as [podList|err|];
    cbn [mbind result_bind gatherers.wrapErr]; [|by repeat split..].
  case_bool_decide as Hempty; [by repeat split|].
  pose proof (requestsFrom_cases resource podList ∅) as Hcases.
  fold (gatherers.calculatePodRequests podList resource) in Hcases.
  destruct (decide (Forall (requestsComplete resource) podList)).
  - destruct Hcases as (requests & -> & _). cbn [mbind result_bind].
    split; [|split].
    + intros m [= <-]. reflexivity.
    + intros m [= <-]. right. exists requests. reflexivity.
    + done.
  - rewrite Hcases. cbn [mbind result_bind].
    split; [|split].
    + done.
    + intros m _. left. reflexivity.
    + done.
Qed.

Lemma getRawResourceMetric_drops_requests_witness :
  gatherers.getRawResourceMetric unit twoPodListing 0 "cpu" "default" ()
  = Ok (withRequests gatheredTwoPods ∅).
Proof.
  apply (proj1 (getRawResourceMetric_drops_requests
                  twoPodListing 0 "cpu" "default" ())).
  vm_compute. reflexivity.
Defined.

Lemma groupPods_other_resource (metrics : PodMetricsInfo) (resource : string)
    (cpuInitializationPeriod delayOfInitialReadinessStatus now : Z)
    (pods : list v1.Pod) :
  resource ≠ v1.ResourceCPU →
  let g := gather.groupPods metrics resource cpuInitializationPeriod
                            delayOfInitialReadinessStatus now pods in
  gather.ignoredPods g = ∅
  ∧ gather.readyPodCount g = length (filter (sampled metrics) pods).
Proof.
  intros Hne g. split.
  - apply leibniz_equiv. intros name. split; [|set_solver].
    unfold g, gather.groupPods. rewrite foldl_groupPod_ignored. simpl.
    intros [Hin|(pod & _ & _ & _ & metric & _ & Hcpu & _)]; [set_solver|done].
  - unfold g, gather.groupPods. rewrite foldl_groupPod_ready. simpl.
    f_equal. apply list_filter_iff. intros pod.
    unfold goesReady, sampled.
    rewrite skipped_false_counted, (bool_decide_eq_false_2 _ Hne).
    simpl. split.
    + intros [Hc (metric & Hm & _)]. split; [exact Hc|]. by eexists.
    + intros [Hc [metric Hm]]. split; [exact Hc|]. by exists metric.
Qed.

(** X12: when the metrics client and the pod lister answer, getPodsMetric
    returns a measurement, also on an empty pod list, where the resource
    gatherers fail.  It ignores no pod and so drops no sample: the sample
    map is the map of the metrics client, or empty on an empty pod list; the
    ready count is the number of listed pods that are not skipped and have a
    sample, the missing pods are the names of the listed pods that are not
    skipped and have none, and TotalPods is the length of the pod list. *)
Theorem getPodsMetric_ok {Selector : Type}
    (c : gatherers.Gatherer Selector) (now : Z) (metricName namespace : string)
    (selector metricSelector : Selector)
    (metrics : PodMetricsInfo) (timestamp : Z)
    (podList : list gatherers.PodObject) :
  gatherers.GetRawMetric Selector c metricName namespace selector
                         metricSelector = Ok (metrics, timestamp) →
  gatherers.PodLister Selector c namespace selector = Ok podList →
  (∃ m,
     gatherers.getPodsMetric Selector c now metricName namespace selector
                             metricSelector = Ok m
     ∧ PodsMetric.Timestamp m = timestamp
     ∧ PodsMetric.TotalPods m = Z.of_nat (length podList)
     ∧ PodsMetric.IgnoredPods m = ∅
     ∧ PodsMetric.PodMetricsInfo m
       = (if decide (podList = []) then ∅ else metrics)
     ∧ PodsMetric.ReadyPodCount m
       = Z.of_nat (length (filter (sampled metrics)
                                  (gatherers.Pod_ <$> podList)))
     ∧ (∀ name,
          name ∈ PodsMetric.MissingPods m
          ↔ ∃ pod, pod ∈ gatherers.Pod_ <$> podList ∧ v1.Name pod = name
                   ∧ counted pod ∧ metrics !! name = None))
  ∧ (podList = [] →
     ∀ resource metrics' timestamp',
       gatherers.GetResourceMetric Selector c resource namespace selector
       = Ok (metrics', timestamp') →
       gatherers.getResourceMetric Selector c now resource namespace selector
       = Err "No pods returned by selector while calculating replica count"
       ∧ gatherers.getRawResourceMetric Selector c now resource namespace
                                        selector
         = Err "No pods returned by selector while calculating replica count").
Proof.
  intros Hclient Hlister. split.
  - unfold gatherers.getPodsMetric. rewrite Hclient, Hlister.
    cbn [mbind result_bind gatherers.wrapErr].
    case_bool_decide as Hempty.
    + apply nil_length_inv in Hempty as ->.
      eexists. split; [reflexivity|]. simpl.
      split; [reflexivity|]. split; [reflexivity|]. split; [reflexivity|].
      split; [reflexivity|]. split; [reflexivity|].
      intros name. split; [set_solver|].
      intros (pod & Hin & _). by apply not_elem_of_nil in Hin.
    + eexists. split; [reflexivity|].
      cbn [PodsMetric.PodMetricsInfo PodsMetric.ReadyPodCount
           PodsMetric.IgnoredPods PodsMetric.MissingPods PodsMetric.TotalPods
           PodsMetric.Timestamp].
      assert (("" : string) ≠ v1.ResourceCPU) as Hne by discriminate.
      destruct (groupPods_other_resource metrics ""
                  (gatherers.CPUInitializationPeriod Selector c)
                  (gatherers.DelayOfInitialReadinessStatus Selector c) now
                  (gatherers.Pod_ <$> podList) Hne) as [Hignored Hready].
      split; [reflexivity|]. split; [reflexivity|].
      split; [exact Hignored|].
      split.
      { rewrite Hignored. unfold gatherers.removeMetricsForPods.
        rewrite set_fold_empty.
        rewrite decide_False; [reflexivity|].
        intros ->. by apply Hempty. }
      split; [by rewrite Hready|].
      intros name. apply groupPods_missing_unsampled.
  - intros -> resource metrics' timestamp' Hclient'.
    unfold gatherers.getResourceMetric, gatherers.getRawResourceMetric.
    rewrite Hclient', Hlister. split; reflexivity.
Qed.

Lemma getPodsMetric_ok_witness :
  ∃ m,
    gatherers.getPodsMetric unit twoPodListing 0 "requests" "default" () ()
    = Ok m
    ∧ PodsMetric.Timestamp m = 7%Z
    ∧ PodsMetric.TotalPods m = 2%Z
    ∧ PodsMetric.IgnoredPods m = ∅
    ∧ PodsMetric.PodMetricsInfo m = sample "pod-1" 15 (sample "pod-9" 20 ∅)
    ∧ PodsMetric.ReadyPodCount m = 1%Z
    ∧ (∀ name,
         name ∈ PodsMetric.MissingPods m
         ↔ ∃ pod, pod ∈ [runningPod "pod-1"; runningPod "pod-2"]
                  ∧ v1.Name pod = name
                  ∧ counted pod
                  ∧ sample "pod-1" 15 (sample "pod-9" 20 ∅) !! name = None).
Proof.
  exact (proj1 (getPodsMetric_ok twoPodListing 0 "requests" "default" () ()
                  _ _ _ eq_refl eq_refl)).
Defined.

(** ** What getMetric builds, and what the evaluators make of it *)

Lemma getMetric_ok_inv (g : gatherers.SubGatherers) (currentReplicas : Z)
    (spec : MetricSpec.t) (m : Metric) :
  gatherers.getMetric g currentReplicas spec = Ok m →
  (MetricSpec.Type_ spec = ObjectMetricSourceType
   ∧ ∃ measured,
       m = gatherers.withObject (gatherers.bare currentReplicas spec) measured)
  ∨ (MetricSpec.Type_ spec = PodsMetricSourceType
     ∧ ∃ measured,
         m = gatherers.withPods (gatherers.bare currentReplicas spec) measured)
  ∨ (MetricSpec.Type_ spec = ResourceMetricSourceType
     ∧ ∃ measured,
         m = gatherers.withResource (gatherers.bare currentReplicas spec)
                                    measured)
  ∨ (MetricSpec.Type_ spec = ExternalMetricSourceType
     ∧ ∃ measured,
         m = gatherers.withExternal (gatherers.bare currentReplicas spec)
                                    measured).
Proof.
  intros Hok. unfold gatherers.getMetric in Hok.
  case_bool_decide as Hobject.
  { left. split; [exact Hobject|].
    destruct (MetricSpec.Object spec) as [object|];
      cbn [mbind result_bind deref] in Hok; [|done].
    destruct (gatherers.objectSelector g object);
      cbn [mbind result_bind gatherers.wrapErr] in Hok; [|done|done].
    case_bool_decide.
    - destruct (gatherers.Object_GetMetric g object) as [measured| |];
        cbn [mbind result_bind gatherers.wrapErr] in Hok; [|done|done].
      injection Hok as <-. by eexists.
    - case_bool_decide; [|done].
      destruct (gatherers.Object_GetPerPodMetric g object) as [measured| |];
        cbn [mbind result_bind gatherers.wrapErr] in Hok; [|done|done].
      injection Hok as <-. by eexists. }
  case_bool_decide as Hpods.
  { right. left. split; [exact Hpods|].
    destruct (MetricSpec.Pods spec) as [pods|];
      cbn [mbind result_bind deref] in Hok; [|done].
    destruct (gatherers.podsSelector g pods);
      cbn [mbind result_bind gatherers.wrapErr] in Hok; [|done|done].
    destruct (gatherers.Pods_GetMetric g pods) as [measured| |];
      cbn [mbind result_bind gatherers.wrapErr] in Hok; [|done|done].
    injection Hok as <-. by eexists. }
  case_bool_decide as Hresource.
  { right. right. left. split; [exact Hresource|].
    destruct (MetricSpec.Resource spec) as [resource|];
      cbn [mbind result_bind deref] in Hok; [|done].
    case_bool_decide.
    - destruct (gatherers.Resource_GetRawMetric g resource) as [measured| |];
        cbn [mbind result_bind gatherers.wrapErr] in Hok; [|done|done].
      injection Hok as <-. by eexists.
    - case_bool_decide; [|done].
      destruct (gatherers.Resource_GetMetric g resource) as [measured| |];
        cbn [mbind result_bind gatherers.wrapErr] in Hok; [|done|done].
      injection Hok as <-. by eexists. }
  case_bool_decide as Hexternal; [|done].
  right. right. right. split; [exact Hexternal|].
  destruct (MetricSpec.External spec) as [external|];
    cbn [mbind result_bind deref] in Hok; [|done].
  case_bool_decide.
  - destruct (gatherers.External_GetPerPodMetric g external) as [measured| |];
      cbn [mbind result_bind gatherers.wrapErr] in Hok; [|done|done].
    injection Hok as <-. by eexists.
  - case_bool_decide; [|done].
    destruct (gatherers.External_GetMetric g external) as [measured| |];
      cbn [mbind result_bind gatherers.wrapErr] in Hok; [|done|done].
    injection Hok as <-. by eexists.
Qed.

Lemma getMetric_spec (g : gatherers.SubGatherers) (currentReplicas : Z)
    (spec : MetricSpec.t) (m : Metric) :
  gatherers.getMetric g currentReplicas spec = Ok m →
  CombinedMetric.CurrentReplicas m = currentReplicas
  ∧ CombinedMetric.Spec m = spec.
Proof.
  intros Hok.
  destruct (getMetric_ok_inv _ _ _ _ Hok)
    as [[_ [measured ->]]|[[_ [measured ->]]|[[_ [measured ->]]
       |[_ [measured ->]]]]]; split; reflexivity.
Qed.

(** X13: a metric that getMetric returns carries the replica count and the
    spec it was asked with; the type of the spec is one of Object, Pods,
    Resource and External; and the metric holds no measurement of a source
    other than the one its type names. *)
Theorem getMetric_shape (g : gatherers.SubGatherers) (currentReplicas : Z)
    (spec : MetricSpec.t) (m : Metric) :
  gatherers.getMetric g currentReplicas spec = Ok m →
  CombinedMetric.CurrentReplicas m = currentReplicas
  ∧ CombinedMetric.Spec m = spec
  ∧ MetricSpec.Type_ spec
    ∈ [ ObjectMetricSourceType; PodsMetricSourceType;
        ResourceMetricSourceType; ExternalMetricSourceType ]
  ∧ (MetricSpec.Type_ spec ≠ ObjectMetricSourceType →
     CombinedMetric.Object m = None)
  ∧ (MetricSpec.Type_ spec ≠ PodsMetricSourceType →
     CombinedMetric.Pods m = None)
  ∧ (MetricSpec.Type_ spec ≠ ResourceMetricSourceType →
     CombinedMetric.Resource m = None)
  ∧ (MetricSpec.Type_ spec ≠ ExternalMetricSourceType →
     CombinedMetric.External m = None).
Proof.
  intros Hok.
  destruct (getMetric_ok_inv _ _ _ _ Hok)
    as [[Htype [measured ->]]|[[Htype [measured ->]]|[[Htype [measured ->]]
       |[Htype [measured ->]]]]];
    simpl; rewrite Htype;
    (split; [reflexivity|]); (split; [reflexivity|]);
    (split; [set_solver|]); repeat split; done.
Qed.

Lemma getMetric_shape_witness :
  let m := gatherers.withResource (gatherers.bare 3 (utilizationSpec 50))
                                  (Some measuredWithMissing) in
  CombinedMetric.CurrentReplicas m = 3%Z
  ∧ CombinedMetric.Spec m = utilizationSpec 50
  ∧ MetricSpec.Type_ (utilizationSpec 50)
    ∈ [ ObjectMetricSourceType; PodsMetricSourceType;
        ResourceMetricSourceType; ExternalMetricSourceType ]
  ∧ (MetricSpec.Type_ (utilizationSpec 50) ≠ ObjectMetricSourceType →
     CombinedMetric.Object m = None)
  ∧ (MetricSpec.Type_ (utilizationSpec 50) ≠ PodsMetricSourceType →
     CombinedMetric.Pods m = None)
  ∧ (MetricSpec.Type_ (utilizationSpec 50) ≠ ResourceMetricSourceType →
     CombinedMetric.Resource m = None)
  ∧ (MetricSpec.Type_ (utilizationSpec 50) ≠ ExternalMetricSourceType →
     CombinedMetric.External m = None).
Proof.
  apply (getMetric_shape allGathered 3 (utilizationSpec 50)).
  vm_compute. reflexivity.
Defined.

Lemma getPodsEvaluation2019_no_resource `{mc : Ratios} (e : Evaluator)
    (currentReplicas : Z) (gatheredMetric : Metric) :
  CombinedMetric.Resource gatheredMetric = None →
  getPodsEvaluation e currentReplicas gatheredMetric = Panic.
Proof.
  intros Hnone. unfold getPodsEvaluation. rewrite Hnone.
  destruct (CombinedMetric.Pods gatheredMetric); [|reflexivity].
  destruct (MetricSpec.Pods (CombinedMetric.Spec gatheredMetric)) as [pods|];
    [|reflexivity].
  cbn [mbind result_bind deref].
  destruct (MetricTarget.Value (PodsMetricSource.Target pods)); reflexivity.
Qed.

Lemma getMetric_pods_2019 `{mc : Ratios} (e : Evaluator)
    (g : gatherers.SubGatherers) (currentReplicas currentReplicas' : Z)
    (spec : MetricSpec.t) (m : Metric) :
  gatherers.getMetric g currentReplicas spec = Ok m →
  MetricSpec.Type_ spec = PodsMetricSourceType →
  evaluate2019.getEvaluation e currentReplicas' m = Panic.
Proof.
  intros Hok Htype.
  destruct (getMetric_ok_inv _ _ _ _ Hok)
    as [[Htype' _]|[[_ [measured ->]]|[[Htype' _]|[Htype' _]]]];
    [rewrite Htype in Htype'; done | | rewrite Htype in Htype'; done..].
  unfold evaluate2019.getEvaluation. simpl. rewrite Htype.
  rewrite bool_decide_eq_false_2 by done.
  rewrite bool_decide_eq_true_2 by done.
  by apply getPodsEvaluation2019_no_resource.
Qed.

Lemma gatherAll_combined (getMetric : Z → MetricSpec.t → result Metric)
    (currentReplicas : Z) (specs : list MetricSpec.t)
    (st st' : gather.loopState) (m : Metric) :
  gather.gatherAll getMetric currentReplicas specs st = Ok st' →
  m ∈ gather.combinedMetrics st' →
  m ∈ gather.combinedMetrics st
  ∨ ∃ spec, spec ∈ specs ∧ getMetric currentReplicas spec = Ok m.
Proof.
  revert st. induction specs as [|spec specs IH]; intros st; simpl.
  - intros [= <-] Hin. by left.
  - unfold gather.loopStep.
    destruct (getMetric currentReplicas spec) as [metric|err|] eqn:Hspec;
      simpl; [| |done]; intros Hrest Hin;
      destruct (IH _ Hrest Hin) as [Hold|(spec' & Hin' & Hok)]; simpl in *.
    + apply elem_of_app in Hold as [Hold|Hnew]; [by left|].
      apply list_elem_of_singleton in Hnew as ->.
      right. exists spec. split; [left|exact Hspec].
    + right. exists spec'. split; [by right|exact Hok].
    + by left.
    + right. exists spec'. split; [by right|exact Hok].
Qed.

(** X14: the 2019 programs cannot evaluate a Pods metric.  getMetric sets
    the Pods measurement of such a metric only, and getPodsEvaluation reads
    the missing and the ignored pods through the Resource measurement, which
    is nil: whenever the metrics that the gatherer returns hold a metric of
    the type Pods, the evaluator facade of 2019 returns no evaluation for
    them (it panics, or fails on an earlier metric). *)
Theorem gathered_pods_metric_2019 `{mc : Ratios} (e : Evaluator)
    (g : gatherers.SubGatherers) (currentReplicas : Z)
    (specs : list MetricSpec.t) (gatheredMetrics : list Metric) :
  gather.gatherSpecs (gatherers.getMetric g) currentReplicas specs
  = Ok gatheredMetrics →
  (∃ m, m ∈ gatheredMetrics
        ∧ MetricSpec.Type_ (CombinedMetric.Spec m) = PodsMetricSourceType) →
  (∀ m, m ∈ gatheredMetrics →
        MetricSpec.Type_ (CombinedMetric.Spec m) = PodsMetricSourceType →
        evaluate2019_of e m = Panic)
  ∧ ∀ r, evaluate2019.GetEvaluation e gatheredMetrics ≠ Ok r.
Proof.
  intros Hgather (m & Hin & Htype).
  assert (Hpanic : ∀ m, m ∈ gatheredMetrics →
            MetricSpec.Type_ (CombinedMetric.Spec m) = PodsMetricSourceType →
            evaluate2019_of e m = Panic).
  { clear m Hin Htype. intros m Hin Htype.
    unfold gather.gatherSpecs in Hgather.
    destruct (gather.gatherAll _ _ _ _) as [st| |] eqn:Hloop;
      simpl in Hgather; [|done|done].
    case_bool_decide; [done|]. injection Hgather as <-.
    destruct (gatherAll_combined _ _ _ _ _ m Hloop Hin)
      as [Hold|(spec & _ & Hok)]; [by apply not_elem_of_nil in Hold|].
    destruct (getMetric_spec _ _ _ _ Hok) as [_ Hspec].
    rewrite Hspec in Htype.
    unfold evaluate2019_of. by eapply getMetric_pods_2019. }
  split; [exact Hpanic|].
  intros r Hr. unfold evaluate2019.GetEvaluation in Hr.
  destruct (evaluate2019.evaluateAll e gatheredMetrics None) as [best| |]
    eqn:Hloop; simpl in Hr; [|done|done].
  destruct (evaluateAll2019_state e _ _ _ Hloop) as [Hlen _].
  apply (targets_length (evaluate2019_of e)) in Hlen.
  rewrite Forall_forall in Hlen.
  destruct (Hlen m Hin) as [proposed Hproposed].
  rewrite (Hpanic m Hin Htype) in Hproposed. done.
Qed.

Lemma gathered_pods_metric_2019_witness :
  (∀ m, m ∈ [ gatherers.bare 3 (podsSpec 10) ] →
        MetricSpec.Type_ (CombinedMetric.Spec m) = PodsMetricSourceType →
        evaluate2019_of (mc := specRatios) defaultEvaluator m = Panic)
  ∧ ∀ r, evaluate2019.GetEvaluation (mc := specRatios) defaultEvaluator
           [ gatherers.bare 3 (podsSpec 10) ] ≠ Ok r.
Proof.
  apply (gathered_pods_metric_2019 (mc := specRatios) defaultEvaluator
           resourceFails 3
           [ utilizationSpec 50; podsSpec 10; specOfType "invalid" ]).
  - vm_compute. reflexivity.
  - eexists. split; [left|]. reflexivity.
Defined.

(** X15: for a metric that getMetric builds from a Pods spec, the 2021 pods
    evaluator hands the samples, the ready count, the missing and the
    ignored pods of the Pods measurement that the pods gatherer returned,
    with the average value of the target of the spec, to the plain-metric
    calculation of its calculater, and returns what the calculation returns;
    it panics when the gatherer returned nil, when the target has no average
    value, and when the calculation panics, as the calculation of the 2019
    evaluator does on a measurement with an empty sample map. *)
Theorem pods_GetEvaluation2021_gathered (e21 : perSource2021.pods.Evaluate)
    (g : gatherers.SubGatherers) (currentReplicas currentReplicas' : Z)
    (spec : MetricSpec.t) (m : Metric) :
  gatherers.getMetric g currentReplicas spec = Ok m →
  MetricSpec.Type_ spec = PodsMetricSourceType →
  ∃ pods,
    MetricSpec.Pods spec = Some pods
    ∧ gatherers.Pods_GetMetric g pods = Ok (CombinedMetric.Pods m)
    ∧ perSource2021.pods.GetEvaluation e21 currentReplicas' m
      = match CombinedMetric.Pods m,
              MetricTarget.AverageValue (PodsMetricSource.Target pods) with
        | Some measured, Some averageValue =>
            targetReplicas ←
              evaluate2021.GetPlainMetricReplicaCount
                (perSource2021.pods.Calculater_ e21)
                (PodsMetric.PodMetricsInfo measured)
                currentReplicas'
                (Quantity.MilliValue averageValue)
                (PodsMetric.ReadyPodCount measured)
                (PodsMetric.MissingPods measured)
                (PodsMetric.IgnoredPods measured);
            Ok {| TargetReplicas := targetReplicas |}
        | _, _ => Panic
        end
    ∧ (∀ e measured,
         perSource2021.pods.Calculater_ e21
         = calculater2019 (mc := specRatios) e →
         CombinedMetric.Pods m = Some measured →
         PodsMetric.PodMetricsInfo measured = ∅ →
         perSource2021.pods.GetEvaluation e21 currentReplicas' m = Panic).
Proof.
  intros Hok Htype. unfold gatherers.getMetric in Hok.
  rewrite Htype in Hok.
  rewrite bool_decide_eq_false_2 in Hok by done.
  rewrite bool_decide_eq_true_2 in Hok by done.
  destruct (MetricSpec.Pods spec) as [pods|] eqn:Hpods;
    cbn [mbind result_bind deref] in Hok; [|done].
  destruct (gatherers.podsSelector g pods);
    cbn [mbind result_bind gatherers.wrapErr] in Hok; [|done|done].
  destruct (gatherers.Pods_GetMetric g pods) as [measured| |] eqn:Hcall;
    cbn [mbind result_bind gatherers.wrapErr] in Hok; [|done|done].
  injection Hok as <-.
  exists pods. split; [reflexivity|]. split; [exact Hcall|].
  assert (Heval :
    perSource2021.pods.GetEvaluation e21 currentReplicas'
      (gatherers.withPods (gatherers.bare currentReplicas spec) measured)
    = match measured,
            MetricTarget.AverageValue (PodsMetricSource.Target pods) with
      | Some measured, Some averageValue =>
          targetReplicas ←
            evaluate2021.GetPlainMetricReplicaCount
              (perSource2021.pods.Calculater_ e21)
              (PodsMetric.PodMetricsInfo measured)
              currentReplicas'
              (Quantity.MilliValue averageValue)
              (PodsMetric.ReadyPodCount measured)
              (PodsMetric.MissingPods measured)
              (PodsMetric.IgnoredPods measured);
          Ok {| TargetReplicas := targetReplicas |}
      | _, _ => Panic
      end).
  { unfold perSource2021.pods.GetEvaluation. simpl. rewrite Hpods.
    destruct measured as [measured|]; [|reflexivity].
    cbn [mbind result_bind deref].
    destruct (MetricTarget.AverageValue (PodsMetricSource.Target pods));
      reflexivity. }
  split; [exact Heval|].
  intros e measured' Hcalc Hmeasured Hempty. rewrite Heval.
  simpl in Hmeasured. rewrite Hmeasured.
  destruct (MetricTarget.AverageValue (PodsMetricSource.Target pods));
    [|reflexivity].
  rewrite Hcalc, Hempty. reflexivity.
Qed.

Lemma pods_GetEvaluation2021_gathered_witness :
  ∃ pods,
    MetricSpec.Pods (podsSpec 10) = Some pods
    ∧ gatherers.Pods_GetMetric allGathered pods
      = Ok (CombinedMetric.Pods gatheredPods)
    ∧ perSource2021.pods.GetEvaluation podsEvaluate 1 gatheredPods
      = Ok {| TargetReplicas := 2 |}.
Proof.
  destruct (pods_GetEvaluation2021_gathered podsEvaluate
              allGathered 1 1 (podsSpec 10) gatheredPods eq_refl eq_refl)
    as (pods & Hpods & Hcall & Heval & _).
  exists pods. split; [exact Hpods|]. split; [exact Hcall|].
  rewrite Heval. injection Hpods as <-. vm_compute. reflexivity.
Defined.

(** X16: an external spec without an average value is gathered only when
    its target has an AverageUtilization, also when it has a Value; and a
    metric gathered from such a spec that has no Value cannot be evaluated:
    the 2019 evaluator panics on it, and the 2021 external evaluator fails
    with the invalid-source error. *)
Theorem external_value_target `{mc : Ratios} (e : Evaluator)
    (e21 : perSource2021.external.Evaluate)
    (g : gatherers.SubGatherers) (currentReplicas currentReplicas' : Z)
    (spec : MetricSpec.t) (external : ExternalMetricSource.t) :
  MetricSpec.Type_ spec = ExternalMetricSourceType →
  MetricSpec.External spec = Some external →
  MetricTarget.AverageValue (ExternalMetricSource.Target external) = None →
  (MetricTarget.AverageUtilization (ExternalMetricSource.Target external)
   = None →
   gatherers.getMetric g currentReplicas spec
   = Err "invalid external metric source: neither a value target nor an average value target was set")
  ∧ (MetricTarget.Value (ExternalMetricSource.Target external) = None →
     ∀ m,
       gatherers.getMetric g currentReplicas spec = Ok m →
       evaluate2019.getEvaluation e currentReplicas' m = Panic
       ∧ perSource2021.external.GetEvaluation e21 currentReplicas' m
         = Err "invalid external metric source: neither a value target nor an average value target was set").
Proof.
  intros Htype Hexternal Haverage.
  assert (Hget :
    gatherers.getMetric g currentReplicas spec
    = if bool_decide
           (MetricTarget.AverageUtilization
              (ExternalMetricSource.Target external) ≠ None)
      then externalMetric ←
             gatherers.wrapErr "failed to get external metric: "
               (gatherers.External_GetMetric g external);
           Ok (gatherers.withExternal (gatherers.bare currentReplicas spec)
                                      externalMetric)
      else Err "invalid external metric source: neither a value target nor an average value target was set").
  { unfold gatherers.getMetric. rewrite Htype, Hexternal.
    do 3 (rewrite bool_decide_eq_false_2 by done).
    rewrite bool_decide_eq_true_2 by done.
    cbn [mbind result_bind deref]. rewrite Haverage.
    rewrite bool_decide_eq_false_2 by (intros H; by apply H).
    reflexivity. }
  split.
  - intros Hutilization. rewrite Hget, Hutilization.
    rewrite bool_decide_eq_false_2 by (intros H; by apply H). reflexivity.
  - intros Hvalue m Hok. rewrite Hget in Hok.
    case_bool_decide as Hutilization; [|done].
    destruct (gatherers.External_GetMetric g external) as [measured| |];
      cbn [mbind result_bind gatherers.wrapErr] in Hok; [|done|done].
    injection Hok as <-. split.
    + unfold evaluate2019.getEvaluation. simpl. rewrite Htype.
      do 3 (rewrite bool_decide_eq_false_2 by done).
      rewrite bool_decide_eq_true_2 by done.
      unfold getExternalEvaluation. simpl. rewrite Hexternal.
      cbn [mbind result_bind deref]. rewrite Haverage.
      rewrite bool_decide_eq_true_2 by done.
      destruct measured; [|reflexivity].
      cbn [mbind result_bind deref]. rewrite Hvalue. reflexivity.
    + unfold perSource2021.external.GetEvaluation. simpl.
      rewrite Hexternal. cbn [mbind result_bind deref].
      rewrite Haverage, Hvalue. reflexivity.
Qed.

Lemma external_value_target_witness :
  gatherers.getMetric allGathered 2 (externalSpec (valueTarget 500))
  = Err "invalid external metric source: neither a value target nor an average value target was set"
  ∧ ∀ m,
      gatherers.getMetric allGathered 2 (externalSpec (utilizationTarget 50))
      = Ok m →
      evaluate2019.getEvaluation (mc := specRatios) defaultEvaluator 2 m
      = Panic
      ∧ perSource2021.external.GetEvaluation
          (externalEvaluate (mc := specRatios) defaultEvaluator) 2 m
        = Err "invalid external metric source: neither a value target nor an average value target was set".
Proof.
  split.
  - apply (proj1 (external_value_target (mc := specRatios) defaultEvaluator
                    (externalEvaluate (mc := specRatios) defaultEvaluator)
                    allGathered 2 2 (externalSpec (valueTarget 500)) _
                    eq_refl eq_refl eq_refl)).
    reflexivity.
  - apply (proj2 (external_value_target (mc := specRatios) defaultEvaluator
                    (externalEvaluate (mc := specRatios) defaultEvaluator)
                    allGathered 2 2 (externalSpec (utilizationTarget 50)) _
                    eq_refl eq_refl eq_refl)).
    reflexivity.
Defined.

(** ** The number of samples after the fill-in *)

Lemma size_setSamples (pods : gset string) (v : string → Z)
    (metrics : PodMetricsInfo) :
  (∀ name, name ∈ pods → metrics !! name = None) →
  size (setSamples pods v metrics) = size metrics + size pods.
Proof.
  intros Hfresh.
  assert (Hdom : dom (setSamples pods v metrics) = dom metrics ∪ pods).
  { apply leibniz_equiv. intros name.
    rewrite elem_of_union, !elem_of_dom, lookup_setSamples.
    destruct (decide (name ∈ pods)) as [Hin|Hin].
    - split; [by right | by eexists].
    - split; [by left | intros [?|?]; done]. }
  rewrite <- (size_dom (setSamples pods v metrics)), Hdom, size_union.
  - by rewrite size_dom.
  - intros name Hd Hp. apply elem_of_dom in Hd as [x Hx].
    rewrite (Hfresh name Hp) in Hx. done.
Qed.

(** X17: on a measurement in which no missing and no ignored pod has a
    sample and no pod is both, as the resource gatherer returns it, the
    fill-in of the evaluators overwrites no sample and adds one sample per
    missing pod, in the utilization mode only at a base ratio below or above
    1, and one per ignored pod when it rebalances: the number of samples
    that multiplies the recomputed ratio is the sum of these counts. *)
Theorem fillIn_sample_count (usageRatio : float) (targetUtilization : Z)
    (requests : gmap string Z) (missingPods ignoredPods : gset string)
    (metrics : PodMetricsInfo) :
  (∀ name, name ∈ missingPods → metrics !! name = None) →
  (∀ name, name ∈ ignoredPods → metrics !! name = None) →
  missingPods ## ignoredPods →
  let rebalanceIgnored := rebalance ignoredPods usageRatio in
  let plain :=
    plainFillIn usageRatio rebalanceIgnored targetUtilization
                missingPods ignoredPods metrics in
  let utilization :=
    utilizationFillIn usageRatio rebalanceIgnored requests
                      missingPods ignoredPods metrics in
  size plain
  = size metrics + size missingPods
    + (if rebalanceIgnored then size ignoredPods else 0)
  ∧ size utilization
    = size metrics
      + (if ((usageRatio <? 1) || (1 <? usageRatio))%float
         then size missingPods else 0)
      + (if rebalanceIgnored then size ignoredPods else 0)
  ∧ (∀ name, is_Some (metrics !! name) →
             plain !! name = metrics !! name
             ∧ utilization !! name = metrics !! name).
Proof.
  intros Hmissing Hignored Hdisjoint rebalanceIgnored plain utilization.
  assert (Hwrite : ∀ (v : string → Z),
            size (setSamples missingPods v metrics)
            = size metrics + size missingPods
            ∧ ∀ w, size (setSamples ignoredPods w
                           (setSamples missingPods v metrics))
                   = size metrics + size missingPods + size ignoredPods).
  { intros v. split; [by apply size_setSamples|].
    intros w. rewrite size_setSamples, size_setSamples; [lia|done|].
    intros name Hin. rewrite lookup_setSamples.
    rewrite decide_False by (intros Hm; by apply (Hdisjoint name)).
    by apply Hignored. }
  assert (Hkeep : ∀ (m : PodMetricsInfo),
            size m = size metrics →
            (∀ name, name ∈ ignoredPods → m !! name = None) →
            size (if rebalanceIgnored
                  then setSamples ignoredPods (λ _, 0%Z) m else m)
            = size metrics + (if rebalanceIgnored then size ignoredPods else 0)).
  { intros m Hsize Hfresh. destruct rebalanceIgnored; [|lia].
    rewrite size_setSamples by done. lia. }
  split; [|split].
  - unfold plain, plainFillIn.
    case_bool_decide as Hsize.
    + destruct (usageRatio <? 1)%float;
        destruct rebalanceIgnored;
        first [ rewrite (proj2 (Hwrite _)); lia
              | rewrite (proj1 (Hwrite _)); lia ].
    + assert (size missingPods = 0) as Hzero by lia.
      rewrite Hzero, Hkeep by done. lia.
  - unfold utilization, utilizationFillIn.
    case_bool_decide as Hsize.
    + destruct (usageRatio <? 1)%float; simpl.
      * destruct rebalanceIgnored;
          first [ rewrite (proj2 (Hwrite _)); lia
                | rewrite (proj1 (Hwrite _)); lia ].
      * destruct (1 <? usageRatio)%float;
          [destruct rebalanceIgnored;
             first [ rewrite (proj2 (Hwrite _)); lia
                   | rewrite (proj1 (Hwrite _)); lia ]|].
        rewrite Hkeep by done. lia.
    + assert (size missingPods = 0) as Hzero by lia.
      rewrite Hzero, Hkeep by done.
      destruct ((usageRatio <? 1) || (1 <? usageRatio))%float; lia.
  - intros name [x Hx].
    assert (name ∉ missingPods) as Hnm
      by (intros Hin; rewrite (Hmissing name Hin) in Hx; done).
    assert (name ∉ ignoredPods) as Hni
      by (intros Hin; rewrite (Hignored name Hin) in Hx; done).
    assert (Hsame : ∀ (pods : gset string) v (m : PodMetricsInfo),
              name ∉ pods → setSamples pods v m !! name = m !! name).
    { intros pods v m Hn. rewrite lookup_setSamples.
      by rewrite decide_False. }
    split.
    + unfold plain, plainFillIn.
      destruct rebalanceIgnored; [rewrite Hsame by done|];
        (case_bool_decide; [|reflexivity]);
        destruct (usageRatio <? 1)%float; by rewrite Hsame.
    + unfold utilization, utilizationFillIn.
      destruct rebalanceIgnored; [rewrite Hsame by done|];
        (case_bool_decide; [|reflexivity]);
        destruct (usageRatio <? 1)%float; [by rewrite Hsame| |by rewrite Hsame|];
        destruct (1 <? usageRatio)%float; first [by rewrite Hsame|reflexivity].
Qed.

Lemma fillIn_sample_count_witness :
  size (plainFillIn 1.5 (rebalance {["pod-3"]} 1.5) 10
                    {["pod-2"]} {["pod-3"]} (sample "pod-1" 15 ∅))
  = size (sample "pod-1" 15 ∅) + size ({["pod-2"]} : gset string)
    + (if rebalance {["pod-3"]} 1.5
       then size ({["pod-3"]} : gset string) else 0).
Proof.
  assert (H2 : ∀ name : string, name ∈ ({["pod-2"]} : gset string) →
                 sample "pod-1" 15 ∅ !! name = None).
  { intros name Hin. apply elem_of_singleton in Hin as ->.
    vm_compute. reflexivity. }
  assert (H3 : ∀ name : string, name ∈ ({["pod-3"]} : gset string) →
                 sample "pod-1" 15 ∅ !! name = None).
  { intros name Hin. apply elem_of_singleton in Hin as ->.
    vm_compute. reflexivity. }
  assert (Hd : ({["pod-2"]} : gset string) ## {["pod-3"]}).
  { intros name Hm Hi.
    apply elem_of_singleton in Hm as ->.
    apply elem_of_singleton in Hi. discriminate. }
  exact (proj1 (fillIn_sample_count 1.5 10 ∅ {["pod-2"]} {["pod-3"]}
                  (sample "pod-1" 15 ∅) H2 H3 Hd)).
Defined.

(** X18: the fill-in of the utilization mode, sample by sample: when it
    rebalances, an ignored pod gets a sample of 0; otherwise a missing pod
    gets its own request (0 without one) at a base ratio below 1, a sample
    of 0 at a base ratio above 1, and no sample at a ratio that is neither;
    every other pod keeps what it had. *)
Theorem lookup_utilizationFillIn (usageRatio : float)
    (rebalanceIgnored : bool) (requests : gmap string Z)
    (missingPods ignoredPods : gset string) (metrics : PodMetricsInfo)
    (podName : string) :
  utilizationFillIn usageRatio rebalanceIgnored requests
                    missingPods ignoredPods metrics !! podName
  = if decide (rebalanceIgnored = true ∧ podName ∈ ignoredPods)
    then Some (withValue 0)
    else if decide (podName ∈ missingPods)
         then if (usageRatio <? 1)%float
              then Some (withValue (default 0%Z (requests !! podName)))
              else if (1 <? usageRatio)%float
                   then Some (withValue 0)
                   else metrics !! podName
         else metrics !! podName.
Proof.
  unfold utilizationFillIn.
  assert (Hmissing :
    (if bool_decide (0 < size missingPods)%nat
     then if (usageRatio <? 1)%float
          then setSamples missingPods
                 (λ podName, default 0%Z (requests !! podName)) metrics
          else if (1 <? usageRatio)%float
               then setSamples missingPods (λ _, 0%Z) metrics
               else metrics
     else metrics) !! podName
    = if decide (podName ∈ missingPods)
      then if (usageRatio <? 1)%float
           then Some (withValue (default 0%Z (requests !! podName)))
           else if (1 <? usageRatio)%float
                then Some (withValue 0)
                else metrics !! podName
      else metrics !! podName).
  { case_bool_decide as Hsize.
    - destruct (usageRatio <? 1)%float; [apply lookup_setSamples|].
      destruct (1 <? usageRatio)%float; [apply lookup_setSamples|].
      by destruct (decide (podName ∈ missingPods)).
    - assert (missingPods = ∅) as ->
        by (apply leibniz_equiv, size_empty_iff; lia).
      rewrite decide_False by set_solver. reflexivity. }
  destruct rebalanceIgnored.
  - rewrite lookup_setSamples.
    destruct (decide (podName ∈ ignoredPods)) as [Hin|Hin].
    + rewrite decide_True by done. reflexivity.
    + rewrite decide_False by (intros [_ ?]; done). apply Hmissing.
  - rewrite decide_False by (intros [? _]; done). apply Hmissing.
Qed.
